(** * personal-finance-classifier: cleaning pipeline and rule-based classifier

  A shallow embedding of [src/utils.py] and [src/classifier.py].

  Conventions of the embedding.
  - A Python [str] is a Rocq [string], one character per element.  The
    string functions are Python's on ASCII text ([is_ascii]): [lower] and
    [upper] act on [A-Z] and [a-z], [strip] removes the ASCII whitespace
    characters (codes 9-13, 28-31 and 32), and a slice counts characters.
    On other characters they act as the identity, which Python does not;
    a property that depends on it carries the hypothesis [is_ascii].
  - A float amount is a rational [Q]; only comparison with zero and the
    absolute value are used on it.
  - A pandas [DataFrame] is column-major: an index of labels and an
    ordered list of named columns, whose names may repeat.
  - An exception is an error value: [None], or the left component of a
    sum.
  - The library parsers [pd.to_numeric] and [pd.to_datetime] are
    parameters of the cleaning section.  The worked examples instantiate
    them with parsers of plain decimal literals and ISO dates. *)

From Stdlib Require Import ZArith QArith Qabs Ascii String List Bool Lia.
From Stdlib Require Import Permutation Sorted Orders Mergesort DecimalString.
From Stdlib Require DecimalNat.
From stdpp Require Import base option list strings gmap.

Local Open Scope string_scope.
Local Open Scope list_scope.

(* ===================================================================== *)
(** ** Python string primitives *)
(* ===================================================================== *)

Module PyStr.

(** [str.isspace] on one ASCII character. *)
Definition is_space (c : ascii) : bool :=
  let n := nat_of_ascii c in
  ((9 <=? n)%nat && (n <=? 13)%nat) || ((28 <=? n)%nat && (n <=? 32)%nat).

Definition lower_char (c : ascii) : ascii :=
  let n := nat_of_ascii c in
  if ((65 <=? n)%nat && (n <=? 90)%nat) then ascii_of_nat (n + 32) else c.

Definition upper_char (c : ascii) : ascii :=
  let n := nat_of_ascii c in
  if ((97 <=? n)%nat && (n <=? 122)%nat) then ascii_of_nat (n - 32) else c.

Fixpoint smap (f : ascii -> ascii) (s : string) : string :=
  match s with
  | EmptyString => EmptyString
  | String c s' => String (f c) (smap f s')
  end.

(** [s.lower()] and [s.upper()]. *)
Definition lower (s : string) : string := smap lower_char s.
Definition upper (s : string) : string := smap upper_char s.

(** [len(s)]. *)
Definition len (s : string) : nat := String.length s.

(** [s.startswith(p)]. *)
Definition startswith (s p : string) : bool := String.prefix p s.

(** [p in s]: [p] occurs as a substring of [s]. *)
Fixpoint contains (p s : string) : bool :=
  String.prefix p s ||
  match s with
  | EmptyString => false
  | String _ s' => contains p s'
  end.

(** [s[n:]] and [s[:n]] for a non-negative [n]. *)
Fixpoint drop (n : nat) (s : string) : string :=
  match n, s with
  | O, _ => s
  | S _, EmptyString => EmptyString
  | S n', String _ s' => drop n' s'
  end.

Fixpoint take (n : nat) (s : string) : string :=
  match n, s with
  | O, _ => EmptyString
  | S _, EmptyString => EmptyString
  | S n', String c s' => String c (take n' s')
  end.

Fixpoint lstrip (s : string) : string :=
  match s with
  | EmptyString => EmptyString
  | String c s' => if is_space c then lstrip s' else s
  end.

Fixpoint rstrip (s : string) : string :=
  match s with
  | EmptyString => EmptyString
  | String c s' =>
      match rstrip s' with
      | EmptyString => if is_space c then EmptyString else String c EmptyString
      | r => String c r
      end
  end.

(** [s.strip()]. *)
Definition strip (s : string) : string := rstrip (lstrip s).

(** [s.replace(c, '')] for a one-character pattern [c]. *)
Fixpoint remove_char (c : ascii) (s : string) : string :=
  match s with
  | EmptyString => EmptyString
  | String a s' =>
      if Ascii.eqb a c then remove_char c s' else String a (remove_char c s')
  end.

Definition is_empty (s : string) : bool :=
  match s with EmptyString => true | _ => false end.

(** *** Predicates on characters, used to state properties *)

(** Every character of [s] satisfies [p]. *)
Fixpoint all_chars (p : ascii -> bool) (s : string) : bool :=
  match s with
  | EmptyString => true
  | String c s' => p c && all_chars p s'
  end.

(** A non-empty word without whitespace. *)
Definition is_word (kw : string) : bool :=
  negb (is_empty kw) && all_chars (fun c => negb (is_space c)) kw.


(** Not a lower-case ASCII letter. *)
Definition not_lower (c : ascii) : bool :=
  let n := nat_of_ascii c in
  negb ((97 <=? n)%nat && (n <=? 122)%nat).

(** A decimal digit. *)
Definition is_digit (c : ascii) : bool :=
  let n := nat_of_ascii c in
  (48 <=? n)%nat && (n <=? 57)%nat.


(** [s.isascii()]: every character has a code below 128. *)
Definition is_ascii_char (c : ascii) : bool := (nat_of_ascii c <? 128)%nat.

Definition is_ascii (s : string) : bool := all_chars is_ascii_char s.

End PyStr.

(** [amount > 0] and [abs(amount)] on rationals. *)
Definition Qltb (x y : Q) : bool :=
  (Qnum x * QDen y <? Qnum y * QDen x)%Z.

Definition gt0 (amount : Q) : bool := Qltb 0 amount.

(* ===================================================================== *)
(** ** classifier.py *)
(* ===================================================================== *)

Module Classifier.
Import PyStr.

(** The module-level dict [CATEGORY_KEYWORDS], in declaration order. *)
Definition CATEGORY_KEYWORDS : list (string * list string) :=
  [ ("Food & Dining",
     [ "restaurant"; "cafe"; "coffee"; "starbucks"; "dunkin"; "mcdonald";
       "burger"; "pizza"; "chipotle"; "subway"; "taco"; "doordash";
       "ubereats"; "grubhub"; "postmates"; "seamless"; "delivery";
       "diner"; "bistro"; "grill"; "bar"; "pub"; "kitchen"; "food";
       "dining"; "eatery"; "panera"; "chick-fil-a"; "chick fil a"; "wendys"; "kfc";
       "panda express"; "taco bell"; "coffee hut"; "dairy queen";
       "in n out"; "domino"; "yogurtland"; "coldstone"; "ice cream";
       "wingstop"; "cajun"; "burrito"; "snack"; "salt and straw";
       "koja kitchen"; "purple kow"; "yogurt park"; "mochiholic";
       "bricks cafe"; "sweet spot"; "matcha cafe"; "ice monster";
       "angry chickz"; "campus burgers"; "too good to go" ]);
    ("Groceries",
     [ "grocery"; "supermarket"; "whole foods"; "trader joe"; "trader jo";
       "safeway"; "kroger"; "walmart"; "target"; "costco"; "sam's club"; "aldi";
       "publix"; "wegmans"; "heb"; "market"; "fresh"; "food lion";
       "giant eagle"; "stop & shop"; "harris teeter"; "sprouts";
       "dollar tree"; "dollartre" ]);
    ("Transportation",
     [ "uber"; "lyft"; "taxi"; "cab"; "transit"; "subway"; "metro";
       "bus"; "train"; "parking"; "gas"; "fuel"; "shell"; "exxon";
       "chevron"; "bp"; "mobil"; "citgo"; "speedway"; "wawa";
       "car wash"; "auto"; "vehicle"; "dmv"; "registration"; "toll";
       "sokwik" ]);
    ("Entertainment",
     [ "movie"; "cinema"; "theater"; "theatre"; "netflix"; "hulu";
       "spotify"; "apple music"; "disney"; "hbo";
       "youtube"; "twitch"; "game"; "gaming"; "steam"; "playstation";
       "xbox"; "nintendo"; "concert"; "ticket"; "ticketmaster";
       "stubhub"; "sports event"; "gym"; "fitness"; "club"; "membership" ]);
    ("Gambling/Sports Betting",
     [ "prizepicks"; "underdog"; "draftkings"; "fanduel"; "betmgm";
       "caesars"; "pointsbet"; "bet365"; "unibet"; "bovada";
       "mybookie"; "bet online"; "sports bet"; "casino"; "poker";
       "slots"; "lottery"; "scratch"; "gambling" ]);
    ("Subscriptions",
     [ "whop"; "patreon"; "onlyfans"; "substack"; "chatgpt"; "openai";
       "adobe"; "office 365"; "icloud"; "dropbox"; "google one";
       "youtube premium"; "spotify premium"; "apple one"; "microsoft 365";
       "creative cloud"; "zoom"; "slack"; "notion"; "canva";
       "grammarly"; "medium"; "scribd"; "prime video"; "walter ai";
       "agent eo premium"; "worldfinancialgroup"; "amazon prime";
       "apple.com bill"; "apple com bill"; "apple bill" ]);
    ("Transfers",
     [ "apple cash"; "apple pay balance"; "venmo"; "zelle"; "paypal";
       "cash app"; "google pay"; "facebook pay"; "transfer to";
       "transfer from"; "pmnt sent"; "pmnt received"; "p2p transfer";
       "peer to peer"; "balance add"; "balance transfer"; "pc transfer";
       "ppd"; "cashout"; "direct pay"; "direct deposit" ]);
    ("Shopping",
     [ "amazon"; "ebay"; "etsy"; "shop"; "store"; "mall"; "retail";
       "best buy"; "apple store"; "nike"; "adidas"; "macy"; "nordstrom";
       "gap"; "zara"; "h&m"; "forever 21"; "old navy"; "tj maxx";
       "marshalls"; "ross"; "kohls"; "jcpenney"; "sephora"; "ulta";
       "home depot"; "lowes"; "ikea"; "furniture"; "clothing"; "apparel";
       "cscsw"; "temu"; "shein"; "wish"; "aliexpress"; "wayfair";
       "fashionnova"; "tiktok shop"; "shop miss a" ]);
    ("Bills & Utilities",
     [ "electric"; "electricity"; "power"; "gas company"; "water";
       "internet"; "cable"; "phone"; "mobile"; "verizon"; "at&t";
       "t-mobile"; "sprint"; "comcast"; "xfinity"; "spectrum";
       "utility"; "bill payment"; "insurance"; "rent"; "mortgage";
       "loan"; "credit card payment"; "bank fee" ]);
    ("Health",
     [ "pharmacy"; "cvs"; "walgreens"; "rite aid"; "medical"; "hospital";
       "doctor"; "clinic"; "health"; "dental"; "dentist"; "vision";
       "optometry"; "prescription"; "medicine"; "wellness"; "therapy";
       "counseling"; "urgent care"; "emergency"; "lab"; "test" ]);
    ("Income",
     [ "salary"; "payroll"; "deposit"; "direct deposit"; "payment received";
       "refund"; "reimbursement"; "bonus"; "dividend";
       "interest"; "cashback"; "reward"; "credit via trust" ]) ].

(** *** A Python dict with insertion order, as used for [category_scores] *)

Fixpoint dict_set (d : list (string * nat)) (k : string) (v : nat)
  : list (string * nat) :=
  match d with
  | [] => [(k, v)]
  | (k', v') :: d' =>
      if String.eqb k' k then (k', v) :: d' else (k', v') :: dict_set d' k v
  end.

Fixpoint dict_get (d : list (string * nat)) (k : string) : option nat :=
  match d with
  | [] => None
  | (k', v') :: d' => if String.eqb k' k then Some v' else dict_get d' k
  end.

Definition dict_keys (d : list (string * nat)) : list string := map fst d.

(** One step of [max(keys, key=f)]: a later key replaces the best one only
    when its [f] is strictly greater. *)
Definition keep_best (f : string -> nat) (best k' : string) : string :=
  if (f best <? f k')%nat then k' else best.

(** [max(keys, key=f)]: the first key whose [f] is maximal; [None] stands
    for the [ValueError] on an empty iterable. *)
Definition py_max (keys : list string) (f : string -> nat) : option string :=
  match keys with
  | [] => None
  | k :: ks => Some (fold_left (keep_best f) ks k)
  end.

(** The inner loop: [score += len(keyword)] for each keyword found. *)
Definition keyword_score (description_lower : string) (keywords : list string) : nat :=
  fold_left
    (fun score keyword =>
       if contains (lower keyword) description_lower
       then (score + len keyword)%nat else score)
    keywords 0%nat.

(** The outer loop filling [category_scores]. *)
Definition category_scores_of (categories : list (string * list string))
           (description_lower : string) : list (string * nat) :=
  fold_left
    (fun scores '(category, keywords) =>
       dict_set scores category (keyword_score description_lower keywords))
    categories [].

Definition classify_with (categories : list (string * list string))
           (description : string) (amount : Q) : string :=
  if gt0 amount then "Income"
  else
    let description_lower := lower description in
    let category_scores := category_scores_of categories description_lower in
    match category_scores with
    | [] => "Other"
    | _ =>
        match py_max (dict_keys category_scores)
                     (fun k => default 0%nat (dict_get category_scores k)) with
        | Some best_category =>
            if (0 <? default 0%nat (dict_get category_scores best_category))%nat
            then best_category else "Other"
        | None => "Other"
        end
    end.

(** [RuleBasedClassifier.classify], with [self.categories = CATEGORY_KEYWORDS]. *)
Definition classify (description : string) (amount : Q) : string :=
  classify_with CATEGORY_KEYWORDS description amount.

(** [RuleBasedClassifier.classify_batch]: a comprehension over [zip]. *)
Definition classify_batch (descriptions : list string) (amounts : list Q)
  : list string :=
  map (fun '(desc, amt) => classify desc amt) (combine descriptions amounts).

(** [get_all_categories]: the names of the table, then ['Other']. *)
Definition get_all_categories : list string :=
  map fst CATEGORY_KEYWORDS ++ ["Other"].

End Classifier.

(* ===================================================================== *)
(** ** Tables *)
(* ===================================================================== *)

(** A [DataFrame]: the index labels and the named columns, in order.
    Column names may repeat, as in pandas. *)
Record DataFrame (V : Type) : Type := mkFrame {
  index : list nat;
  columns : list (string * list V)
}.
Arguments mkFrame {V} _ _.
Arguments index {V} _.
Arguments columns {V} _.

Definition column_names {V} (df : DataFrame V) : list string :=
  map fst (columns df).

(** The first column that bears the name, if any: the column the name
    keeps under [df.loc[:, ~df.columns.duplicated()]]. *)
Definition first_col {V} (df : DataFrame V) (name : string) : option (list V) :=
  snd <$> find (fun c => String.eqb (fst c) name) (columns df).

(** [df[name]] as a [Series]: the column of that name when exactly one
    column bears it.  [None] stands for the [KeyError] of an absent name,
    and for a repeated name: pandas then hands back a [DataFrame], on which
    the [Series] operations of this program raise. *)
Definition get_col {V} (df : DataFrame V) (name : string) : option (list V) :=
  match List.filter (fun c => String.eqb (fst c) name) (columns df) with
  | [c] => Some (snd c)
  | _ => None
  end.

(** Every column has one value per index label, as pandas guarantees. *)
Definition rectangular {V} (df : DataFrame V) : Prop :=
  Forall (fun c => length (snd c) = length (index df)) (columns df).

(** [col in names] on a Python list of strings. *)
Definition elem (s : string) (l : list string) : bool :=
  existsb (String.eqb s) l.

(** A pandas [Timestamp] by its calendar fields; [ts_nanos] is the time of
    day.  Timestamps are ordered field by field. *)
Record Timestamp : Type := mkTimestamp {
  ts_year : nat;
  ts_month : nat;
  ts_day : nat;
  ts_nanos : nat
}.

Definition ts_key (t : Timestamp) : list nat :=
  [ts_year t; ts_month t; ts_day t; ts_nanos t].

Fixpoint lex_leb (a b : list nat) : bool :=
  match a, b with
  | [], _ => true
  | _ :: _, [] => false
  | x :: a', y :: b' =>
      match Nat.compare x y with
      | Lt => true
      | Gt => false
      | Eq => lex_leb a' b'
      end
  end.

Definition ts_leb (a b : Timestamp) : bool := lex_leb (ts_key a) (ts_key b).

(** A row of the working table once amount and date are parsed; [c_index]
    is its index label. *)
Record CleanRow : Type := mkCleanRow {
  c_index : nat;
  c_date : Timestamp;
  c_description : string;
  c_amount : Q
}.

Module DateOrder <: TotalLeBool.
Definition t := CleanRow.
Definition leb (a b : CleanRow) : bool := ts_leb (c_date a) (c_date b).
Lemma lex_leb_total (a b : list nat) : lex_leb a b = false -> lex_leb b a = true.
Proof.
  revert b; induction a as [|x a IH]; intros [|y b]; simpl; try easy.
  rewrite (Nat.compare_antisym x y).
  destruct (Nat.compare x y); simpl; auto; discriminate.
Qed.
Lemma leb_total (a b : CleanRow) : leb a b = true \/ leb b a = true.
Proof.
  unfold leb, ts_leb.
  destruct (lex_leb (ts_key (c_date a)) (ts_key (c_date b))) eqn:E; auto.
  right; now apply lex_leb_total.
Qed.
End DateOrder.

Module DateSort := Sort DateOrder.

(** [df.sort_values('date')]: pandas leaves the order among equal dates to
    its sorting algorithm; the model sorts stably. *)
Definition sort_values_date (rows : list CleanRow) : list CleanRow :=
  DateSort.sort rows.

(** [df.reset_index(drop=True)]: labels become [0 .. n-1]. *)
Fixpoint relabel (start : nat) (rows : list CleanRow) : list CleanRow :=
  match rows with
  | [] => []
  | r :: rows' =>
      mkCleanRow start (c_date r) (c_description r) (c_amount r)
        :: relabel (S start) rows'
  end.

Definition reset_index (rows : list CleanRow) : list CleanRow := relabel 0 rows.

(** A row without its index label. *)
Definition row_content (r : CleanRow) : Timestamp * string * Q :=
  (c_date r, c_description r, c_amount r).

(* ===================================================================== *)
(** ** utils.py: merchant names, header detection, column names *)
(* ===================================================================== *)

Module Utils.
Import PyStr.

Definition prefixes_to_remove : list string :=
  [ "DEBIT CARD PURCHASE - ";
    "PURCHASE AUTHORIZED ON ";
    "CARD PURCHASE - ";
    "PAYMENT TO ";
    "TRANSFER TO ";
    "TRANSFER FROM " ].

(** The loop [for prefix in prefixes: if description.startswith(prefix):
    description = description[len(prefix):]]; it has no [break]. *)
Definition remove_prefixes (prefixes : list string) (description : string) : string :=
  fold_left
    (fun description prefix =>
       if startswith description prefix
       then drop (len prefix) description else description)
    prefixes description.

Definition extract_merchant_name (description : string) : string :=
  let description := strip (upper description) in
  let description := remove_prefixes prefixes_to_remove description in
  let description := strip (take 50 description) in
  if is_empty description then "Unknown" else description.

Definition required_keywords : list string := ["date"; "description"; "amount"].

(** The body of the scan for one row: the number of keywords found. *)
Definition count_matches (row : list string) : nat :=
  let row_lower := map (fun cell => strip (lower cell)) row in
  fold_left
    (fun matches keyword =>
       if existsb (fun cell => contains keyword cell) row_lower
       then S matches else matches)
    required_keywords 0%nat.

(** [for idx, row in enumerate(rows): ... if matches == 3: return idx],
    then [return 0]. *)
Fixpoint scan_rows (idx : nat) (rows : list (list string)) : nat :=
  match rows with
  | [] => 0%nat
  | row :: rest =>
      if (count_matches row =? 3)%nat then idx else scan_rows (S idx) rest
  end.

(** [detect_header_row]: the argument is what [csv.reader] yields for the
    decoded file, [None] when decoding or reading raises (the [except]
    branch).  Only the first 20 rows are kept. *)
Definition detect_header_row (reader : option (list (list string))) : nat :=
  match reader with
  | None => 0%nat
  | Some parsed =>
      let rows := firstn 20 parsed in
      scan_rows 0 rows
  end.

Definition date_variations : list string :=
  [ "date"; "posted date"; "transaction date"; "post date"; "trans date";
    "posting date"; "trans_date"; "posted_date"; "transaction_date" ].

Definition description_variations : list string :=
  [ "description"; "desc"; "merchant"; "transaction description";
    "trans description"; "details"; "memo"; "payee"; "name";
    "transaction_description"; "trans_description" ].

Definition amount_variations : list string :=
  [ "amount"; "amt"; "transaction amount"; "trans amount"; "value";
    "debit"; "credit"; "transaction_amount"; "trans_amount" ].

(** [key in column_mapping]: membership among the keys of the dict. *)
Definition has_key (m : gmap string string) (key : string) : bool :=
  bool_decide (is_Some (m !! key)).

(** One iteration of the loop over [df.columns]. *)
Definition mapping_step (column_mapping : gmap string string) (col : string)
  : gmap string string :=
  let col_lower := strip (lower col) in
  if elem col_lower date_variations || contains "date" col_lower then
    if negb (has_key column_mapping "date")
    then <[col := "date"]> column_mapping else column_mapping
  else if elem col_lower description_variations
          || contains "description" col_lower || contains "merchant" col_lower then
    if negb (has_key column_mapping "description")
    then <[col := "description"]> column_mapping else column_mapping
  else if elem col_lower amount_variations || contains "amount" col_lower then
    if negb (has_key column_mapping "amount")
    then <[col := "amount"]> column_mapping else column_mapping
  else column_mapping.

Definition build_mapping (cols : list string) : gmap string string :=
  fold_left mapping_step cols ∅.

(** [df.rename(columns=mapping)]: every column whose name is a key takes
    the mapped name; the values are untouched. *)
Definition rename {V} (mapping : gmap string string) (df : DataFrame V)
  : DataFrame V :=
  mkFrame (index df)
          (map (fun c => (default (fst c) (mapping !! fst c), snd c)) (columns df)).

Definition normalize_column_names {V} (df : DataFrame V) : DataFrame V :=
  let column_mapping := build_mapping (column_names df) in
  if bool_decide (column_mapping = ∅) then df else rename column_mapping df.

(** [sep.join(items)] *)
Fixpoint join (sep : string) (items : list string) : string :=
  match items with
  | [] => EmptyString
  | [x] => x
  | x :: rest => x ++ sep ++ join sep rest
  end.

(** [df.empty]: some axis has length 0. *)
Definition df_empty {V} (df : DataFrame V) : bool :=
  (length (index df) =? 0)%nat || (length (columns df) =? 0)%nat.

(** [validate_csv_structure]; the argument is [None] when [df is None]. *)
Definition validate_csv_structure {V} (df : option (DataFrame V))
  : bool * option string :=
  match df with
  | None => (false, Some "CSV file is empty")
  | Some df =>
      if df_empty df then (false, Some "CSV file is empty")
      else
        let columns_lower := map (fun col => strip (lower col)) (column_names df) in
        let required := ["date"; "description"; "amount"] in
        let missing :=
          List.filter (fun col => negb (elem col columns_lower)) required in
        match missing with
        | _ :: _ =>
            (false,
             Some ("Missing required columns: " ++ join ", " missing
                   ++ ". Expected columns: date, description, amount")%string)
        | [] => (true, None)
        end
  end.

(** The canonical name a column name resolves to in [normalize_column_names],
    the date test coming first, then description, then amount. *)
Definition target (col : string) : option string :=
  let col_lower := strip (lower col) in
  if elem col_lower date_variations || contains "date" col_lower then Some "date"
  else if elem col_lower description_variations
          || contains "description" col_lower || contains "merchant" col_lower
       then Some "description"
  else if elem col_lower amount_variations || contains "amount" col_lower
       then Some "amount"
  else None.

(** Every entry of a column mapping sends a name to itself. *)
Definition maps_to_self (m : gmap string string) : Prop :=
  forall k v, m !! k = Some v -> v = k.

(** Every value of the mapping is a canonical name. *)
Definition maps_to_canonical (m : gmap string string) : Prop :=
  forall k v, m !! k = Some v -> In v ["date"; "description"; "amount"].

(** The mapping the loop has built after the columns of [done]. *)
Definition mapping_of (done : gset string) (m : gmap string string) : Prop :=
  forall k, m !! k = if decide (k ∈ done) then target k else None.

End Utils.

(* ===================================================================== *)
(** ** utils.py: clean_csv_data *)
(* ===================================================================== *)

Module Cleaning.
Import PyStr.

(** A field of a removed-row record that holds either the literal string
    ['Invalid'] or a value taken from the row. *)
Inductive Marked (A : Type) : Type :=
| Invalid
| Kept (a : A).
Arguments Invalid {A}.
Arguments Kept {A} _.

(** A row of the working table [df_clean]: [D] and [A] are the types the
    [date] and [amount] columns hold at that stage. *)
Record WorkRow (D A : Type) : Type := mkWorkRow {
  w_index : nat;
  w_date : D;
  w_description : string;
  w_amount : A
}.
Arguments mkWorkRow {D A} _ _ _ _.
Arguments w_index {D A} _.
Arguments w_date {D A} _.
Arguments w_description {D A} _.
Arguments w_amount {D A} _.

(** A row of the table reduced to the three required columns. *)
Record RawRow (Cell : Type) : Type := mkRaw {
  raw_index : nat;
  raw_date : Cell;
  raw_description : Cell;
  raw_amount : Cell
}.
Arguments mkRaw {Cell} _ _ _ _.
Arguments raw_index {Cell} _.
Arguments raw_date {Cell} _.
Arguments raw_description {Cell} _.
Arguments raw_amount {Cell} _.

(** An entry of [removed_rows]. *)
Record RemovedRow (Cell : Type) : Type := mkRemoved {
  r_index : nat;
  r_date : Marked Cell;
  r_description : string;
  r_amount : Marked Q;
  r_reason : string
}.
Arguments mkRemoved {Cell} _ _ _ _ _.
Arguments r_index {Cell} _.
Arguments r_date {Cell} _.
Arguments r_description {Cell} _.
Arguments r_amount {Cell} _.
Arguments r_reason {Cell} _.

Definition required_cols : list string := ["date"; "description"; "amount"].

Definition reason_amount : string := "Invalid amount (could not convert to number)".
Definition reason_date : string := "Invalid date (could not parse)".

(** The left component of a sum, if any. *)
Definition is_kept {A B} (x : A + B) : option A :=
  match x with inl a => Some a | inr _ => None end.

(** The exceptions [clean_csv_data] raises: the [ValueError] of line 34
    with the missing column names, and the [AttributeError] of line 54. *)
Inductive CleanError : Type :=
| ValueError (missing : list string)
| AttributeError.

(** The result of [series.squeeze()]. *)
Inductive Squeezed (A : Type) : Type :=
| Scalar (a : A)
| Series (values : list A).
Arguments Scalar {A} _.
Arguments Series {A} _.

(** [series.squeeze()]: a [Series] of one element becomes that element, a
    scalar; any other [Series] is returned as it is. *)
Definition squeeze {A} (series : list A) : Squeezed A :=
  match series with
  | [a] => Scalar a
  | _ => Series series
  end.

Section Clean.

(** The cells of the uploaded table and the pandas operations on them:
    [astype(str)] on one cell, [pd.to_numeric(_, errors='coerce')] on one
    string ([None] is NaN), and [pd.to_datetime(_, errors='coerce')] on
    one cell of a given column ([None] is NaT; the column is an argument
    because pandas infers the format from it). *)
Context {Cell : Type}.
Variable astype_str : Cell -> string.
Variable to_numeric : string -> option Q.
Variable to_datetime : list Cell -> Cell -> option Timestamp.

(** [df.columns = df.columns.str.lower().str.strip()] *)
Definition lower_strip_columns (df : DataFrame Cell) : DataFrame Cell :=
  mkFrame (index df) (map (fun c => (strip (lower (fst c)), snd c)) (columns df)).

Definition missing_cols (df : DataFrame Cell) : list string :=
  List.filter (fun col => negb (elem col (column_names df))) required_cols.

(** [df.columns.duplicated()]: the mask of the names already seen. *)
Fixpoint duplicated (seen : list string) (names : list string) : list bool :=
  match names with
  | [] => []
  | name :: names' => elem name seen :: duplicated (name :: seen) names'
  end.

(** [df.loc[:, ~mask]]: the columns whose mask bit is off. *)
Definition loc_not (mask : list bool) (df : DataFrame Cell) : DataFrame Cell :=
  mkFrame (index df)
          (map snd (List.filter (fun bc => negb (fst bc)) (zip mask (columns df)))).

(** [df[required_cols]] on the table lines 38-40 leave, where no name
    repeats; [None] is the [KeyError] of an absent name. *)
Definition select_required (df : DataFrame Cell) : option (DataFrame Cell) :=
  cols ← mapM (fun name => (fun c => (name, c)) <$> get_col df name) required_cols;
  Some (mkFrame (index df) cols).

(** Lines 27-42: the table reduced to the three required columns, or the
    [ValueError] listing the missing ones.  The [KeyError] branch is never
    taken, since no required name is missing there. *)
Definition column_reduce (df : DataFrame Cell) : list string + DataFrame Cell :=
  let df_clean := lower_strip_columns df in
  match missing_cols df_clean with
  | (_ :: _) as missing => inl missing
  | [] =>
      let mask := duplicated [] (column_names df_clean) in
      let df_clean := if existsb id mask then loc_not mask df_clean else df_clean in
      match select_required df_clean with
      | Some reduced => inr reduced
      | None => inl required_cols
      end
  end.

Fixpoint zip_rows (idx : list nat) (dates descriptions amounts : list Cell)
  : list (RawRow Cell) :=
  match idx, dates, descriptions, amounts with
  | i :: idx', d :: dates', x :: descriptions', a :: amounts' =>
      mkRaw i d x a :: zip_rows idx' dates' descriptions' amounts'
  | _, _, _, _ => []
  end.

(** The rows of a reduced table, each with its index label. *)
Definition rows_of (reduced : DataFrame Cell) : list (RawRow Cell) :=
  match get_col reduced "date", get_col reduced "description", get_col reduced "amount" with
  | Some dates, Some descriptions, Some amounts =>
      zip_rows (index reduced) dates descriptions amounts
  | _, _, _ => []
  end.

(** Lines 45-46. *)
Definition clean_description (cell : Cell) : string :=
  let s := strip (astype_str cell) in
  if elem s ["nan"; "None"; ""] then "Unknown" else s.

(** Line 54. *)
Definition amount_clean (cell : Cell) : string :=
  strip (remove_char "," (remove_char "$" (astype_str cell))).

(** Lines 45-58 on one row. *)
Definition coerce_row (r : RawRow Cell) : WorkRow Cell (option Q) :=
  mkWorkRow (raw_index r) (raw_date r)
            (clean_description (raw_description r))
            (to_numeric (amount_clean (raw_amount r))).

Definition invalid_amount_record (row : WorkRow Cell (option Q)) : RemovedRow Cell :=
  mkRemoved (w_index row) (Kept (w_date row)) (w_description row) Invalid reason_amount.

Definition invalid_date_record (row : WorkRow (option Timestamp) Q) : RemovedRow Cell :=
  mkRemoved (w_index row) Invalid (w_description row) (Kept (w_amount row)) reason_date.

(** [for idx, row in invalid.iterrows(): removed_rows.append(record)] *)
Definition append_records {R} (record : R -> RemovedRow Cell)
           (invalid : list R) (removed_rows : list (RemovedRow Cell))
  : list (RemovedRow Cell) :=
  fold_left (fun removed row => removed ++ [record row]) invalid removed_rows.

(** [df.dropna(subset=['amount'])] *)
Definition dropna_amount (rows : list (WorkRow Cell (option Q))) : list (WorkRow Cell Q) :=
  omap (fun r => mkWorkRow (w_index r) (w_date r) (w_description r) <$> w_amount r) rows.

(** [df['date'] = pd.to_datetime(df['date'], errors='coerce')] *)
Definition parse_dates (rows : list (WorkRow Cell Q)) : list (WorkRow (option Timestamp) Q) :=
  let column := map w_date rows in
  map (fun r => mkWorkRow (w_index r) (to_datetime column (w_date r))
                          (w_description r) (w_amount r)) rows.

(** [df.dropna(subset=['date'])] *)
Definition dropna_date (rows : list (WorkRow (option Timestamp) Q)) : list CleanRow :=
  omap (fun r => (fun d => mkCleanRow (w_index r) d (w_description r) (w_amount r))
                   <$> w_date r) rows.

Definition isna {A} (o : option A) : bool :=
  match o with None => true | Some _ => false end.

(** Lines 45-89: the working table before sorting, with the original index
    labels, and the removed rows.  Line 50 squeezes the [amount] column: on
    a table of one row it becomes a scalar, which has no [.astype(str).str],
    so that line 54 raises [AttributeError]. *)
Definition clean_unsorted (rows : list (RawRow Cell))
  : CleanError + (list CleanRow * list (RemovedRow Cell)) :=
  let removed_rows := [] in
  match squeeze (map raw_amount rows) with
  | Scalar _ => inl AttributeError
  | Series _ =>
      let df_clean := map coerce_row rows in
      let invalid_amounts := List.filter (fun r => isna (w_amount r)) df_clean in
      let removed_rows := append_records invalid_amount_record invalid_amounts removed_rows in
      let df_clean := dropna_amount df_clean in
      let df_clean := parse_dates df_clean in
      let invalid_dates := List.filter (fun r => isna (w_date r)) df_clean in
      let removed_rows := append_records invalid_date_record invalid_dates removed_rows in
      let df_clean := dropna_date df_clean in
      inr (df_clean, removed_rows)
  end.

(** Lines 45-94. *)
Definition clean_rows (rows : list (RawRow Cell))
  : CleanError + (list CleanRow * list (RemovedRow Cell)) :=
  match clean_unsorted rows with
  | inl error => inl error
  | inr (df_clean, removed_rows) =>
      inr (reset_index (sort_values_date df_clean), removed_rows)
  end.

(** [clean_csv_data]: [inl] is the exception raised. *)
Definition clean_csv_data (df : DataFrame Cell)
  : CleanError + (list CleanRow * list (RemovedRow Cell)) :=
  match column_reduce df with
  | inl missing => inl (ValueError missing)
  | inr reduced => clean_rows (rows_of reduced)
  end.

(** *** The cleaning seen row by row, used to state its properties *)

(** The amount of a row, parsed. *)
Definition amount_of (r : RawRow Cell) : option Q :=
  to_numeric (amount_clean (raw_amount r)).

(** The [date] column that [pd.to_datetime] receives: the dates of the
    rows whose amount parsed. *)
Definition date_column (rows : list (RawRow Cell)) : list Cell :=
  map raw_date (List.filter (fun r => negb (isna (amount_of r))) rows).

(** The record of a row removed for its amount. *)
Definition amount_record (r : RawRow Cell) : RemovedRow Cell :=
  mkRemoved (raw_index r) (Kept (raw_date r)) (clean_description (raw_description r))
            Invalid "Invalid amount (could not convert to number)".

(** What becomes of a row: its cleaned form, or its removed-row record. *)
Definition fate (rows : list (RawRow Cell)) (r : RawRow Cell)
  : CleanRow + RemovedRow Cell :=
  match amount_of r with
  | None => inr (amount_record r)
  | Some a =>
      match to_datetime (date_column rows) (raw_date r) with
      | None =>
          inr (mkRemoved (raw_index r) Invalid (clean_description (raw_description r))
                         (Kept a) "Invalid date (could not parse)")
      | Some d =>
          inl (mkCleanRow (raw_index r) d (clean_description (raw_description r)) a)
      end
  end.

(** The row is removed for its amount. *)
Definition amount_removed (r : RawRow Cell) : bool := isna (amount_of r).

(** The record of a row removed for its date, if it is. *)
Definition date_record (rows : list (RawRow Cell)) (r : RawRow Cell)
  : option (RemovedRow Cell) :=
  match amount_of r with
  | Some a =>
      match to_datetime (date_column rows) (raw_date r) with
      | None =>
          Some (mkRemoved (raw_index r) Invalid (clean_description (raw_description r))
                          (Kept a) "Invalid date (could not parse)")
      | Some _ => None
      end
  | None => None
  end.

End Clean.

End Cleaning.

(* ===================================================================== *)
(** ** Parsers for plain inputs *)
(* ===================================================================== *)

(** Two parsers with which the examples instantiate the parameters
    [to_numeric] and [to_datetime]: signed decimal literals, and ISO dates
    [YYYY-MM-DD] within the range of a pandas [Timestamp].  On the cells of
    the examples they give what pandas gives, the number of a literal being
    taken exactly.  They are not pandas' parsers, which read further forms
    (exponents, [inf], other date layouts); no property below is stated of
    them. *)
Module Parsers.

Definition digit_value (c : ascii) : option nat :=
  let n := nat_of_ascii c in
  if ((48 <=? n)%nat && (n <=? 57)%nat) then Some (n - 48)%nat else None.

(** Digits with at most one decimal point and at least one digit. *)
Fixpoint decimal_body (s : string) (mantissa : Z) (scale : option positive)
         (seen_digit : bool) : option Q :=
  match s with
  | EmptyString =>
      if seen_digit then Some (mantissa # default 1%positive scale) else None
  | String c s' =>
      if Ascii.eqb c "." then
        match scale with
        | None => decimal_body s' mantissa (Some 1%positive) seen_digit
        | Some _ => None
        end
      else
        match digit_value c with
        | Some d =>
            decimal_body s' (mantissa * 10 + Z.of_nat d)
                         ((fun p => (p * 10)%positive) <$> scale) true
        | None => None
        end
  end.

Definition decimal_to_numeric (s : string) : option Q :=
  match s with
  | String "-" s' => Qopp <$> decimal_body s' 0 None false
  | String "+" s' => decimal_body s' 0 None false
  | _ => decimal_body s 0 None false
  end.

Fixpoint digits_value (s : string) (acc : nat) : option nat :=
  match s with
  | EmptyString => Some acc
  | String c s' =>
      match digit_value c with
      | Some d => digits_value s' (acc * 10 + d)%nat
      | None => None
      end
  end.

Definition is_leap (y : nat) : bool :=
  ((y mod 4 =? 0) && negb (y mod 100 =? 0) || (y mod 400 =? 0))%nat.

Definition days_in_month (y m : nat) : nat :=
  match m with
  | 2 => if is_leap y then 29 else 28
  | 4 | 6 | 9 | 11 => 30
  | _ => 31
  end%nat.

(** The days a [Timestamp] can hold at midnight: 1677-09-22 to
    2262-04-11. *)
Definition in_timestamp_range (y m d : nat) : bool :=
  lex_leb [1677; 9; 22]%nat [y; m; d] && lex_leb [y; m; d] [2262; 4; 11]%nat.

(** [YYYY-MM-DD] with a valid month and day, within the range of a
    [Timestamp]; the column is not consulted. *)
Definition iso_to_datetime (column : list string) (cell : string) : option Timestamp :=
  if ((String.length cell =? 10)%nat
      && String.eqb (substring 4 1 cell) "-" && String.eqb (substring 7 1 cell) "-")
  then
    y ← digits_value (substring 0 4 cell) 0;
    m ← digits_value (substring 5 2 cell) 0;
    d ← digits_value (substring 8 2 cell) 0;
    if ((1 <=? m) && (m <=? 12) && (1 <=? d) && (d <=? days_in_month y m))%nat
       && in_timestamp_range y m d
    then Some (mkTimestamp y m d 0) else None
  else None.

End Parsers.

(* ===================================================================== *)
(** ** utils.py: add_derived_columns *)
(* ===================================================================== *)

Module Derived.

(** The values the tables of this model hold: text, floats, integers,
    timestamps and monthly periods. *)
Inductive Value : Type :=
| VStr (s : string)
| VNum (q : Q)
| VInt (z : Z)
| VDate (t : Timestamp)
| VPeriod (year month : nat).

(** [categorize_transaction_type]; [None] is the [TypeError] of comparing
    a text, a timestamp or a period with [0]. *)
Definition categorize_transaction_type (amount : Value) : option Value :=
  match amount with
  | VNum q => Some (VStr (if gt0 q then "Income" else "Expense"))
  | VInt z => Some (VStr (if (0 <? z)%Z then "Income" else "Expense"))
  | _ => None
  end.

(** [get_absolute_amount]; [None] is the [TypeError] of [abs] on a text,
    a timestamp or a period. *)
Definition get_absolute_amount (amount : Value) : option Value :=
  match amount with
  | VNum q => Some (VNum (Qabs q))
  | VInt z => Some (VInt (Z.abs z))
  | _ => None
  end.

(** [series.apply(f)] *)
Definition apply (f : Value -> option Value) (series : list Value)
  : option (list Value) :=
  mapM f series.

(** [series.dt.<accessor>]: defined on a datetime column only, which in
    this model is a column that holds timestamps only. *)
Definition dt (f : Timestamp -> Value) (series : list Value) : option (list Value) :=
  mapM (fun v => match v with VDate t => Some (f t) | _ => None end) series.

Definition decimal (n : nat) : string :=
  NilEmpty.string_of_uint (Nat.to_uint n).

Fixpoint zeros (n : nat) : string :=
  match n with
  | O => EmptyString
  | S n' => String "0" (zeros n')
  end.

Definition zero_pad (width n : nat) : string :=
  let s := decimal n in
  zeros (width - String.length s) ++ s.

Definition to_period_M (t : Timestamp) : Value := VPeriod (ts_year t) (ts_month t).
Definition year_of (t : Timestamp) : Value := VInt (Z.of_nat (ts_year t)).
(** [strftime('%Y-%m')] *)
Definition strftime_Y_m (t : Timestamp) : Value :=
  VStr (zero_pad 4 (ts_year t) ++ "-" ++ zero_pad 2 (ts_month t)).

(** [df[name] = values]: an existing column of that name is overwritten in
    place, otherwise the column is appended. *)
Definition set_col (df : DataFrame Value) (name : string) (values : list Value)
  : DataFrame Value :=
  if elem name (column_names df)
  then mkFrame (index df)
               (map (fun c => if String.eqb (fst c) name then (name, values) else c)
                    (columns df))
  else mkFrame (index df) (columns df ++ [(name, values)]).

Definition add_derived_columns (df : DataFrame Value) : option (DataFrame Value) :=
  let df_enhanced := df in
  col ← get_col df_enhanced "amount" ≫= apply categorize_transaction_type;
  let df_enhanced := set_col df_enhanced "transaction_type" col in
  col ← get_col df_enhanced "amount" ≫= apply get_absolute_amount;
  let df_enhanced := set_col df_enhanced "abs_amount" col in
  col ← get_col df_enhanced "date" ≫= dt to_period_M;
  let df_enhanced := set_col df_enhanced "month" col in
  col ← get_col df_enhanced "date" ≫= dt year_of;
  let df_enhanced := set_col df_enhanced "year" col in
  col ← get_col df_enhanced "date" ≫= dt strftime_Y_m;
  let df_enhanced := set_col df_enhanced "month_year" col in
  Some df_enhanced.

(** The table [clean_csv_data] returns, as a typed [DataFrame]. *)
Definition to_frame (rows : list CleanRow) : DataFrame Value :=
  mkFrame (map c_index rows)
          [ ("date", map (fun r => VDate (c_date r)) rows);
            ("description", map (fun r => VStr (c_description r)) rows);
            ("amount", map (fun r => VNum (c_amount r)) rows) ].



(** *** The derived columns, value by value *)

Definition derived_names : list string :=
  ["transaction_type"; "abs_amount"; "month"; "year"; "month_year"].

(** The [transaction_type] of a numeric amount. *)
Definition transaction_type_of (amount : Q) : Value :=
  VStr (if gt0 amount then "Income" else "Expense").

(** The five columns computed from the dates and the amounts. *)
Definition derived_columns (dates : list Timestamp) (amounts : list Q)
  : list (string * list Value) :=
  [ ("transaction_type", map transaction_type_of amounts);
    ("abs_amount", map (fun q => VNum (Qabs q)) amounts);
    ("month", map to_period_M dates);
    ("year", map year_of dates);
    ("month_year", map strftime_Y_m dates) ].

End Derived.

(* ===================================================================== *)
(** ** The specification's wording, for comparison with the code *)
(* ===================================================================== *)

Module Spec.
Import PyStr.

(** Score of a category as the specification words it: the sum of
    [len keyword] over the keywords that occur in the lower-cased
    description. *)
Definition score_spec (description_lower : string) (keywords : list string) : nat :=
  list_sum (map len (List.filter (fun kw => contains kw description_lower) keywords)).

(** Keyword classification as the specification words it: the first
    category, in declaration order, whose score is the maximum; ["Other"]
    when the maximum is 0. *)
Definition classify_keywords_spec (categories : list (string * list string))
           (description : string) : string :=
  let description_lower := lower description in
  let scores := map (fun ck => (fst ck, score_spec description_lower (snd ck))) categories in
  let best := list_max (map snd scores) in
  if (best =? 0)%nat then "Other"
  else match find (fun cs => (snd cs =? best)%nat) scores with
       | Some cs => fst cs
       | None => "Other"
       end.

(** A row is a header when each keyword occurs, ignoring case, in some
    cell of the row. *)
Definition is_header_row (row : list string) : bool :=
  forallb (fun keyword => existsb (fun cell => contains (lower keyword) (lower cell)) row)
          ["date"; "description"; "amount"].

(** Header detection as the specification words it: the index of the first
    header row among the first 20 rows, or 0. *)
Definition detect_header_row_spec (parsed : list (list string)) : nat :=
  match list_find (fun row => is_header_row row = true) (firstn 20 parsed) with
  | Some (i, _) => i
  | None => 0%nat
  end.

(** The last two lines of [extract_merchant_name]. *)
Definition finish_merchant (description : string) : string :=
  let description := strip (take 50 description) in
  if is_empty description then "Unknown" else description.

(** Prefix stripping as the specification words it: only the first prefix
    of the list that matches is removed. *)
Definition strip_first_prefix (prefixes : list string) (description : string) : string :=
  match find (fun prefix => startswith description prefix) prefixes with
  | Some prefix => drop (len prefix) description
  | None => description
  end.

Definition extract_merchant_name_spec (description : string) : string :=
  let description := strip (upper description) in
  let description := strip_first_prefix Utils.prefixes_to_remove description in
  let description := strip (take 50 description) in
  if is_empty description then "Unknown" else description.

(** Prefix stripping as the code performs it, worded without the loop.
    [strips_in_turn prefixes d stripped rest]: going once through
    [prefixes] from the text [d], a prefix is removed exactly when the text
    left at its turn starts with it; [stripped] lists the prefixes removed,
    in order, and [rest] is the text left at the end. *)
Inductive strips_in_turn : list string -> string -> list string -> string -> Prop :=
| turn_done (d : string) :
    strips_in_turn [] d [] d
| turn_strip (p : string) (ps : list string) (d : string)
             (stripped : list string) (rest : string) :
    startswith d p = true ->
    strips_in_turn ps (drop (len p) d) stripped rest ->
    strips_in_turn (p :: ps) d (p :: stripped) rest
| turn_skip (p : string) (ps : list string) (d : string)
            (stripped : list string) (rest : string) :
    startswith d p = false ->
    strips_in_turn ps d stripped rest ->
    strips_in_turn (p :: ps) d stripped rest.



End Spec.

(* ===================================================================== *)
(** ** Sample inputs *)
(* ===================================================================== *)

Module Examples.
Import Cleaning.

(** The first rows of an export whose header is on row 6. *)
Definition bank_preamble : list (list string) :=
  [ ["Account Summary"];
    ["Account Number"; "1234"];
    ["Statement Date"; "03/01/2024"];
    ["Description of account"; "Checking"];
    ["Total Amount"; "100.00"];
    [];
    ["Date"; "Description"; "Amount"; "Balance"];
    ["03/01/2024"; "COFFEE"; "-4.50"; "95.50"] ].

(** A table that already has the canonical column names. *)
Definition canonical_table : DataFrame string :=
  mkFrame [0; 1]%nat
          [ ("date", ["2024-01-15"; "2024-01-16"]);
            ("description", ["COFFEE"; "RENT"]);
            ("amount", ["-4.50"; "-900"]) ].

(** Two cleaned rows, one with a zero amount. *)
Definition two_cleaned_rows : list CleanRow :=
  [ mkCleanRow 0 (mkTimestamp 2024 1 15 0) "COFFEE" ((-9) # 2);
    mkCleanRow 1 (mkTimestamp 2024 3 1 0) "ADJUSTMENT" 0 ].

(** A four-row statement with a spare column: one row has no valid amount,
    one has no valid date. *)
Definition statement_table : DataFrame string :=
  mkFrame [0; 1; 2; 3]%nat
          [ (" Date ", ["2024-03-01"; "2024-01-15"; "soon"; "2024-02-01"]);
            ("Description", ["Coffee"; "nan"; "Fee"; "  "]);
            ("Amount", ["$1,234.56"; "-5"; "7"; "abc"]);
            ("Balance", ["1"; "2"; "3"; "4"]) ].

Definition statement_cleaned : list CleanRow :=
  [ mkCleanRow 0 (mkTimestamp 2024 1 15 0) "Unknown" (-5);
    mkCleanRow 1 (mkTimestamp 2024 3 1 0) "Coffee" (1234.56)%Q ].

Definition statement_removed : list (RemovedRow string) :=
  [ mkRemoved 3 (Kept "2024-02-01") "Unknown" Invalid
              "Invalid amount (could not convert to number)";
    mkRemoved 2 Invalid "Fee" (Kept 7%Q) "Invalid date (could not parse)" ].


(** Two rows, one of them a refund written with the sign before the
    currency symbol. *)
Definition refund_table : DataFrame string :=
  mkFrame [0; 1]%nat
          [ ("date", ["2024-01-15"; "2024-01-16"]);
            ("description", ["REFUND"; "COFFEE"]);
            ("amount", ["-$5.00"; "-4.50"]) ].

(** A statement of a single transaction. *)
Definition single_row_table : DataFrame string :=
  mkFrame [0]%nat
          [ ("Date", ["2024-01-15"]);
            ("Description", ["COFFEE"]);
            ("Amount", ["-4.50"]) ].

(** A bank export with two date columns and bank-specific names. *)
Definition export_table : DataFrame string :=
  mkFrame [0; 1]%nat
          [ ("Posted Date", ["2024-01-16"; "2024-01-18"]);
            ("Trans Date", ["2024-01-15"; "2024-01-17"]);
            ("Payee", ["COFFEE"; "RENT"]);
            ("Amt", ["-4.50"; "-900"]);
            ("Balance", ["95.50"; "-804.50"]) ].

(** The statement of [statement_table] without its spare column, with a
    second amount column instead. *)
Definition statement_table_variant : DataFrame string :=
  mkFrame [0; 1; 2; 3]%nat
          [ ("DATE", ["2024-03-01"; "2024-01-15"; "soon"; "2024-02-01"]);
            ("description  ", ["Coffee"; "nan"; "Fee"; "  "]);
            ("Amount", ["$1,234.56"; "-5"; "7"; "abc"]);
            ("AMOUNT", ["0"; "0"; "0"; "0"]) ].

End Examples.

(* ===================================================================== *)
(** ** Properties of the classifier *)
(* ===================================================================== *)

Section ClassifierFacts.
Import PyStr Classifier Spec.

Lemma Qltb_lt (x y : Q) : Qltb x y = true <-> (x < y)%Q.
Proof. unfold Qltb, Qlt. apply Z.ltb_lt. Qed.

Lemma gt0_false_iff (a : Q) : gt0 a = false <-> (a <= 0)%Q.
Proof.
  unfold gt0. split; intros H.
  - apply Qnot_lt_le. intros Hlt. apply Qltb_lt in Hlt. congruence.
  - destruct (Qltb 0 a) eqn:E; [|reflexivity].
    apply Qltb_lt in E. exfalso. eapply Qlt_not_le; eauto.
Qed.

(** C4. For every description and every amount strictly greater than
    zero, [classify] returns "Income", whatever the description holds. *)
Theorem classify_positive_income (description : string) (amount : Q) :
  (0 < amount)%Q -> classify description amount = "Income".
Proof.
  intros Hpos. unfold classify, classify_with.
  replace (gt0 amount) with true; [reflexivity|].
  symmetry. now apply Qltb_lt.
Qed.

Lemma classify_positive_income_witness :
  (0 < 25 # 2)%Q /\ classify "UBER TRIP STARBUCKS NETFLIX" (25 # 2) = "Income".
Proof.
  split; [reflexivity|].
  apply (classify_positive_income "UBER TRIP STARBUCKS NETFLIX" (25 # 2)).
  reflexivity.
Defined.

(** C10. [classify_batch] returns as many results as the shorter of its
    two lists has elements, the i-th being [classify] of the i-th
    description and the i-th amount; what is left of the longer list is
    ignored. *)
Theorem classify_batch_zip (descriptions : list string) (amounts : list Q) :
  length (classify_batch descriptions amounts)
    = Nat.min (length descriptions) (length amounts)
  /\ (forall i, (i < Nat.min (length descriptions) (length amounts))%nat ->
        exists d a, descriptions !! i = Some d /\ amounts !! i = Some a
                    /\ classify_batch descriptions amounts !! i = Some (classify d a))
  /\ classify_batch descriptions amounts
       = classify_batch (firstn (length amounts) descriptions)
                        (firstn (length descriptions) amounts).
Proof.
  unfold classify_batch. split; [|split].
  - rewrite length_map. apply length_combine.
  - revert amounts. induction descriptions as [|d ds IH]; intros [|a amts] i Hi;
      simpl in *; try lia.
    destruct i as [|i]; simpl.
    + exists d, a. auto.
    + apply IH. lia.
  - f_equal. revert amounts. induction descriptions as [|d ds IH]; intros [|a amts];
      simpl; try reflexivity. f_equal. apply IH.
Qed.

Lemma classify_batch_zip_witness :
  classify_batch ["STARBUCKS"; "PAYROLL"; "UBER"] [(-4) # 1; 900 # 1] !! 1%nat
    = Some "Income".
Proof.
  destruct (classify_batch_zip ["STARBUCKS"; "PAYROLL"; "UBER"] [(-4) # 1; 900 # 1])
    as (_ & Hnth & _).
  assert (Hlt : (1 < Nat.min 3 2)%nat) by (simpl; lia).
  destruct (Hnth 1%nat Hlt) as (d & a & Hd & Ha & Hr).
  simpl in Hd, Ha. injection Hd as <-. injection Ha as <-.
  rewrite Hr. reflexivity.
Defined.

(** *** The scoring loops *)

Lemma keyword_score_acc (dl : string) (kws : list string) (acc : nat) :
  Forall (fun kw => lower kw = kw) kws ->
  fold_left
    (fun score keyword =>
       if contains (lower keyword) dl then (score + len keyword)%nat else score)
    kws acc
  = (acc + score_spec dl kws)%nat.
Proof.
  intros Hlow. revert acc.
  induction Hlow as [|kw kws Hkw _ IH]; intros acc; simpl.
  - unfold score_spec. simpl. lia.
  - rewrite IH, Hkw. unfold score_spec. simpl.
    destruct (contains kw dl); simpl; lia.
Qed.

Lemma keyword_score_spec (dl : string) (kws : list string) :
  Forall (fun kw => lower kw = kw) kws ->
  keyword_score dl kws = score_spec dl kws.
Proof. intros H. unfold keyword_score. now rewrite keyword_score_acc. Qed.

Lemma dict_set_fresh (d : list (string * nat)) (k : string) (v : nat) :
  ~ In k (dict_keys d) -> dict_set d k v = d ++ [(k, v)].
Proof.
  induction d as [|[k' v'] d IH]; simpl; intros Hk; [reflexivity|].
  destruct (String.eqb_spec k' k) as [->|Hne]; [tauto|].
  rewrite IH; tauto.
Qed.

Lemma category_scores_acc (dl : string) (cats : list (string * list string))
      (acc : list (string * nat)) :
  List.NoDup (dict_keys acc ++ map fst cats) ->
  fold_left
    (fun scores '(category, keywords) =>
       dict_set scores category (keyword_score dl keywords))
    cats acc
  = acc ++ map (fun ck => (fst ck, keyword_score dl (snd ck))) cats.
Proof.
  revert acc. induction cats as [|[c kws] cats IH]; intros acc Hnd; simpl.
  - now rewrite app_nil_r.
  - assert (Hfresh : ~ In c (dict_keys acc)).
    { intros Hin. apply NoDup_remove_2 in Hnd. apply Hnd.
      apply in_or_app. now left. }
    rewrite dict_set_fresh by exact Hfresh.
    rewrite IH.
    + now rewrite <- app_assoc.
    + unfold dict_keys in *. rewrite map_app. simpl.
      rewrite <- app_assoc. exact Hnd.
Qed.

Lemma dict_get_in (d : list (string * nat)) (k : string) (v : nat) :
  List.NoDup (dict_keys d) -> In (k, v) d -> dict_get d k = Some v.
Proof.
  induction d as [|[k' v'] d IH]; simpl; intros Hnd Hin; [tauto|].
  apply List.NoDup_cons_iff in Hnd as [Hfresh Hnd].
  destruct Hin as [[= -> ->]|Hin].
  - now rewrite String.eqb_refl.
  - destruct (String.eqb_spec k' k) as [->|Hne]; [|now apply IH].
    exfalso. apply Hfresh. unfold dict_keys. apply in_map_iff. now exists (k, v).
Qed.

(** *** [max(keys, key=f)] keeps the first maximal key *)

Lemma find_append {A} (p : A -> bool) (l1 l2 : list A) :
  find p (l1 ++ l2) = match find p l1 with Some x => Some x | None => find p l2 end.
Proof. induction l1 as [|x l1 IH]; simpl; [reflexivity|]. now destruct (p x). Qed.

Lemma find_all_false {A} (p : A -> bool) (l : list A) :
  (forall x, In x l -> p x = false) -> find p l = None.
Proof.
  induction l as [|x l IH]; simpl; intros H; [reflexivity|].
  rewrite (H x) by now left. apply IH. intros y Hy. apply H. now right.
Qed.

Lemma fold_best_first_max (f : string -> nat) (ks : list string) (k0 : string) :
  f (fold_left (keep_best f) ks k0) = list_max (map f (k0 :: ks))
  /\ find (fun k => (f k =? f (fold_left (keep_best f) ks k0))%nat) (k0 :: ks)
     = Some (fold_left (keep_best f) ks k0).
Proof.
  induction ks as [|k' ks IH] using rev_ind.
  - simpl. split; [lia|]. now rewrite Nat.eqb_refl.
  - rewrite fold_left_app. cbn [fold_left].
    set (r := fold_left (keep_best f) ks k0) in *.
    destruct IH as [Hmax Hfind].
    assert (Hall : forall k, In k (k0 :: ks) -> (f k <= f r)%nat).
    { intros k Hk. rewrite Hmax.
      pose proof (list_max_le (map f (k0 :: ks)) (list_max (map f (k0 :: ks)))) as [Hle _].
      specialize (Hle (Nat.le_refl _)). rewrite List.Forall_forall in Hle.
      apply Hle. now apply in_map. }
    rewrite app_comm_cons, map_app, list_max_app, find_append, <- Hmax.
    cbn [map list_max fold_right].
    unfold keep_best. destruct (Nat.ltb_spec (f r) (f k')) as [Hlt|Hge].
    + split; [lia|].
      replace (find (fun k => (f k =? f k')%nat) (k0 :: ks)) with (@None string).
      * simpl. now rewrite Nat.eqb_refl.
      * symmetry. apply find_all_false. intros k Hk.
        apply Nat.eqb_neq. specialize (Hall k Hk). lia.
    + split; [lia|]. now rewrite Hfind.
Qed.

Lemma find_keys (f : string -> nat) (m : nat) (scores : list (string * nat)) :
  (forall cs, In cs scores -> f (fst cs) = snd cs) ->
  find (fun k => (f k =? m)%nat) (map fst scores)
  = fst <$> find (fun cs => (snd cs =? m)%nat) scores.
Proof.
  induction scores as [|cs scores IH]; simpl; intros H; [reflexivity|].
  rewrite (H cs) by now left.
  destruct (snd cs =? m)%nat; [reflexivity|].
  apply IH. intros cs' Hcs'. apply H. now right.
Qed.

Lemma map_get_scores (scores : list (string * nat)) :
  List.NoDup (dict_keys scores) ->
  forall cs, In cs scores -> default 0%nat (dict_get scores (fst cs)) = snd cs.
Proof.
  intros Hnd [k v] Hin. simpl. now rewrite (dict_get_in scores k v Hnd Hin).
Qed.

(** The choice of the best category, on a score dict with distinct keys. *)
Lemma best_category_spec (scores : list (string * nat)) :
  List.NoDup (dict_keys scores) ->
  match scores with
  | [] => "Other"
  | _ =>
      match py_max (dict_keys scores)
                   (fun k => default 0%nat (dict_get scores k)) with
      | Some best_category =>
          if (0 <? default 0%nat (dict_get scores best_category))%nat
          then best_category else "Other"
      | None => "Other"
      end
  end
  = if (list_max (map snd scores) =? 0)%nat then "Other"
    else match find (fun cs => (snd cs =? list_max (map snd scores))%nat) scores with
         | Some cs => fst cs
         | None => "Other"
         end.
Proof.
  intros Hnd.
  destruct scores as [|[k0 v0] rest]; [reflexivity|]. cbv iota.
  remember ((k0, v0) :: rest) as scores eqn:Escores.
  pose proof (map_get_scores scores Hnd) as Hget.
  remember (fun k => default 0%nat (dict_get scores k)) as f eqn:Ef.
  assert (Hget' : forall cs, In cs scores -> f (fst cs) = snd cs).
  { intros cs Hcs. rewrite Ef. now apply Hget. }
  assert (Hvals : map f (dict_keys scores) = map snd scores).
  { unfold dict_keys. rewrite map_map. apply map_ext_in. exact Hget'. }
  assert (Ek : dict_keys scores = k0 :: dict_keys rest) by now rewrite Escores.
  destruct (fold_best_first_max f (dict_keys rest) k0) as [Hmax Hfind].
  rewrite <- Ek, Hvals in Hmax. rewrite <- Ek in Hfind.
  rewrite Ek. unfold py_max.
  set (r := fold_left (keep_best f) (dict_keys rest) k0) in *.
  replace (default 0%nat (dict_get scores r)) with (f r) by now rewrite Ef.
  rewrite Hmax in *.
  set (best := list_max (map snd scores)) in *.
  destruct (Nat.eqb_spec best 0) as [E0|Hne].
  - rewrite E0. reflexivity.
  - replace (0 <? best)%nat with true by (symmetry; apply Nat.ltb_lt; lia).
    unfold dict_keys in Hfind. rewrite find_keys in Hfind by exact Hget'.
    destruct (find (fun cs => (snd cs =? best)%nat) scores) as [cs|]; simpl in Hfind;
      congruence.
Qed.

(** [classify_with] on a table whose category names are distinct and whose
    keywords are lower-case, for an amount that is not positive. *)
Lemma classify_with_spec (categories : list (string * list string))
      (description : string) (amount : Q) :
  List.NoDup (map fst categories) ->
  Forall (fun ck => Forall (fun kw => lower kw = kw) (snd ck)) categories ->
  gt0 amount = false ->
  classify_with categories description amount
  = classify_keywords_spec categories description.
Proof.
  intros Hnd Hlow Hamt. unfold classify_with, classify_keywords_spec.
  rewrite Hamt. cbv zeta.
  set (dl := lower description).
  unfold category_scores_of.
  rewrite category_scores_acc by exact Hnd. rewrite app_nil_l.
  assert (Hscores :
    map (fun ck => (fst ck, keyword_score dl (snd ck))) categories
    = map (fun ck => (fst ck, score_spec dl (snd ck))) categories).
  { apply map_ext_in. intros ck Hck. f_equal.
    apply keyword_score_spec. rewrite List.Forall_forall in Hlow. now apply Hlow. }
  rewrite Hscores. apply best_category_spec.
  unfold dict_keys. rewrite map_map. exact Hnd.
Qed.

Lemma CATEGORY_KEYWORDS_names_distinct : List.NoDup (map fst CATEGORY_KEYWORDS).
Proof. apply NoDup_ListNoDup. apply (bool_decide_unpack _). vm_compute. exact I. Qed.

Lemma CATEGORY_KEYWORDS_lower :
  Forall (fun ck => Forall (fun kw => lower kw = kw) (snd ck)) CATEGORY_KEYWORDS.
Proof. apply (bool_decide_unpack _). vm_compute. exact I. Qed.

(** Within a category no keyword is listed twice, so each keyword adds its
    length at most once. *)
Lemma CATEGORY_KEYWORDS_keywords_distinct :
  Forall (fun ck => List.NoDup (snd ck)) CATEGORY_KEYWORDS.
Proof.
  apply (Forall_impl (fun ck => NoDup (snd ck))).
  - apply (bool_decide_unpack _). vm_compute. exact I.
  - intros ck. apply NoDup_ListNoDup.
Qed.

(** C5. For an amount that is zero or negative, [classify] lower-cases the
    description, scores every category of the keyword table by the summed
    lengths of its keywords that occur in it, and returns the first category
    in declaration order with the maximum score, or "Other" when that
    maximum is 0. *)
Theorem classify_keyword_scoring (description : string) (amount : Q) :
  (amount <= 0)%Q ->
  classify description amount
  = classify_keywords_spec CATEGORY_KEYWORDS description.
Proof.
  intros Hle. unfold classify. apply classify_with_spec.
  - exact CATEGORY_KEYWORDS_names_distinct.
  - exact CATEGORY_KEYWORDS_lower.
  - now apply gt0_false_iff.
Qed.

Lemma classify_keyword_scoring_witness :
  ((-5) <= 0)%Q /\ classify "" (-5) = "Other"
  /\ (0 <= 0)%Q /\ classify "STARBUCKS COFFEE #123" 0 = "Food & Dining".
Proof.
  assert (H5 : ((-5) <= 0)%Q) by (unfold Qle; simpl; lia).
  assert (H0 : (0 <= 0)%Q) by (unfold Qle; simpl; lia).
  split; [exact H5|]. split.
  - rewrite (classify_keyword_scoring "" (-5) H5). vm_compute. reflexivity.
  - split; [exact H0|].
    rewrite (classify_keyword_scoring "STARBUCKS COFFEE #123" 0 H0).
    vm_compute. reflexivity.
Defined.

End ClassifierFacts.

(* ===================================================================== *)
(** ** Substrings and whitespace *)
(* ===================================================================== *)

Section StringFacts.
Import PyStr.

Lemma prefix_space_head (k c : ascii) (kw s : string) :
  is_space k = false -> is_space c = true ->
  String.prefix (String k kw) (String c s) = false.
Proof.
  intros Hk Hc. simpl. destruct (ascii_dec k c) as [->|]; congruence.
Qed.

Lemma contains_lstrip (kw s : string) :
  is_word kw = true -> contains kw (lstrip s) = contains kw s.
Proof.
  destruct kw as [|k kw]; [discriminate|].
  unfold is_word. simpl. intros Hw.
  apply andb_prop in Hw as [Hk _]. apply negb_true_iff in Hk.
  induction s as [|c s IH]; [reflexivity|].
  cbn [lstrip]. destruct (is_space c) eqn:Hc; [|reflexivity].
  rewrite IH. cbn [contains]. now rewrite (prefix_space_head k c kw s Hk Hc).
Qed.

Lemma append_cons (c : ascii) (s t : string) :
  (String c s ++ t)%string = String c (s ++ t)%string.
Proof. reflexivity. Qed.

Lemma append_nil_l (t : string) : (EmptyString ++ t)%string = t.
Proof. reflexivity. Qed.

Lemma rstrip_decomp (s : string) :
  exists ws, s = (rstrip s ++ ws)%string /\ all_chars is_space ws = true.
Proof.
  induction s as [|c s (ws & Hs & Hws)].
  - exists EmptyString. split; reflexivity.
  - cbn [rstrip]. destruct (rstrip s) as [|a r] eqn:Er.
    + rewrite append_nil_l in Hs. subst s. destruct (is_space c) eqn:Hc.
      * exists (String c ws). simpl. now rewrite Hc.
      * exists ws. split; [reflexivity|assumption].
    + exists ws. split; [|assumption]. rewrite append_cons. now rewrite <- Hs.
Qed.

Lemma prefix_app_space (kw r ws : string) :
  all_chars (fun c => negb (is_space c)) kw = true ->
  all_chars is_space ws = true ->
  String.prefix kw (r ++ ws)%string = String.prefix kw r.
Proof.
  revert r. induction kw as [|k kw IH]; intros r Hkw Hws.
  - destruct r, ws; reflexivity.
  - simpl in Hkw. apply andb_prop in Hkw as [Hk Hkw]. apply negb_true_iff in Hk.
    destruct r as [|c r].
    + destruct ws as [|w ws]; [reflexivity|].
      simpl in Hws. apply andb_prop in Hws as [Hw _].
      change (String.prefix (String k kw) (String w ws) = false).
      now apply prefix_space_head.
    + rewrite append_cons. simpl. destruct (ascii_dec k c); [|reflexivity].
      now apply IH.
Qed.

Lemma contains_spaces (kw ws : string) :
  is_word kw = true -> all_chars is_space ws = true -> contains kw ws = false.
Proof.
  destruct kw as [|k kw]; [discriminate|].
  unfold is_word. simpl. intros Hw.
  apply andb_prop in Hw as [Hk _]. apply negb_true_iff in Hk.
  induction ws as [|w ws IH]; intros Hws; [reflexivity|].
  simpl in Hws. apply andb_prop in Hws as [Hw Hws].
  cbn [contains]. rewrite (prefix_space_head k w kw ws Hk Hw). now apply IH.
Qed.

Lemma contains_app_space (kw r ws : string) :
  is_word kw = true -> all_chars is_space ws = true ->
  contains kw (r ++ ws)%string = contains kw r.
Proof.
  intros Hw Hws. induction r as [|c r IH].
  - rewrite append_nil_l, (contains_spaces kw ws Hw Hws).
    destruct kw; [discriminate|reflexivity].
  - rewrite append_cons. cbn [contains]. rewrite IH, <- append_cons.
    rewrite prefix_app_space; [reflexivity| |exact Hws].
    unfold is_word in Hw. now apply andb_prop in Hw as [_ Hw].
Qed.

Lemma contains_rstrip (kw s : string) :
  is_word kw = true -> contains kw (rstrip s) = contains kw s.
Proof.
  intros Hw. destruct (rstrip_decomp s) as (ws & Hs & Hws).
  rewrite Hs at 2. symmetry. now apply contains_app_space.
Qed.

(** Trimming a string neither adds nor removes an occurrence of a word. *)
Lemma contains_strip (kw s : string) :
  is_word kw = true -> contains kw (strip s) = contains kw s.
Proof.
  intros Hw. unfold strip. now rewrite contains_rstrip, contains_lstrip.
Qed.

End StringFacts.

(* ===================================================================== *)
(** ** Header detection *)
(* ===================================================================== *)

Section HeaderFacts.
Import PyStr Utils Spec Examples.

Lemma existsb_row_lower (kw : string) (row : list string) :
  is_word kw = true ->
  existsb (fun cell => contains kw cell) (map (fun cell => strip (lower cell)) row)
  = existsb (fun cell => contains kw (lower cell)) row.
Proof.
  intros Hw. induction row as [|cell row IH]; simpl; [reflexivity|].
  now rewrite IH, contains_strip.
Qed.

Lemma count_matches_header (row : list string) :
  (count_matches row =? 3)%nat = is_header_row row.
Proof.
  unfold count_matches, is_header_row, required_keywords.
  cbn [fold_left forallb].
  rewrite !existsb_row_lower by reflexivity.
  change (lower "date") with "date".
  change (lower "description") with "description".
  change (lower "amount") with "amount".
  destruct (existsb (fun cell => contains "date" (lower cell)) row),
           (existsb (fun cell => contains "description" (lower cell)) row),
           (existsb (fun cell => contains "amount" (lower cell)) row); reflexivity.
Qed.

Lemma scan_rows_find (idx : nat) (rows : list (list string)) :
  scan_rows idx rows
  = match list_find (fun row => is_header_row row = true) rows with
    | Some (i, _) => (idx + i)%nat
    | None => 0%nat
    end.
Proof.
  revert idx. induction rows as [|row rows IH]; intros idx; [reflexivity|].
  cbn [scan_rows list_find]. rewrite count_matches_header.
  destruct (is_header_row row) eqn:Hrow.
  - rewrite decide_True by reflexivity. simpl. lia.
  - rewrite decide_False by discriminate. rewrite IH.
    destruct (list_find _ rows) as [[i r]|]; simpl; lia.
Qed.

(** C6. On the parsed rows of a file, [detect_header_row] returns the
    zero-based index of the first row, among the first 20, in which each of
    "date", "description" and "amount" occurs, ignoring case, in some cell;
    it returns 0 when there is no such row and when the file cannot be
    read.  Hence a header found at row 6, with no header before it, gives
    6. *)
Theorem detect_header_row_first_match (parsed : list (list string)) :
  detect_header_row (Some parsed) = detect_header_row_spec parsed
  /\ detect_header_row None = 0%nat
  /\ (forall i row,
        (i < 20)%nat -> parsed !! i = Some row -> is_header_row row = true ->
        (forall j r, (j < i)%nat -> parsed !! j = Some r -> is_header_row r = false) ->
        detect_header_row (Some parsed) = i)
  /\ ((forall j r, (j < 20)%nat -> parsed !! j = Some r -> is_header_row r = false) ->
      detect_header_row (Some parsed) = 0%nat).
Proof.
  assert (Hspec : detect_header_row (Some parsed) = detect_header_row_spec parsed).
  { unfold detect_header_row, detect_header_row_spec. rewrite scan_rows_find.
    destruct (list_find _ _) as [[i r]|]; reflexivity. }
  split; [exact Hspec|]. split; [reflexivity|]. split.
  - intros i row Hi Hrow Hhead Hbefore. rewrite Hspec. unfold detect_header_row_spec.
    assert (Hfind : list_find (fun row => is_header_row row = true) (firstn 20 parsed)
                    = Some (i, row)).
    { apply list_find_Some. split; [|split].
      - rewrite lookup_take_lt by exact Hi. exact Hrow.
      - exact Hhead.
      - intros j r Hj Hlt. apply lookup_take_Some in Hj as [Hj _].
        rewrite (Hbefore j r Hlt Hj). discriminate. }
    now rewrite Hfind.
  - intros Hnone. rewrite Hspec. unfold detect_header_row_spec.
    destruct (list_find _ _) as [[i r]|] eqn:Hfind; [|reflexivity].
    apply list_find_Some in Hfind as (Hlook & Hhead & _).
    apply lookup_take_Some in Hlook as [Hlook Hi].
    rewrite (Hnone i r Hi Hlook) in Hhead. discriminate.
Qed.

Lemma detect_header_row_first_match_witness :
  detect_header_row (Some bank_preamble) = 6%nat.
Proof.
  destruct (detect_header_row_first_match bank_preamble) as (_ & _ & Hat & _).
  apply (Hat 6%nat ["Date"; "Description"; "Amount"; "Balance"]).
  - lia.
  - reflexivity.
  - reflexivity.
  - intros j r Hj Hr.
    do 6 (destruct j as [|j]; [injection Hr as <-; reflexivity|]). lia.
Defined.

End HeaderFacts.

(* ===================================================================== *)
(** ** Merchant names *)
(* ===================================================================== *)

Section MerchantFacts.
Import PyStr Utils Spec.

Lemma remove_prefixes_none (prefixes : list string) (d : string) :
  (forall q, In q prefixes -> startswith d q = false) ->
  remove_prefixes prefixes d = d.
Proof.
  unfold remove_prefixes. induction prefixes as [|p ps IH]; intros H; [reflexivity|].
  cbn [fold_left]. rewrite (H p) by now left.
  apply IH. intros q Hq. apply H. now right.
Qed.

Lemma remove_prefixes_app (pre post : list string) (d : string) :
  remove_prefixes (pre ++ post) d = remove_prefixes post (remove_prefixes pre d).
Proof. unfold remove_prefixes. apply fold_left_app. Qed.

Lemma remove_prefixes_first (pre post : list string) (p d : string) :
  (forall q, In q pre -> startswith d q = false) ->
  startswith d p = true ->
  remove_prefixes (pre ++ p :: post) d = remove_prefixes post (drop (len p) d).
Proof.
  intros Hpre Hp. rewrite remove_prefixes_app, (remove_prefixes_none pre d Hpre).
  unfold remove_prefixes. cbn [fold_left]. now rewrite Hp.
Qed.

Lemma strip_first_prefix_first (pre post : list string) (p d : string) :
  (forall q, In q pre -> startswith d q = false) ->
  startswith d p = true ->
  strip_first_prefix (pre ++ p :: post) d = drop (len p) d.
Proof.
  intros Hpre Hp. unfold strip_first_prefix.
  rewrite find_append, (find_all_false (fun prefix => startswith d prefix) pre Hpre).
  simpl. now rewrite Hp.
Qed.

Lemma strip_first_prefix_none (prefixes : list string) (d : string) :
  (forall q, In q prefixes -> startswith d q = false) ->
  strip_first_prefix prefixes d = d.
Proof.
  intros H. unfold strip_first_prefix.
  now rewrite (find_all_false (fun prefix => startswith d prefix) prefixes H).
Qed.

Lemma len_take (n : nat) (s : string) : (len (take n s) <= n)%nat.
Proof.
  unfold len. revert s. induction n as [|n IH]; intros [|c s]; simpl; try lia.
  specialize (IH s). lia.
Qed.

Lemma len_lstrip (s : string) : (len (lstrip s) <= len s)%nat.
Proof.
  unfold len. induction s as [|c s IH]; simpl; [lia|].
  destruct (is_space c); simpl; lia.
Qed.

Lemma len_rstrip (s : string) : (len (rstrip s) <= len s)%nat.
Proof.
  unfold len. induction s as [|c s IH]; simpl; [lia|].
  destruct (rstrip s); [destruct (is_space c)|]; simpl in *; lia.
Qed.

Lemma len_strip (s : string) : (len (strip s) <= len s)%nat.
Proof.
  unfold strip. pose proof (len_rstrip (lstrip s)). pose proof (len_lstrip s). lia.
Qed.

Lemma finish_merchant_bounds (s : string) :
  (len (finish_merchant s) <= 50)%nat /\ finish_merchant s <> "".
Proof.
  unfold finish_merchant. cbv zeta.
  pose proof (len_strip (take 50 s)) as H1. pose proof (len_take 50 s) as H2.
  destruct (strip (take 50 s)) as [|c t] eqn:E; cbn [is_empty].
  - split; [unfold len; simpl; lia|discriminate].
  - split; [lia|discriminate].
Qed.

Lemma startswith_drop (d p : string) :
  startswith d p = true -> d = (p ++ drop (len p) d)%string.
Proof.
  unfold startswith, len. revert d.
  induction p as [|a p IH]; intros d H; [now rewrite append_nil_l|].
  destruct d as [|b d]; [discriminate|]. simpl in H.
  destruct (ascii_dec a b) as [->|]; [|discriminate].
  rewrite append_cons. cbn [String.length drop]. f_equal. now apply IH.
Qed.

(** The loop of the code makes the pass the relation describes. *)
Lemma strips_in_turn_run (prefixes : list string) (d : string) :
  exists stripped, strips_in_turn prefixes d stripped (remove_prefixes prefixes d).
Proof.
  unfold remove_prefixes. revert d.
  induction prefixes as [|p ps IH]; intros d; cbn [fold_left].
  - exists []. constructor.
  - destruct (startswith d p) eqn:E.
    + destruct (IH (drop (len p) d)) as [stripped H].
      exists (p :: stripped). now constructor.
    + destruct (IH d) as [stripped H]. exists stripped. now constructor.
Qed.

(** A pass has one outcome. *)
Lemma strips_in_turn_unique (prefixes : list string) (d : string)
      (stripped stripped' : list string) (rest rest' : string) :
  strips_in_turn prefixes d stripped rest ->
  strips_in_turn prefixes d stripped' rest' ->
  stripped' = stripped /\ rest' = rest.
Proof.
  intros H. revert stripped' rest'.
  induction H as [d|p ps d stripped rest Hp H IH|p ps d stripped rest Hp H IH];
    intros stripped' rest' H'; inversion H'; subst; try congruence.
  - auto.
  - match goal with
    | Hrest : strips_in_turn ps _ ?s ?r |- _ :: ?s = _ /\ ?r = _ =>
        destruct (IH _ _ Hrest) as [Hs Hr]; now rewrite Hs, Hr
    end.
  - now apply IH.
Qed.

(** The text is the removed prefixes followed by what is left. *)
Lemma strips_in_turn_text (prefixes : list string) (d : string)
      (stripped : list string) (rest : string) :
  strips_in_turn prefixes d stripped rest ->
  d = fold_right String.append rest stripped.
Proof.
  intros H. induction H as [d|p ps d stripped rest Hp H IH|p ps d stripped rest Hp H IH].
  - reflexivity.
  - cbn [fold_right]. rewrite <- IH. now apply startswith_drop.
  - exact IH.
Qed.

(** C7, as the code has it.  [extract_merchant_name] upper-cases and trims
    the description, then goes once through the ordered prefix list and
    strips every prefix that the text starts with when its turn comes: the
    first matching prefix, and after it any later-listed prefix that the
    remaining text starts with.  The pass has one outcome: the text is the
    stripped prefixes, in list order, followed by what is left.  It strips
    exactly one prefix when the remainder starts with no later-listed
    prefix, two when the remainder starts with a later-listed prefix and
    what then remains with none listed after that one, and none when no
    prefix matches.  What is left is cut to 50 characters, trimmed, and is
    "Unknown" when empty. *)
Theorem extract_merchant_name_prefix_pass (description : string) :
  let u := strip (upper description) in
  (exists stripped rest,
      strips_in_turn prefixes_to_remove u stripped rest
      /\ u = fold_right String.append rest stripped
      /\ extract_merchant_name description = finish_merchant rest
      /\ forall stripped' rest',
           strips_in_turn prefixes_to_remove u stripped' rest' ->
           stripped' = stripped /\ rest' = rest)
  /\ ((forall q, In q prefixes_to_remove -> startswith u q = false) ->
      extract_merchant_name description = finish_merchant u)
  /\ (forall pre p post,
        prefixes_to_remove = pre ++ p :: post ->
        (forall q, In q pre -> startswith u q = false) ->
        startswith u p = true ->
        extract_merchant_name description
          = finish_merchant (remove_prefixes post (drop (len p) u))
        /\ ((forall q, In q post -> startswith (drop (len p) u) q = false) ->
            extract_merchant_name description = finish_merchant (drop (len p) u)
            /\ extract_merchant_name description
               = extract_merchant_name_spec description)
        /\ (forall mid q post',
              post = mid ++ q :: post' ->
              (forall x, In x mid -> startswith (drop (len p) u) x = false) ->
              startswith (drop (len p) u) q = true ->
              (forall x, In x post' ->
                 startswith (drop (len q) (drop (len p) u)) x = false) ->
              extract_merchant_name description
              = finish_merchant (drop (len q) (drop (len p) u))))
  /\ (len (extract_merchant_name description) <= 50)%nat
  /\ extract_merchant_name description <> "".
Proof.
  intros u.
  assert (Hdef : extract_merchant_name description
                 = finish_merchant (remove_prefixes prefixes_to_remove u)) by reflexivity.
  assert (Hspec : extract_merchant_name_spec description
                  = finish_merchant (strip_first_prefix prefixes_to_remove u)) by reflexivity.
  split; [|split; [|split]].
  - destruct (strips_in_turn_run prefixes_to_remove u) as [stripped Hrun].
    exists stripped, (remove_prefixes prefixes_to_remove u).
    split; [exact Hrun|]. split; [now apply (strips_in_turn_text prefixes_to_remove)|].
    split; [exact Hdef|].
    intros stripped' rest' Hother.
    apply (strips_in_turn_unique prefixes_to_remove u); assumption.
  - intros Hnone. now rewrite Hdef, remove_prefixes_none.
  - intros pre p post Hsplit Hpre Hp.
    rewrite Hdef, Hspec, Hsplit, (remove_prefixes_first pre post p u Hpre Hp).
    split; [reflexivity|]. split.
    + intros Hpost. rewrite (remove_prefixes_none post _ Hpost).
      now rewrite (strip_first_prefix_first pre post p u Hpre Hp).
    + intros mid q post' Hpost Hmid Hq Hlast.
      rewrite Hpost, (remove_prefixes_first mid post' q _ Hmid Hq).
      now rewrite (remove_prefixes_none post' _ Hlast).
  - rewrite Hdef. apply finish_merchant_bounds.
Qed.

Lemma extract_merchant_name_prefix_pass_witness :
  extract_merchant_name "Debit Card Purchase - Walmart #123456789012345678901234567890"
  = "WALMART #123456789012345678901234567890"
  /\ extract_merchant_name "Debit Card Purchase - Payment to Bob" = "BOB".
Proof.
  split.
  - destruct (extract_merchant_name_prefix_pass
                "Debit Card Purchase - Walmart #123456789012345678901234567890")
      as (_ & _ & Hfirst & _).
    destruct (Hfirst [] "DEBIT CARD PURCHASE - "
                     [ "PURCHASE AUTHORIZED ON "; "CARD PURCHASE - "; "PAYMENT TO ";
                       "TRANSFER TO "; "TRANSFER FROM " ])
      as (_ & Hone & _).
    + reflexivity.
    + intros q [].
    + reflexivity.
    + destruct Hone as [Hone _].
      * intros q Hq. simpl in Hq.
        repeat (destruct Hq as [<-|Hq]; [reflexivity|]). destruct Hq.
      * rewrite Hone. reflexivity.
  - destruct (extract_merchant_name_prefix_pass "Debit Card Purchase - Payment to Bob")
      as (_ & _ & Hfirst & _).
    destruct (Hfirst [] "DEBIT CARD PURCHASE - "
                     [ "PURCHASE AUTHORIZED ON "; "CARD PURCHASE - "; "PAYMENT TO ";
                       "TRANSFER TO "; "TRANSFER FROM " ])
      as (_ & _ & Htwo).
    + reflexivity.
    + intros q [].
    + reflexivity.
    + rewrite (Htwo [ "PURCHASE AUTHORIZED ON "; "CARD PURCHASE - " ] "PAYMENT TO "
                    [ "TRANSFER TO "; "TRANSFER FROM " ]).
      * reflexivity.
      * reflexivity.
      * intros x Hx. simpl in Hx.
        repeat (destruct Hx as [<-|Hx]; [reflexivity|]). destruct Hx.
      * reflexivity.
      * intros x Hx. simpl in Hx.
        repeat (destruct Hx as [<-|Hx]; [reflexivity|]). destruct Hx.
Defined.

(** C7, counterexample to the claim as stated: on a description that
    carries two listed prefixes in list order, both are stripped, whereas
    stripping only the first matching prefix leaves the second. *)
Lemma extract_merchant_name_strips_two :
  extract_merchant_name "DEBIT CARD PURCHASE - PAYMENT TO BOB" = "BOB"
  /\ extract_merchant_name_spec "DEBIT CARD PURCHASE - PAYMENT TO BOB" = "PAYMENT TO BOB"
  /\ extract_merchant_name "DEBIT CARD PURCHASE - PAYMENT TO BOB"
     <> extract_merchant_name_spec "DEBIT CARD PURCHASE - PAYMENT TO BOB".
Proof. repeat split; try reflexivity. discriminate. Qed.

End MerchantFacts.

(* ===================================================================== *)
(** ** Column names *)
(* ===================================================================== *)

Section ColumnFacts.
Import PyStr Utils Examples.

Lemma maps_to_self_insert (m : gmap string string) (k : string) :
  maps_to_self m -> maps_to_self (<[k := k]> m).
Proof.
  intros Hm k' v Hlook. apply lookup_insert_Some in Hlook as [[<- <-]|[_ Hlook]].
  - reflexivity.
  - now apply Hm.
Qed.

Lemma mapping_step_canonical (m : gmap string string) (col : string) :
  In col Cleaning.required_cols -> maps_to_self m -> maps_to_self (mapping_step m col).
Proof.
  intros Hcol Hm. simpl in Hcol.
  destruct Hcol as [<-|[<-|[<-|[]]]]; unfold mapping_step; cbv zeta.
  - change (elem (strip (lower "date")) date_variations
            || contains "date" (strip (lower "date"))) with true.
    cbv iota. destruct (negb (has_key m "date")); [|exact Hm].
    now apply maps_to_self_insert.
  - change (elem (strip (lower "description")) date_variations
            || contains "date" (strip (lower "description"))) with false.
    change (elem (strip (lower "description")) description_variations
            || contains "description" (strip (lower "description"))
            || contains "merchant" (strip (lower "description"))) with true.
    cbv iota. destruct (negb (has_key m "description")); [|exact Hm].
    now apply maps_to_self_insert.
  - change (elem (strip (lower "amount")) date_variations
            || contains "date" (strip (lower "amount"))) with false.
    change (elem (strip (lower "amount")) description_variations
            || contains "description" (strip (lower "amount"))
            || contains "merchant" (strip (lower "amount"))) with false.
    change (elem (strip (lower "amount")) amount_variations
            || contains "amount" (strip (lower "amount"))) with true.
    cbv iota. destruct (negb (has_key m "amount")); [|exact Hm].
    now apply maps_to_self_insert.
Qed.

Lemma build_mapping_canonical (cols : list string) (m : gmap string string) :
  (forall c, In c cols -> In c Cleaning.required_cols) ->
  maps_to_self m -> maps_to_self (fold_left mapping_step cols m).
Proof.
  revert m. induction cols as [|col cols IH]; intros m Hcols Hm; [exact Hm|].
  cbn [fold_left]. apply IH.
  - intros c Hc. apply Hcols. now right.
  - apply mapping_step_canonical; [|exact Hm]. apply Hcols. now left.
Qed.

Lemma rename_maps_to_self {V} (m : gmap string string) (df : DataFrame V) :
  maps_to_self m -> rename m df = df.
Proof.
  intros Hm. destruct df as [idx cols]. unfold rename. cbn [index columns].
  f_equal. rewrite <- (map_id cols) at 2. apply map_ext.
  intros [name values]. cbn [fst snd]. f_equal.
  destruct (m !! name) as [v|] eqn:E; [|reflexivity]. simpl. now apply Hm.
Qed.

(** C8. On a table whose column names are all canonical ([date],
    [description], [amount]), [normalize_column_names] changes nothing:
    names and values are those of the input, so running it again gives the
    same table. *)
Theorem normalize_column_names_canonical {V} (df : DataFrame V) :
  (forall c, In c (column_names df) -> In c ["date"; "description"; "amount"]) ->
  normalize_column_names df = df
  /\ column_names (normalize_column_names df) = column_names df
  /\ normalize_column_names (normalize_column_names df) = normalize_column_names df.
Proof.
  intros Hcols.
  assert (Hid : normalize_column_names df = df).
  { unfold normalize_column_names. cbv zeta.
    destruct (bool_decide (build_mapping (column_names df) = ∅)); [reflexivity|].
    apply rename_maps_to_self. unfold build_mapping.
    apply build_mapping_canonical; [exact Hcols|].
    intros k v Hlook. now rewrite lookup_empty in Hlook. }
  rewrite !Hid. auto.
Qed.

Lemma normalize_column_names_canonical_witness :
  normalize_column_names canonical_table = canonical_table
  /\ column_names (normalize_column_names canonical_table)
     = ["date"; "description"; "amount"].
Proof.
  destruct (normalize_column_names_canonical canonical_table) as (Hid & Hnames & _).
  - intros c Hc. exact Hc.
  - split; [exact Hid|]. rewrite Hnames. reflexivity.
Defined.

End ColumnFacts.

(* ===================================================================== *)
(** ** Derived columns *)
(* ===================================================================== *)

Section DerivedFacts.
Import Derived Examples.

Lemma elem_In (s : string) (l : list string) : elem s l = true <-> In s l.
Proof.
  unfold elem. rewrite existsb_exists. split.
  - intros (x & Hx & Heq). apply String.eqb_eq in Heq. now subst.
  - intros H. exists s. split; [exact H|apply String.eqb_refl].
Qed.

Lemma elem_false (s : string) (l : list string) : ~ In s l -> elem s l = false.
Proof.
  intros H. destruct (elem s l) eqn:E; [|reflexivity]. now apply elem_In in E.
Qed.

Lemma set_col_fresh (df : DataFrame Value) (name : string) (values : list Value) :
  ~ In name (column_names df) ->
  set_col df name values = mkFrame (index df) (columns df ++ [(name, values)]).
Proof. intros H. unfold set_col. now rewrite elem_false. Qed.

Lemma filter_none {A} (p : A -> bool) (l : list A) :
  (forall x, In x l -> p x = false) -> List.filter p l = [].
Proof.
  induction l as [|x l IH]; intros H; [reflexivity|]. simpl.
  rewrite (H x) by now left. apply IH. intros y Hy. apply H. now right.
Qed.

(** No column bears a name that is not among the column names. *)
Lemma named_none {V} (cols : list (string * list V)) (name : string) :
  ~ In name (map fst cols) ->
  List.filter (fun c => String.eqb (fst c) name) cols = [].
Proof.
  intros H. apply filter_none. intros c Hc. apply String.eqb_neq.
  intros Heq. apply H. rewrite <- Heq. now apply in_map.
Qed.

(** The one column of a name is the first of that name. *)
Lemma get_col_first {V} (df : DataFrame V) (name : string) (values : list V) :
  get_col df name = Some values -> first_col df name = Some values.
Proof.
  unfold get_col, first_col.
  induction (columns df) as [|c cols IH]; [discriminate|].
  cbn [List.filter find]. destruct (String.eqb (fst c) name); [|exact IH].
  destruct (List.filter _ cols); [|discriminate]. intros [= <-]. reflexivity.
Qed.

Lemma get_col_In {V} (df : DataFrame V) (name : string) (values : list V) :
  get_col df name = Some values -> In name (column_names df).
Proof.
  intros H. apply get_col_first in H. unfold first_col in H.
  destruct (find _ _) as [c|] eqn:Hfind; [|discriminate].
  apply find_some in Hfind as [Hin Heq]. apply String.eqb_eq in Heq.
  rewrite <- Heq. unfold column_names. now apply in_map.
Qed.

(** Where no name repeats, [df[name]] is the first column of the name. *)
Lemma get_col_distinct {V} (df : DataFrame V) (name : string) :
  List.NoDup (column_names df) -> get_col df name = first_col df name.
Proof.
  unfold get_col, first_col, column_names.
  induction (columns df) as [|c cols IH]; [reflexivity|].
  cbn [map]. intros Hnd. apply List.NoDup_cons_iff in Hnd as [Hfresh Hnd].
  cbn [List.filter find]. destruct (String.eqb_spec (fst c) name) as [Heq|Hne].
  - rewrite named_none; [reflexivity|]. now rewrite <- Heq.
  - now apply IH.
Qed.

Lemma get_col_app {V} (idx idx' : list nat) (cols extra : list (string * list V))
      (name : string) (values : list V) :
  ~ In name (map fst extra) ->
  get_col (mkFrame idx cols) name = Some values ->
  get_col (mkFrame idx' (cols ++ extra)) name = Some values.
Proof.
  intros Hfresh. unfold get_col. cbn [columns].
  now rewrite List.filter_app, (named_none extra name Hfresh), app_nil_r.
Qed.

Lemma get_col_last {V} (idx : list nat) (cols : list (string * list V))
      (name : string) (values : list V) :
  ~ In name (map fst cols) ->
  get_col (mkFrame idx (cols ++ [(name, values)])) name = Some values.
Proof.
  intros Hfresh. unfold get_col. cbn [columns].
  rewrite List.filter_app, (named_none cols name Hfresh).
  cbn [List.filter fst app]. now rewrite String.eqb_refl.
Qed.

Lemma apply_numeric (f : Value -> option Value) (g : Q -> Value) (qs : list Q) :
  (forall q, f (VNum q) = Some (g q)) ->
  apply f (map VNum qs) = Some (map g qs).
Proof.
  intros Hf. unfold apply. apply mapM_Some. induction qs as [|q qs IH]; simpl.
  - constructor.
  - constructor; [apply Hf|exact IH].
Qed.

Lemma dt_dates (f : Timestamp -> Value) (ts : list Timestamp) :
  dt f (map VDate ts) = Some (map f ts).
Proof.
  unfold dt. apply mapM_Some. induction ts as [|t ts IH]; simpl; constructor; auto.
Qed.

Lemma set_col_extra (idx : list nat) (cols extra : list (string * list Value))
      (name : string) (values : list Value) :
  ~ In name (map fst cols) -> ~ In name (map fst extra) ->
  set_col (mkFrame idx (cols ++ extra)) name values
  = mkFrame idx (cols ++ (extra ++ [(name, values)])).
Proof.
  intros Hcols Hextra. rewrite set_col_fresh.
  - cbn [index columns]. now rewrite <- app_assoc.
  - unfold column_names. cbn [columns]. rewrite map_app, in_app_iff. tauto.
Qed.

Ltac fresh_name Hfresh :=
  first [ apply Hfresh; simpl; tauto
        | simpl; intuition discriminate ].

(** [add_derived_columns] on a table with a numeric [amount] column, a
    datetime [date] column and none of the derived names: the five derived
    columns are appended, and nothing else changes. *)
Lemma add_derived_columns_appends (df : DataFrame Value)
      (dates : list Timestamp) (amounts : list Q) :
  get_col df "amount" = Some (map VNum amounts) ->
  get_col df "date" = Some (map VDate dates) ->
  (forall name, In name derived_names -> ~ In name (column_names df)) ->
  add_derived_columns df
  = Some (mkFrame (index df) (columns df ++ derived_columns dates amounts)).
Proof.
  intros Hamt Hdate Hfresh. destruct df as [idx cols].
  unfold column_names in Hfresh. cbn [columns index] in *.
  unfold add_derived_columns. cbv zeta.
  rewrite Hamt. cbn [mbind option_bind].
  rewrite (apply_numeric categorize_transaction_type transaction_type_of)
    by reflexivity.
  cbn [mbind option_bind].
  rewrite set_col_fresh by (unfold column_names; cbn [columns]; fresh_name Hfresh).
  cbn [index columns].
  rewrite (fun H => get_col_app idx idx cols _ "amount" _ H Hamt)
    by (simpl; intuition discriminate).
  cbn [mbind option_bind].
  rewrite (apply_numeric get_absolute_amount (fun q => VNum (Qabs q)))
    by reflexivity.
  cbn [mbind option_bind].
  rewrite set_col_extra by fresh_name Hfresh.
  rewrite (fun H => get_col_app idx idx cols _ "date" _ H Hdate)
    by (simpl; intuition discriminate).
  cbn [mbind option_bind].
  rewrite dt_dates. cbn [mbind option_bind].
  rewrite set_col_extra by fresh_name Hfresh.
  rewrite (fun H => get_col_app idx idx cols _ "date" _ H Hdate)
    by (simpl; intuition discriminate).
  cbn [mbind option_bind].
  rewrite dt_dates. cbn [mbind option_bind].
  rewrite set_col_extra by fresh_name Hfresh.
  rewrite (fun H => get_col_app idx idx cols _ "date" _ H Hdate)
    by (simpl; intuition discriminate).
  cbn [mbind option_bind].
  rewrite dt_dates. cbn [mbind option_bind].
  rewrite set_col_extra by fresh_name Hfresh.
  reflexivity.
Qed.

Lemma get_col_extra {V} (idx : list nat) (cols extra : list (string * list V))
      (name : string) :
  ~ In name (map fst cols) ->
  get_col (mkFrame idx (cols ++ extra)) name = get_col (mkFrame idx extra) name.
Proof.
  intros Hfresh. unfold get_col. cbn [columns].
  now rewrite List.filter_app, (named_none cols name Hfresh).
Qed.

Lemma transaction_type_of_sign (q : Q) :
  ((0 < q)%Q -> transaction_type_of q = VStr "Income")
  /\ ((q <= 0)%Q -> transaction_type_of q = VStr "Expense").
Proof.
  unfold transaction_type_of. split; intros H.
  - replace (gt0 q) with true; [reflexivity|]. symmetry. now apply Qltb_lt.
  - replace (gt0 q) with false; [reflexivity|]. symmetry.
    destruct (gt0 q) eqn:E; [|reflexivity].
    apply Qltb_lt in E. exfalso. eapply Qlt_not_le; eauto.
Qed.

(** The table [clean_csv_data] returns has the shape the next theorem
    asks for. *)
Lemma to_frame_cleaned (rows : list CleanRow) :
  get_col (to_frame rows) "amount" = Some (map VNum (map c_amount rows))
  /\ get_col (to_frame rows) "date" = Some (map VDate (map c_date rows))
  /\ (forall name, In name derived_names -> ~ In name (column_names (to_frame rows))).
Proof.
  split; [|split].
  - unfold get_col, to_frame. simpl. now rewrite map_map.
  - unfold get_col, to_frame. simpl. now rewrite map_map.
  - intros name Hname. unfold column_names, to_frame. simpl in *.
    intuition (subst; discriminate).
Qed.

(** C9. On a cleaned table (a numeric [amount] column, a datetime [date]
    column, no derived column yet), the empty one included,
    [add_derived_columns] returns a table with the same index, hence the
    same number of rows, in which every column of the input is found with
    its values unchanged; it adds only [transaction_type] ("Income" when
    the amount is above zero, "Expense" otherwise, zero included),
    [abs_amount] (the absolute value) and the [month], [year] and
    [month_year] buckets of the date, each with one value per row. *)
Theorem add_derived_columns_frame (df : DataFrame Value)
        (dates : list Timestamp) (amounts : list Q) :
  get_col df "amount" = Some (map VNum amounts) ->
  get_col df "date" = Some (map VDate dates) ->
  (forall name, In name derived_names -> ~ In name (column_names df)) ->
  exists out,
    add_derived_columns df = Some out
    /\ index out = index df
    /\ length (index out) = length (index df)
    /\ (forall name values,
          get_col df name = Some values -> get_col out name = Some values)
    /\ firstn (length (columns df)) (columns out) = columns df
    /\ column_names out = column_names df ++ derived_names
    /\ get_col out "transaction_type" = Some (map transaction_type_of amounts)
    /\ get_col out "abs_amount" = Some (map (fun q => VNum (Qabs q)) amounts)
    /\ get_col out "month"
       = Some (map (fun t => VPeriod (ts_year t) (ts_month t)) dates)
    /\ get_col out "year" = Some (map (fun t => VInt (Z.of_nat (ts_year t))) dates)
    /\ get_col out "month_year"
       = Some (map (fun t => VStr (zero_pad 4 (ts_year t) ++ "-"
                                     ++ zero_pad 2 (ts_month t))%string) dates)
    /\ (forall q, ((0 < q)%Q -> transaction_type_of q = VStr "Income")
                  /\ ((q <= 0)%Q -> transaction_type_of q = VStr "Expense")).
Proof.
  intros Hamt Hdate Hfresh.
  exists (mkFrame (index df) (columns df ++ derived_columns dates amounts)).
  split; [now apply add_derived_columns_appends|].
  destruct df as [idx cols]. unfold column_names in *. cbn [index columns] in *.
  assert (Hnew : forall name, In name derived_names ->
            get_col (mkFrame idx (cols ++ derived_columns dates amounts)) name
            = get_col (mkFrame idx (derived_columns dates amounts)) name).
  { intros name Hname. apply get_col_extra. now apply Hfresh. }
  repeat split.
  - intros name values Hcol. apply (get_col_app idx idx cols); [|exact Hcol].
    change (map fst (derived_columns dates amounts)) with derived_names.
    intros Hname. apply (Hfresh name Hname).
    apply (get_col_In (mkFrame idx cols) name values Hcol).
  - now rewrite firstn_app, Nat.sub_diag, firstn_all, app_nil_r.
  - now rewrite map_app.
  - rewrite Hnew by (simpl; tauto). reflexivity.
  - rewrite Hnew by (simpl; tauto). reflexivity.
  - rewrite Hnew by (simpl; tauto). reflexivity.
  - rewrite Hnew by (simpl; tauto). reflexivity.
  - rewrite Hnew by (simpl; tauto). reflexivity.
  - apply transaction_type_of_sign.
  - apply transaction_type_of_sign.
Qed.

Lemma add_derived_columns_frame_witness :
  (exists out, add_derived_columns (to_frame []) = Some out /\ index out = [])
  /\ (exists out,
        add_derived_columns (to_frame two_cleaned_rows) = Some out
        /\ index out = [0; 1]%nat
        /\ get_col out "description" = Some [VStr "COFFEE"; VStr "ADJUSTMENT"]
        /\ get_col out "transaction_type" = Some [VStr "Expense"; VStr "Expense"]
        /\ get_col out "month_year" = Some [VStr "2024-01"; VStr "2024-03"]).
Proof.
  split.
  - destruct (to_frame_cleaned []) as (Ha & Hd & Hf).
    destruct (add_derived_columns_frame (to_frame []) _ _ Ha Hd Hf)
      as (out & Hout & Hidx & _).
    exists out. split; [exact Hout|exact Hidx].
  - destruct (to_frame_cleaned two_cleaned_rows) as (Ha & Hd & Hf).
    destruct (add_derived_columns_frame (to_frame two_cleaned_rows) _ _ Ha Hd Hf)
      as (out & Hout & Hidx & _ & Hold & _ & _ & Htype & _ & _ & _ & Hmy & _).
    exists out. split; [exact Hout|]. split; [exact Hidx|].
    split; [now apply Hold|]. split; [exact Htype|exact Hmy].
Defined.

End DerivedFacts.

(* ===================================================================== *)
(** ** Sorting by date and relabelling *)
(* ===================================================================== *)

Section SortFacts.

Lemma lex_leb_trans (a b c : list nat) :
  lex_leb a b = true -> lex_leb b c = true -> lex_leb a c = true.
Proof.
  revert b c. induction a as [|x a IH]; intros [|y b] [|z c]; simpl; try easy.
  destruct (Nat.compare_spec x y), (Nat.compare_spec y z), (Nat.compare_spec x z);
    try easy; try lia.
  apply IH.
Qed.

Lemma ts_leb_trans (a b c : Timestamp) :
  ts_leb a b = true -> ts_leb b c = true -> ts_leb a c = true.
Proof. unfold ts_leb. apply lex_leb_trans. Qed.

Lemma relabel_length (start : nat) (rows : list CleanRow) :
  length (relabel start rows) = length rows.
Proof. revert start. induction rows; intros; simpl; auto. Qed.

Lemma relabel_index (start : nat) (rows : list CleanRow) :
  map c_index (relabel start rows) = seq start (length rows).
Proof. revert start. induction rows; intros; simpl; f_equal; auto. Qed.

Lemma relabel_content (start : nat) (rows : list CleanRow) :
  map row_content (relabel start rows) = map row_content rows.
Proof. revert start. induction rows; intros; simpl; f_equal; auto. Qed.

Lemma relabel_dates (start : nat) (rows : list CleanRow) :
  map c_date (relabel start rows) = map c_date rows.
Proof. revert start. induction rows; intros; simpl; f_equal; auto. Qed.

Lemma Sorted_map_dates (rows : list CleanRow) :
  Sorted (fun a b => is_true (DateOrder.leb a b)) rows ->
  Sorted (fun a b => ts_leb a b = true) (map c_date rows).
Proof.
  induction 1 as [|r rows Hs IH Hhd]; simpl; constructor; [exact IH|].
  destruct Hhd; simpl; constructor. assumption.
Qed.

(** The dates of a sorted, relabelled table ascend, each date being at
    most every later one. *)
Lemma sorted_dates (rows : list CleanRow) :
  StronglySorted (fun a b => ts_leb a b = true)
                 (map c_date (reset_index (sort_values_date rows))).
Proof.
  unfold reset_index, sort_values_date. rewrite relabel_dates.
  apply Sorted_StronglySorted.
  - intros a b c. apply ts_leb_trans.
  - apply Sorted_map_dates. apply DateSort.Sorted_sort.
Qed.

Lemma sorted_content (rows : list CleanRow) :
  Permutation (map row_content rows)
              (map row_content (reset_index (sort_values_date rows))).
Proof.
  unfold reset_index, sort_values_date. rewrite relabel_content.
  apply Permutation_map. apply DateSort.Permuted_sort.
Qed.

Lemma sorted_length (rows : list CleanRow) :
  length (reset_index (sort_values_date rows)) = length rows.
Proof.
  unfold reset_index, sort_values_date. rewrite relabel_length.
  symmetry. apply Permutation_length. apply DateSort.Permuted_sort.
Qed.

End SortFacts.

(* ===================================================================== *)
(** ** Cleaning *)
(* ===================================================================== *)

Section CleaningFacts.
Import PyStr Cleaning.

Context {Cell : Type}.
Variable astype_str : Cell -> string.
Variable to_numeric : string -> option Q.
Variable to_datetime : list Cell -> Cell -> option Timestamp.

Local Abbreviation coerce_row := (coerce_row astype_str to_numeric).
Local Abbreviation clean_description := (clean_description astype_str).
Local Abbreviation amount_clean := (amount_clean astype_str).
Local Abbreviation clean_unsorted := (clean_unsorted astype_str to_numeric to_datetime).
Local Abbreviation clean_rows := (clean_rows astype_str to_numeric to_datetime).
Local Abbreviation clean_csv_data := (clean_csv_data astype_str to_numeric to_datetime).
Local Abbreviation amount_of := (amount_of astype_str to_numeric).
Local Abbreviation amount_removed := (amount_removed astype_str to_numeric).
Local Abbreviation amount_record := (amount_record astype_str).
Local Abbreviation date_column := (date_column astype_str to_numeric).
Local Abbreviation date_record := (date_record astype_str to_numeric to_datetime).
Local Abbreviation fate := (fate astype_str to_numeric to_datetime).

Lemma append_records_map {R} (record : R -> RemovedRow Cell) (invalid : list R)
      (removed : list (RemovedRow Cell)) :
  append_records record invalid removed = removed ++ map record invalid.
Proof.
  unfold append_records. revert removed.
  induction invalid as [|x invalid IH]; intros removed; simpl.
  - now rewrite app_nil_r.
  - rewrite IH. now rewrite <- app_assoc.
Qed.

Lemma omap_cons {A B} (f : A -> option B) (x : A) (l : list A) :
  omap f (x :: l) = match f x with Some y => y :: omap f l | None => omap f l end.
Proof. reflexivity. Qed.

Lemma omap_map {A B C} (g : A -> B) (f : B -> option C) (l : list A) :
  omap f (map g l) = omap (fun x => f (g x)) l.
Proof.
  induction l as [|x l IH]; [reflexivity|].
  rewrite map_cons, !omap_cons, IH. reflexivity.
Qed.

(** The working table after the amount step. *)
Lemma dropna_amount_rows (rows : list (RawRow Cell)) :
  dropna_amount (map coerce_row rows)
  = omap (fun r => mkWorkRow (raw_index r) (raw_date r)
                            (clean_description (raw_description r)) <$> amount_of r)
         rows.
Proof.
  unfold dropna_amount. rewrite omap_map. reflexivity.
Qed.

Lemma dropna_amount_dates (rows : list (RawRow Cell)) :
  map w_date (dropna_amount (map coerce_row rows)) = date_column rows.
Proof.
  rewrite dropna_amount_rows. unfold date_column.
  induction rows as [|r rows IH]; [reflexivity|].
  rewrite omap_cons. cbn [List.filter].
  destruct (amount_of r); simpl; now rewrite IH.
Qed.

Lemma invalid_amounts_rows (rows : list (RawRow Cell)) :
  map invalid_amount_record
      (List.filter (fun r => isna (w_amount r)) (map coerce_row rows))
  = map amount_record (List.filter amount_removed rows).
Proof.
  induction rows as [|r rows IH]; [reflexivity|].
  simpl. unfold amount_removed at 1, amount_of.
  destruct (to_numeric _); simpl; now rewrite IH.
Qed.

Lemma omap_ext_all {A B} (f g : A -> option B) (l : list A) :
  (forall x, f x = g x) -> omap f l = omap g l.
Proof.
  intros H. induction l as [|x l IH]; [reflexivity|].
  now rewrite !omap_cons, H, IH.
Qed.

Lemma map_omap {A B C} (f : A -> option B) (g : B -> C) (l : list A) :
  map g (omap f l) = omap (fun x => g <$> f x) l.
Proof.
  induction l as [|x l IH]; [reflexivity|].
  rewrite !omap_cons. destruct (f x); simpl; now rewrite IH.
Qed.

Lemma filter_omap {A B} (f : A -> option B) (p : B -> bool) (l : list A) :
  List.filter p (omap f l)
  = omap (fun x => match f x with
                   | Some y => if p y then Some y else None
                   | None => None
                   end) l.
Proof.
  induction l as [|x l IH]; [reflexivity|].
  rewrite !omap_cons. destruct (f x) as [y|]; simpl; [|exact IH].
  destruct (p y); now rewrite IH.
Qed.

Lemma omap_omap {A B C} (f : A -> option B) (g : B -> option C) (l : list A) :
  omap g (omap f l) = omap (fun x => f x ≫= g) l.
Proof.
  induction l as [|x l IH]; [reflexivity|].
  rewrite !omap_cons. destruct (f x) as [y|]; cbn [mbind option_bind]; [|exact IH].
  rewrite omap_cons. destruct (g y); now rewrite IH.
Qed.

Lemma parse_dates_rows (rows : list (RawRow Cell)) :
  parse_dates to_datetime (dropna_amount (map coerce_row rows))
  = omap (fun r => (fun a => mkWorkRow (raw_index r)
                                       (to_datetime (date_column rows) (raw_date r))
                                       (clean_description (raw_description r)) a)
                     <$> amount_of r) rows.
Proof.
  unfold parse_dates. cbv zeta. rewrite dropna_amount_dates, dropna_amount_rows.
  rewrite map_omap. apply omap_ext_all. intros r. now destruct (amount_of r).
Qed.

(** [clean_unsorted], row by row: the kept rows are those whose amount and
    date parse, in their order; the removed rows are first the records of
    the invalid amounts, then those of the invalid dates. *)
Lemma squeeze_scalar {A} (l : list A) :
  length l = 1%nat -> exists a, squeeze l = Scalar a.
Proof. destruct l as [|a [|b l]]; try discriminate. intros _. now exists a. Qed.

Lemma squeeze_series {A} (l : list A) : length l <> 1%nat -> squeeze l = Series l.
Proof. destruct l as [|a [|b l]]; try reflexivity. intros H. now destruct H. Qed.

Lemma clean_unsorted_rows (rows : list (RawRow Cell)) :
  clean_unsorted rows
  = if (length rows =? 1)%nat then inl AttributeError
    else inr (omap (fun r => is_kept (fate rows r)) rows,
              map amount_record (List.filter amount_removed rows)
                ++ omap (date_record rows) rows).
Proof.
  unfold Cleaning.clean_unsorted. cbv zeta.
  destruct (Nat.eqb_spec (length rows) 1) as [Hone|Hmore].
  { destruct (squeeze_scalar (map raw_amount rows)) as [a ->]; [|reflexivity].
    now rewrite length_map. }
  rewrite squeeze_series by now rewrite length_map.
  rewrite !append_records_map, app_nil_l, invalid_amounts_rows, parse_dates_rows.
  do 2 f_equal.
  - unfold dropna_date. rewrite omap_omap. apply omap_ext_all. intros r.
    unfold fate. destruct (amount_of r); simpl; [|reflexivity].
    now destruct (to_datetime _ _).
  - f_equal. rewrite filter_omap, map_omap. apply omap_ext_all. intros r.
    unfold date_record. destruct (amount_of r); simpl; [|reflexivity].
    now destruct (to_datetime _ _).
Qed.

Lemma fate_partition (rows l : list (RawRow Cell)) :
  Permutation (map raw_index l)
              (map c_index (omap (fun r => is_kept (fate rows r)) l)
                 ++ map r_index (map amount_record (List.filter amount_removed l)
                                   ++ omap (date_record rows) l)).
Proof.
  induction l as [|r l IH]; [constructor|].
  rewrite !omap_cons. cbn [List.filter map].
  unfold fate, date_record, amount_removed at 1.
  rewrite map_app in *.
  destruct (amount_of r) as [a|]; cbn [isna].
  - destruct (to_datetime (date_column rows) (raw_date r)); cbn [is_kept map].
    + simpl. now apply perm_skip.
    + rewrite app_assoc. apply Permutation_cons_app. now rewrite <- app_assoc.
  - cbn [is_kept map app]. now apply Permutation_cons_app.
Qed.

Lemma kept_rows_valid (rows : list (RawRow Cell)) (row : CleanRow) :
  In row (omap (fun r => is_kept (fate rows r)) rows) ->
  exists r, In r rows
            /\ c_index row = raw_index r
            /\ amount_of r = Some (c_amount row)
            /\ to_datetime (date_column rows) (raw_date r) = Some (c_date row)
            /\ c_description row = clean_description (raw_description r).
Proof.
  intros Hin. apply list_elem_of_In, list_elem_of_omap in Hin as (r & Hr & Hfate).
  apply list_elem_of_In in Hr. exists r. split; [exact Hr|].
  unfold fate in Hfate. destruct (amount_of r) as [a|]; [|discriminate].
  destruct (to_datetime _ _) as [d|]; [|discriminate].
  injection Hfate as <-. simpl. auto.
Qed.

Lemma clean_description_nonempty (cell : Cell) : clean_description cell <> "".
Proof.
  unfold Cleaning.clean_description. cbv zeta.
  destruct (elem (strip (astype_str cell)) ["nan"; "None"; ""]) eqn:E; [discriminate|].
  intros Heq. rewrite Heq in E. discriminate.
Qed.

(** *** The reduced table *)

Lemma find_loc_not (cols : list (string * list Cell)) (seen : list string) (n : string) :
  elem n seen = false ->
  find (fun c => String.eqb (fst c) n)
       (map snd (List.filter (fun bc => negb (fst bc))
                             (zip (duplicated seen (map fst cols)) cols)))
  = find (fun c => String.eqb (fst c) n) cols.
Proof.
  revert seen. induction cols as [|c cols IH]; intros seen Hseen; [reflexivity|].
  cbn [map duplicated zip zip_with List.filter fst snd find].
  destruct (String.eqb_spec (fst c) n) as [Heq|Hne].
  - rewrite Heq, Hseen. cbn [negb map snd find]. now rewrite Heq, String.eqb_refl.
  - assert (Hseen' : elem n (fst c :: seen) = false).
    { unfold elem in *. cbn [existsb]. rewrite Hseen, orb_false_r.
      apply String.eqb_neq. congruence. }
    destruct (elem (fst c) seen); cbn [negb map snd find].
    + now apply IH.
    + replace (String.eqb (fst c) n) with false
        by (symmetry; now apply String.eqb_neq).
      now apply IH.
Qed.

Lemma first_col_loc_not (df : DataFrame Cell) (name : string) :
  first_col (loc_not (duplicated [] (column_names df)) df) name = first_col df name.
Proof.
  unfold first_col, loc_not, column_names. cbn [columns].
  now rewrite find_loc_not.
Qed.

Lemma elem_cons (n x : string) (seen : list string) :
  elem n (x :: seen) = String.eqb n x || elem n seen.
Proof. reflexivity. Qed.

(** The columns [~duplicated()] keeps bear distinct names. *)
Lemma loc_not_distinct (cols : list (string * list Cell)) (seen : list string) :
  let kept := map fst (map snd (List.filter (fun bc => negb (fst bc))
                                            (zip (duplicated seen (map fst cols)) cols))) in
  List.NoDup kept /\ forall n, In n kept -> elem n seen = false.
Proof.
  cbv zeta. revert seen. induction cols as [|c cols IH]; intros seen.
  { split; [constructor|intros n []]. }
  cbn [map duplicated zip zip_with List.filter fst snd].
  destruct (IH (fst c :: seen)) as [Hnd Hseen].
  assert (Hout : forall n, In n (map fst (map snd (List.filter (fun bc => negb (fst bc))
                     (zip (duplicated (fst c :: seen) (map fst cols)) cols)))) ->
                   n <> fst c /\ elem n seen = false).
  { intros n Hn. specialize (Hseen n Hn). rewrite elem_cons in Hseen.
    apply orb_false_elim in Hseen as [Hne Hs]. apply String.eqb_neq in Hne. auto. }
  destruct (elem (fst c) seen) eqn:E; cbn [negb map fst snd].
  - split; [exact Hnd|]. intros n Hn. now apply Hout.
  - split.
    + constructor; [|exact Hnd]. intros Hn. now destruct (Hout _ Hn).
    + intros n [<-|Hn]; [exact E|]. now apply Hout.
Qed.

(** Where [duplicated()] marks nothing, the names are distinct. *)
Lemma duplicated_none (names seen : list string) :
  existsb id (duplicated seen names) = false ->
  List.NoDup names /\ forall n, In n names -> elem n seen = false.
Proof.
  revert seen. induction names as [|name names IH]; intros seen H.
  { split; [constructor|intros n []]. }
  cbn [duplicated existsb id] in H. apply orb_false_elim in H as [Hname H].
  destruct (IH (name :: seen) H) as [Hnd Hseen].
  assert (Hout : forall n, In n names -> n <> name /\ elem n seen = false).
  { intros n Hn. specialize (Hseen n Hn). rewrite elem_cons in Hseen.
    apply orb_false_elim in Hseen as [Hne Hs]. apply String.eqb_neq in Hne. auto. }
  split.
  - constructor; [|exact Hnd]. intros Hn. now destruct (Hout _ Hn).
  - intros n [<-|Hn]; [exact Hname|]. now apply Hout.
Qed.

(** After lines 38-40 each name selects the first column that bore it. *)
Lemma get_col_deduplicated (l : DataFrame Cell) (name : string) :
  get_col (if existsb id (duplicated [] (column_names l))
           then loc_not (duplicated [] (column_names l)) l else l) name
  = first_col l name.
Proof.
  destruct (existsb id (duplicated [] (column_names l))) eqn:E.
  - rewrite get_col_distinct; [apply first_col_loc_not|].
    unfold loc_not, column_names. cbn [columns].
    apply (loc_not_distinct (columns l) []).
  - apply get_col_distinct. now apply (duplicated_none _ []).
Qed.

(** An accepted table is reduced to the first column of each required
    name, names being compared in lower case and trimmed; the index is
    untouched. *)
Lemma column_reduce_columns (df reduced : DataFrame Cell) :
  column_reduce df = inr reduced ->
  index reduced = index df
  /\ exists dates descriptions amounts,
       columns reduced
         = [("date", dates); ("description", descriptions); ("amount", amounts)]
       /\ first_col (lower_strip_columns df) "date" = Some dates
       /\ first_col (lower_strip_columns df) "description" = Some descriptions
       /\ first_col (lower_strip_columns df) "amount" = Some amounts.
Proof.
  unfold column_reduce. cbv zeta.
  destruct (missing_cols (lower_strip_columns df)); [|discriminate].
  set (l := lower_strip_columns df).
  pose proof (get_col_deduplicated l) as Hcol.
  set (df' := if existsb id (duplicated [] (column_names l))
              then loc_not (duplicated [] (column_names l)) l else l) in *.
  assert (Hidx : index df' = index df).
  { unfold df'. destruct (existsb id _); reflexivity. }
  unfold select_required, required_cols. cbn [mapM].
  rewrite !Hcol.
  destruct (first_col l "date") as [dates|]; [|discriminate].
  destruct (first_col l "description") as [descriptions|]; [|discriminate].
  destruct (first_col l "amount") as [amounts|]; [|discriminate].
  cbn. intros [= <-]. cbn [index columns]. split; [exact Hidx|].
  exists dates, descriptions, amounts. auto.
Qed.

Lemma zip_rows_length (idx : list nat) (dates descriptions amounts : list Cell) :
  length dates = length idx -> length descriptions = length idx ->
  length amounts = length idx ->
  length (zip_rows idx dates descriptions amounts) = length idx.
Proof.
  revert dates descriptions amounts.
  induction idx as [|i idx IH]; intros [|d ds] [|x xs] [|a am]; simpl; try easy.
  intros. f_equal. apply IH; lia.
Qed.

Lemma first_col_length (df : DataFrame Cell) (name : string) (values : list Cell) :
  rectangular df -> first_col (lower_strip_columns df) name = Some values ->
  length values = length (index df).
Proof.
  unfold rectangular, first_col, lower_strip_columns. cbn [columns].
  intros Hrect Hget.
  destruct (find _ _) as [c|] eqn:Hfind; [|discriminate].
  injection Hget as <-. apply find_some in Hfind as [Hin _].
  apply in_map_iff in Hin as (c0 & <- & Hc0). cbn [snd].
  rewrite List.Forall_forall in Hrect. now apply Hrect.
Qed.

(** The reduced table of a rectangular table has one row per index label,
    labelled in order. *)
Lemma rows_of_rectangular (df reduced : DataFrame Cell) :
  rectangular df -> column_reduce df = inr reduced ->
  length (rows_of reduced) = length (index df).
Proof.
  intros Hrect Hred.
  destruct (column_reduce_columns df reduced Hred)
    as (Hidx & dates & descriptions & amounts & Hcols & Hd & Hx & Ha).
  destruct reduced as [idx cols]. cbn [index columns] in *. subst idx cols.
  unfold rows_of, get_col. cbn.
  apply zip_rows_length; eapply first_col_length; eauto.
Qed.

Lemma clean_csv_data_accepted (df : DataFrame Cell) (cleaned : list CleanRow)
      (removed : list (RemovedRow Cell)) :
  clean_csv_data df = inr (cleaned, removed) ->
  exists reduced,
    column_reduce df = inr reduced
    /\ cleaned = reset_index (sort_values_date
                   (omap (fun r => is_kept (fate (rows_of reduced) r)) (rows_of reduced)))
    /\ removed = map amount_record (List.filter amount_removed (rows_of reduced))
                   ++ omap (date_record (rows_of reduced)) (rows_of reduced)
    /\ length (rows_of reduced) <> 1%nat.
Proof.
  unfold Cleaning.clean_csv_data. destruct (column_reduce df) as [missing|reduced];
    [discriminate|].
  unfold Cleaning.clean_rows. rewrite clean_unsorted_rows.
  destruct (Nat.eqb_spec (length (rows_of reduced)) 1) as [|Hlen]; [discriminate|].
  intros [= <- <-]. exists reduced. auto.
Qed.

Lemma fate_recorded (rows : list (RawRow Cell)) (r : RawRow Cell) :
  In r rows ->
  match fate rows r with
  | inl row => In row (omap (fun r => is_kept (fate rows r)) rows)
  | inr rec => In rec (map amount_record (List.filter amount_removed rows)
                         ++ omap (date_record rows) rows)
  end.
Proof.
  intros Hr. destruct (fate rows r) as [row|rec] eqn:Hfate.
  - apply list_elem_of_In, list_elem_of_omap. exists r.
    split; [now apply list_elem_of_In|]. now rewrite Hfate.
  - apply in_or_app. unfold fate in Hfate.
    destruct (amount_of r) as [a|] eqn:Ha.
    + right. apply list_elem_of_In, list_elem_of_omap. exists r.
      split; [now apply list_elem_of_In|]. unfold date_record. rewrite Ha.
      destruct (to_datetime _ _); [discriminate|]. now injection Hfate as <-.
    + left. injection Hfate as <-. apply in_map. apply filter_In.
      split; [exact Hr|]. unfold amount_removed. now rewrite Ha.
Qed.

(** C1. When [clean_csv_data] accepts a table, every row of the table
    reduced to the three columns goes to exactly one of the two outputs:
    the counts add up, the index labels of the reduced rows are those of
    the kept rows (before relabelling) together with those of the removed
    records, each as often as it occurs, and the cleaned table is the kept
    rows in another order.  On a rectangular table the two counts add up to
    its number of rows. *)
Theorem clean_csv_data_accounts_for_rows (df : DataFrame Cell)
        (cleaned : list CleanRow) (removed : list (RemovedRow Cell)) :
  clean_csv_data df = inr (cleaned, removed) ->
  exists reduced kept,
    column_reduce df = inr reduced
    /\ clean_unsorted (rows_of reduced) = inr (kept, removed)
    /\ cleaned = reset_index (sort_values_date kept)
    /\ Permutation (map row_content kept) (map row_content cleaned)
    /\ (length cleaned + length removed = length (rows_of reduced))%nat
    /\ Permutation (map raw_index (rows_of reduced))
                   (map c_index kept ++ map r_index removed)
    /\ (forall r, In r (rows_of reduced) ->
          match fate (rows_of reduced) r with
          | inl row => In row kept
          | inr rec => In rec removed
          end)
    /\ (List.NoDup (map raw_index (rows_of reduced)) ->
        List.NoDup (map c_index kept ++ map r_index removed))
    /\ (rectangular df ->
        (length cleaned + length removed = length (index df))%nat).
Proof.
  intros Hclean.
  destruct (clean_csv_data_accepted df cleaned removed Hclean)
    as (reduced & Hred & Hcleaned & Hremoved & Hmore).
  pose proof (fun Hrect => rows_of_rectangular df reduced Hrect Hred) as Hrows.
  set (rows := rows_of reduced) in *.
  set (kept := omap (fun r => is_kept (fate rows r)) rows) in *.
  pose proof (fate_partition rows rows) as Hperm.
  fold kept in Hperm. rewrite <- Hremoved in Hperm.
  exists reduced, kept. repeat split.
  - exact Hred.
  - fold rows. rewrite clean_unsorted_rows, Hremoved.
    now destruct (Nat.eqb_spec (length rows) 1).
  - exact Hcleaned.
  - rewrite Hcleaned. apply sorted_content.
  - rewrite Hcleaned, sorted_length.
    apply Permutation_length in Hperm.
    rewrite length_app, !length_map in Hperm. fold rows. lia.
  - exact Hperm.
  - intros r Hr. pose proof (fate_recorded rows r Hr) as Hfate.
    fold kept in Hfate. rewrite <- Hremoved in Hfate. exact Hfate.
  - intros Hnd. eapply Permutation_NoDup; eauto.
  - intros Hrect. rewrite <- (Hrows Hrect), Hcleaned, sorted_length.
    apply Permutation_length in Hperm.
    rewrite length_app, !length_map in Hperm. fold rows. lia.
Qed.

(** C2. When [clean_csv_data] accepts a table, every row of the cleaned
    table comes from a row of the reduced table whose amount parsed to the
    row's number and whose date parsed to the row's timestamp, with a
    description that is not empty; the dates ascend; the index is
    [0 .. n-1]. *)
Theorem clean_csv_data_rows_valid (df : DataFrame Cell)
        (cleaned : list CleanRow) (removed : list (RemovedRow Cell)) :
  clean_csv_data df = inr (cleaned, removed) ->
  exists reduced,
    column_reduce df = inr reduced
    /\ (forall row, In row cleaned ->
          exists r, In r (rows_of reduced)
                    /\ to_numeric (amount_clean (raw_amount r)) = Some (c_amount row)
                    /\ to_datetime (date_column (rows_of reduced)) (raw_date r)
                       = Some (c_date row)
                    /\ c_description row = clean_description (raw_description r)
                    /\ c_description row <> "")
    /\ StronglySorted (fun a b => ts_leb a b = true) (map c_date cleaned)
    /\ map c_index cleaned = seq 0 (length cleaned).
Proof.
  intros Hclean.
  destruct (clean_csv_data_accepted df cleaned removed Hclean)
    as (reduced & Hred & Hcleaned & _).
  set (rows := rows_of reduced) in *.
  set (kept := omap (fun r => is_kept (fate rows r)) rows) in *.
  exists reduced. split; [exact Hred|]. split; [|split].
  - intros row Hrow.
    assert (Hcontent : In (row_content row) (map row_content kept)).
    { eapply Permutation_in.
      - symmetry. apply (sorted_content kept).
      - rewrite <- Hcleaned. now apply in_map. }
    apply in_map_iff in Hcontent as (k & Hk & Hkept).
    destruct (kept_rows_valid rows k Hkept) as (r & Hr & _ & Ha & Hd & Hdesc).
    unfold row_content in Hk. injection Hk as Hdate Hdescr Hamt.
    exists r. rewrite <- Hdate, <- Hdescr, <- Hamt.
    repeat split; try assumption.
    rewrite Hdesc. apply clean_description_nonempty.
  - rewrite Hcleaned. apply sorted_dates.
  - rewrite Hcleaned. unfold reset_index. now rewrite relabel_index, relabel_length.
Qed.



Lemma all_chars_lstrip (p : ascii -> bool) (s : string) :
  all_chars p s = true -> all_chars p (lstrip s) = true.
Proof.
  induction s as [|c s IH]; [reflexivity|]. intros H. cbn [lstrip].
  destruct (is_space c); [|exact H].
  apply IH. simpl in H. now apply andb_prop in H as [_ H].
Qed.

Lemma all_chars_rstrip (p : ascii -> bool) (s : string) :
  all_chars p s = true -> all_chars p (rstrip s) = true.
Proof.
  induction s as [|c s IH]; [reflexivity|]. intros H. simpl in H.
  apply andb_prop in H as [Hc H]. specialize (IH H). cbn [rstrip].
  destruct (rstrip s) as [|a r].
  - destruct (is_space c); [reflexivity|]. simpl. now rewrite Hc.
  - cbn [all_chars] in *. now rewrite Hc, IH.
Qed.



End CleaningFacts.

(* ===================================================================== *)
(** ** Cleaning a small statement *)
(* ===================================================================== *)

Section CleaningExamples.
Import Cleaning Parsers Examples.

Lemma statement_table_cleans :
  clean_csv_data id decimal_to_numeric iso_to_datetime statement_table
  = inr (statement_cleaned, statement_removed).
Proof. vm_compute. reflexivity. Qed.

Lemma clean_csv_data_accounts_for_rows_witness :
  clean_csv_data id decimal_to_numeric iso_to_datetime statement_table
    = inr (statement_cleaned, statement_removed)
  /\ (length statement_cleaned + length statement_removed = 4)%nat
  /\ Permutation [0; 1; 2; 3]%nat ([0; 1] ++ [3; 2])%nat.
Proof.
  split; [exact statement_table_cleans|].
  destruct (clean_csv_data_accounts_for_rows id decimal_to_numeric iso_to_datetime
              statement_table statement_cleaned statement_removed
              statement_table_cleans)
    as (reduced & kept & Hred & Hkept & _ & _ & Hlen & Hperm & _).
  vm_compute in Hred. injection Hred as <-.
  vm_compute in Hkept. injection Hkept as <-.
  split; [exact Hlen|exact Hperm].
Defined.

Lemma clean_csv_data_rows_valid_witness :
  clean_csv_data id decimal_to_numeric iso_to_datetime statement_table
    = inr (statement_cleaned, statement_removed)
  /\ StronglySorted (fun a b => ts_leb a b = true)
                    [mkTimestamp 2024 1 15 0; mkTimestamp 2024 3 1 0]
  /\ map c_index statement_cleaned = [0; 1]%nat.
Proof.
  split; [exact statement_table_cleans|].
  destruct (clean_csv_data_rows_valid id decimal_to_numeric iso_to_datetime
              statement_table statement_cleaned statement_removed
              statement_table_cleans)
    as (reduced & _ & _ & Hsorted & Hindex).
  split; [exact Hsorted|exact Hindex].
Defined.



End CleaningExamples.

(* ===================================================================== *)
(** ** Further properties of the classifier *)
(* ===================================================================== *)

Section ClassifierRange.
Import PyStr Classifier Spec.

Lemma list_max_In (l : list nat) : l <> [] -> In (list_max l) l.
Proof.
  induction l as [|x l IH]; [congruence|]. intros _.
  destruct l as [|y l].
  - left. simpl. lia.
  - specialize (IH ltac:(discriminate)).
    change (list_max (x :: y :: l)) with (Nat.max x (list_max (y :: l))).
    destruct (Nat.max_spec x (list_max (y :: l))) as [[_ ->]|[_ ->]].
    + now right.
    + now left.
Qed.

Lemma list_max_ge (l : list nat) (x : nat) : In x l -> (x <= list_max l)%nat.
Proof.
  intros Hx. pose proof (list_max_le l (list_max l)) as [H _].
  specialize (H (Nat.le_refl _)). rewrite List.Forall_forall in H. now apply H.
Qed.

Lemma find_is_some {A} (p : A -> bool) (l : list A) (x : A) :
  In x l -> p x = true -> exists y, find p l = Some y.
Proof.
  intros Hx Hp. destruct (find p l) as [y|] eqn:E; [now exists y|].
  rewrite (find_none p l E x Hx) in Hp. discriminate.
Qed.

Lemma score_spec_zero (dl : string) (kws : list string) :
  score_spec dl kws = 0%nat
  <-> (forall kw, In kw kws -> contains kw dl = true -> len kw = 0%nat).
Proof.
  unfold score_spec. induction kws as [|kw kws IH]; simpl.
  - split; [intros _ kw []|reflexivity].
  - destruct (contains kw dl) eqn:E; simpl.
    + split.
      * intros H k [<-|Hk] Hc; [lia|]. apply IH; [lia|assumption|assumption].
      * intros H. rewrite (H kw) by auto.
        simpl. apply IH. intros k Hk Hc. apply H; auto.
    + rewrite IH. split.
      * intros H k [<-|Hk] Hc; [congruence|now apply H].
      * intros H k Hk Hc. apply H; auto.
Qed.

Lemma CATEGORY_KEYWORDS_nonempty (c : string) (kws : list string) (kw : string) :
  In (c, kws) CATEGORY_KEYWORDS -> In kw kws -> (0 < len kw)%nat.
Proof.
  assert (H : Forall (fun ck => Forall (fun kw => (0 < String.length kw)%nat) (snd ck))
                     CATEGORY_KEYWORDS).
  { apply (bool_decide_unpack _). vm_compute. exact I. }
  intros Hc Hkw. rewrite List.Forall_forall in H. specialize (H _ Hc).
  rewrite List.Forall_forall in H. now apply H.
Qed.

Lemma Other_not_a_table_name : ~ In "Other" (map fst CATEGORY_KEYWORDS).
Proof. intros H. apply elem_In in H. vm_compute in H. discriminate. Qed.

Lemma classify_spec_eq (description : string) (amount : Q) :
  gt0 amount = false ->
  classify description amount = classify_keywords_spec CATEGORY_KEYWORDS description.
Proof.
  intros H. unfold classify. apply classify_with_spec; auto.
  - exact CATEGORY_KEYWORDS_names_distinct.
  - exact CATEGORY_KEYWORDS_lower.
Qed.

(** The scores of the table, and the choice among them. *)
Lemma classify_spec_cases (description : string) :
  let scores := map (fun ck => (fst ck, score_spec (lower description) (snd ck)))
                    CATEGORY_KEYWORDS in
  let best := list_max (map snd scores) in
  (best = 0%nat /\ classify_keywords_spec CATEGORY_KEYWORDS description = "Other")
  \/ (best <> 0%nat
      /\ exists ck, In ck CATEGORY_KEYWORDS
                    /\ score_spec (lower description) (snd ck) = best
                    /\ classify_keywords_spec CATEGORY_KEYWORDS description = fst ck).
Proof.
  intros scores best. unfold classify_keywords_spec. cbv zeta.
  fold scores. fold best.
  destruct (Nat.eqb_spec best 0) as [E|Hne]; [left; auto|right].
  split; [exact Hne|].
  assert (Hin : In best (map snd scores)).
  { apply list_max_In. unfold scores. discriminate. }
  apply in_map_iff in Hin as (cs & Hsnd & Hcs).
  destruct (find_is_some (fun cs => (snd cs =? best)%nat) scores cs Hcs) as [y Hy].
  { now apply Nat.eqb_eq. }
  rewrite Hy. apply find_some in Hy as [Hy Hbest]. apply Nat.eqb_eq in Hbest.
  unfold scores in Hy. apply in_map_iff in Hy as (ck & <- & Hck).
  exists ck. split; [exact Hck|]. split; [exact Hbest|reflexivity].
Qed.

Lemma classify_listed (description : string) (amount : Q) :
  In (classify description amount) get_all_categories.
Proof.
  unfold get_all_categories. apply in_or_app.
  destruct (gt0 amount) eqn:E.
  - left. unfold classify, classify_with. rewrite E.
    apply elem_In. vm_compute. reflexivity.
  - rewrite (classify_spec_eq description amount E).
    destruct (classify_spec_cases description) as [[_ ->]|(_ & ck & Hck & _ & ->)].
    + right. left. reflexivity.
    + left. apply in_map. exact Hck.
Qed.

(** X1. Whatever the description and the amount, [classify] returns one of
    the names [get_all_categories] lists, and that list has no repeated
    name. *)
Theorem classify_in_all_categories (description : string) (amount : Q) :
  In (classify description amount) get_all_categories
  /\ List.NoDup get_all_categories.
Proof.
  split; [apply classify_listed|].
  apply NoDup_ListNoDup. apply (bool_decide_unpack _). vm_compute. exact I.
Qed.

(** X2. For an amount that is zero or negative, [classify] returns "Other"
    exactly when no keyword of any category occurs in the lower-cased
    description. *)
Theorem classify_other_iff (description : string) (amount : Q) :
  (amount <= 0)%Q ->
  (classify description amount = "Other"
   <-> forall c kws kw, In (c, kws) CATEGORY_KEYWORDS -> In kw kws ->
                        contains kw (lower description) = false).
Proof.
  intros Hle. apply gt0_false_iff in Hle.
  rewrite (classify_spec_eq description amount Hle).
  pose proof (classify_spec_cases description) as Hcases. cbv zeta in Hcases.
  set (dl := lower description) in *.
  set (scores := map (fun ck => (fst ck, score_spec dl (snd ck))) CATEGORY_KEYWORDS) in *.
  split.
  - intros Hother c kws kw Hc Hkw.
    destruct Hcases as [[Hbest _]|(_ & ck & Hck & _ & Heq)].
    + assert (Hs : score_spec dl kws = 0%nat).
      { assert (Hle0 : (score_spec dl kws <= list_max (map snd scores))%nat).
        { apply list_max_ge. apply in_map_iff. exists (c, score_spec dl kws).
          split; [reflexivity|]. unfold scores. apply in_map_iff.
          exists (c, kws). split; [reflexivity|exact Hc]. }
        lia. }
      destruct (contains kw dl) eqn:E; [|reflexivity].
      pose proof (proj1 (score_spec_zero dl kws) Hs kw Hkw E).
      pose proof (CATEGORY_KEYWORDS_nonempty c kws kw Hc Hkw). lia.
    + exfalso. apply Other_not_a_table_name. rewrite <- Hother, Heq.
      apply in_map. exact Hck.
  - intros Hnone.
    destruct Hcases as [[_ Heq]|(Hne & ck & Hck & Hbest & _)]; [exact Heq|].
    exfalso. apply Hne. rewrite <- Hbest. apply score_spec_zero.
    intros kw Hkw Hc. destruct ck as [c kws].
    rewrite (Hnone c kws kw Hck Hkw) in Hc. discriminate.
Qed.

Lemma classify_other_iff_witness :
  ((-1) <= 0)%Q /\ classify "ZZZ 42" (-1) = "Other"
  /\ contains "uber" (lower "ZZZ 42") = false.
Proof.
  assert (Hle : ((-1) <= 0)%Q) by (unfold Qle; simpl; lia).
  assert (Hother : classify "ZZZ 42" (-1) = "Other") by (vm_compute; reflexivity).
  split; [exact Hle|]. split; [exact Hother|].
  apply (proj1 (classify_other_iff "ZZZ 42" (-1) Hle) Hother "Transportation"
               (snd (nth 2 CATEGORY_KEYWORDS ("", [])))).
  - vm_compute. tauto.
  - vm_compute. tauto.
Defined.

(** X3. For an amount that is zero or negative, when exactly one category
    has a keyword occurring in the lower-cased description, [classify]
    returns that category. *)
Theorem classify_single_category (description : string) (amount : Q)
        (c : string) (kws : list string) :
  (amount <= 0)%Q ->
  In (c, kws) CATEGORY_KEYWORDS ->
  (exists kw, In kw kws /\ contains kw (lower description) = true) ->
  (forall c' kws' kw', In (c', kws') CATEGORY_KEYWORDS -> c' <> c -> In kw' kws' ->
                       contains kw' (lower description) = false) ->
  classify description amount = c.
Proof.
  intros Hle Hc (kw & Hkw & Hocc) Hothers. apply gt0_false_iff in Hle.
  rewrite (classify_spec_eq description amount Hle).
  pose proof (classify_spec_cases description) as Hcases. cbv zeta in Hcases.
  set (dl := lower description) in *.
  set (scores := map (fun ck => (fst ck, score_spec dl (snd ck))) CATEGORY_KEYWORDS) in *.
  assert (Hpos : (0 < score_spec dl kws)%nat).
  { destruct (Nat.eq_dec (score_spec dl kws) 0) as [E|]; [|lia].
    pose proof (proj1 (score_spec_zero dl kws) E kw Hkw Hocc).
    pose proof (CATEGORY_KEYWORDS_nonempty c kws kw Hc Hkw). lia. }
  assert (Hge : (score_spec dl kws <= list_max (map snd scores))%nat).
  { apply list_max_ge. apply in_map_iff. exists (c, score_spec dl kws).
    split; [reflexivity|]. unfold scores. apply in_map_iff.
    exists (c, kws). split; [reflexivity|exact Hc]. }
  destruct Hcases as [[Hbest _]|(Hne & [c' kws'] & Hck & Hbest & ->)]; [lia|].
  cbn [fst snd] in *. destruct (String.eqb_spec c' c) as [E|Hdiff]; [exact E|].
  exfalso. apply Hne. rewrite <- Hbest. apply score_spec_zero.
  intros kw' Hkw' Hocc'. rewrite (Hothers c' kws' kw' Hck Hdiff Hkw') in Hocc'.
  discriminate.
Qed.

Lemma others_silent_check (table : list (string * list string)) (dl c : string) :
  forallb (fun ck => String.eqb (fst ck) c
                     || forallb (fun kw => negb (contains kw dl)) (snd ck)) table = true ->
  forall c' kws' kw', In (c', kws') table -> c' <> c -> In kw' kws' ->
                      contains kw' dl = false.
Proof.
  intros Hall c' kws' kw' Hc' Hne Hkw'.
  rewrite forallb_forall in Hall. specialize (Hall (c', kws') Hc').
  cbn [fst snd] in Hall. apply orb_true_iff in Hall as [Heq|Hall].
  - apply String.eqb_eq in Heq. contradiction.
  - rewrite forallb_forall in Hall. specialize (Hall kw' Hkw').
    now apply negb_true_iff in Hall.
Qed.

Lemma classify_single_category_witness :
  classify "NETFLIX.COM 866-579-7172" ((-1599) # 100) = "Entertainment".
Proof.
  apply (classify_single_category "NETFLIX.COM 866-579-7172" ((-1599) # 100)
           "Entertainment" (snd (nth 3 CATEGORY_KEYWORDS ("", [])))).
  - unfold Qle. simpl. lia.
  - apply (nth_In CATEGORY_KEYWORDS ("", []) (n := 3)). vm_compute. lia.
  - exists "netflix". split; [apply elem_In; vm_compute; reflexivity|].
    vm_compute. reflexivity.
  - apply others_silent_check. vm_compute. reflexivity.
Defined.

Lemma lower_upper_char (c : ascii) : lower_char (upper_char c) = lower_char c.
Proof. destruct c as [[] [] [] [] [] [] [] []]; reflexivity. Qed.

Lemma lower_lower_char (c : ascii) : lower_char (lower_char c) = lower_char c.
Proof. destruct c as [[] [] [] [] [] [] [] []]; reflexivity. Qed.

Lemma upper_lower_char (c : ascii) : upper_char (lower_char c) = upper_char c.
Proof. destruct c as [[] [] [] [] [] [] [] []]; reflexivity. Qed.

Lemma upper_upper_char (c : ascii) : upper_char (upper_char c) = upper_char c.
Proof. destruct c as [[] [] [] [] [] [] [] []]; reflexivity. Qed.

Lemma smap_smap (f g : ascii -> ascii) (s : string) :
  smap f (smap g s) = smap (fun c => f (g c)) s.
Proof. induction s as [|c s IH]; simpl; [reflexivity|]. now rewrite IH. Qed.

Lemma smap_ext (f g : ascii -> ascii) (s : string) :
  (forall c, f c = g c) -> smap f s = smap g s.
Proof. intros H. induction s as [|c s IH]; simpl; [reflexivity|]. now rewrite H, IH. Qed.

Lemma lower_upper (s : string) : lower (upper s) = lower s.
Proof. unfold lower, upper. rewrite smap_smap. apply smap_ext, lower_upper_char. Qed.

Lemma lower_lower (s : string) : lower (lower s) = lower s.
Proof. unfold lower. rewrite smap_smap. apply smap_ext, lower_lower_char. Qed.

Lemma upper_lower (s : string) : upper (lower s) = upper s.
Proof. unfold lower, upper. rewrite smap_smap. apply smap_ext, upper_lower_char. Qed.

Lemma upper_upper (s : string) : upper (upper s) = upper s.
Proof. unfold upper. rewrite smap_smap. apply smap_ext, upper_upper_char. Qed.

Lemma is_ascii_upper_char (c : ascii) :
  is_ascii_char c = true -> is_ascii_char (upper_char c) = true.
Proof. destruct c as [[] [] [] [] [] [] [] []]; intros H; try reflexivity; discriminate. Qed.

Lemma is_ascii_lower_char (c : ascii) :
  is_ascii_char c = true -> is_ascii_char (lower_char c) = true.
Proof. destruct c as [[] [] [] [] [] [] [] []]; intros H; try reflexivity; discriminate. Qed.

Lemma all_chars_smap (p : ascii -> bool) (f : ascii -> ascii) (s : string) :
  (forall c, p c = true -> p (f c) = true) ->
  all_chars p s = true -> all_chars p (smap f s) = true.
Proof.
  intros Hf. induction s as [|c s IH]; [reflexivity|]. cbn [all_chars smap].
  intros H. apply andb_prop in H as [Hc H]. now rewrite (Hf c Hc), IH.
Qed.

(** Case mapping keeps ASCII text ASCII. *)
Lemma is_ascii_upper (s : string) : is_ascii s = true -> is_ascii (upper s) = true.
Proof. apply all_chars_smap, is_ascii_upper_char. Qed.

Lemma is_ascii_lower (s : string) : is_ascii s = true -> is_ascii (lower s) = true.
Proof. apply all_chars_smap, is_ascii_lower_char. Qed.

(** X4. On an ASCII description, [classify] does not depend on the letter
    case: upper-casing or lower-casing the description first, which leaves
    it ASCII, gives the same category. *)
Theorem classify_case_insensitive (description : string) (amount : Q) :
  is_ascii description = true ->
  is_ascii (upper description) = true
  /\ is_ascii (lower description) = true
  /\ classify (upper description) amount = classify description amount
  /\ classify (lower description) amount = classify description amount.
Proof.
  intros Hascii. split; [now apply is_ascii_upper|]. split; [now apply is_ascii_lower|].
  unfold classify, classify_with. now rewrite lower_upper, lower_lower.
Qed.

Lemma classify_case_insensitive_witness :
  classify (upper "Starbucks #42") ((-4) # 1) = classify "Starbucks #42" ((-4) # 1).
Proof.
  destruct (classify_case_insensitive "Starbucks #42" ((-4) # 1))
    as (_ & _ & Hupper & _); [reflexivity|exact Hupper].
Defined.

Lemma combine_append {A B} (l1 l2 : list A) (k1 k2 : list B) :
  length l1 = length k1 ->
  combine (l1 ++ l2) (k1 ++ k2) = combine l1 k1 ++ combine l2 k2.
Proof.
  revert k1. induction l1 as [|x l1 IH]; intros [|y k1] Hlen; simpl in *;
    try discriminate; [reflexivity|].
  f_equal. apply IH. lia.
Qed.

(** X5. [classify_batch] treats the rows independently: on two batches put
    end to end, the first with as many descriptions as amounts, it returns
    the results of the first batch followed by those of the second. *)
Theorem classify_batch_app (ds1 ds2 : list string) (as1 as2 : list Q) :
  length ds1 = length as1 ->
  classify_batch (ds1 ++ ds2) (as1 ++ as2)
  = classify_batch ds1 as1 ++ classify_batch ds2 as2.
Proof.
  intros Hlen. unfold classify_batch.
  now rewrite combine_append, map_app.
Qed.

Lemma classify_batch_app_witness :
  classify_batch (["STARBUCKS"] ++ ["PAYROLL"; "UBER"]) ([(-4) # 1] ++ [900 # 1])
  = classify_batch ["STARBUCKS"] [(-4) # 1] ++ classify_batch ["PAYROLL"; "UBER"] [900 # 1].
Proof. apply classify_batch_app. reflexivity. Defined.

End ClassifierRange.

(* ===================================================================== *)
(** ** Further properties of merchant names and header detection *)
(* ===================================================================== *)

Section MerchantShape.
Import PyStr Utils Spec.

Lemma lstrip_head (s : string) :
  lstrip s = EmptyString \/ exists c t, lstrip s = String c t /\ is_space c = false.
Proof.
  induction s as [|c s IH]; [now left|]. cbn [lstrip].
  destruct (is_space c) eqn:E; [exact IH|]. right. now exists c, s.
Qed.

Lemma rstrip_head (c : ascii) (t : string) :
  is_space c = false -> exists r, rstrip (String c t) = String c r.
Proof.
  intros Hc. cbn [rstrip]. rewrite Hc. destruct (rstrip t); eauto.
Qed.

Lemma rstrip_rstrip (s : string) : rstrip (rstrip s) = rstrip s.
Proof.
  induction s as [|c s IH]; [reflexivity|]. cbn [rstrip].
  destruct (rstrip s) as [|a r] eqn:E.
  - destruct (is_space c) eqn:Hc; [reflexivity|]. cbn [rstrip]. now rewrite Hc.
  - change (rstrip (String c (String a r))) with
      (match rstrip (String a r) with
       | EmptyString => if is_space c then EmptyString else String c EmptyString
       | String x y => String c (String x y)
       end).
    now rewrite IH.
Qed.

(** Trimming twice is trimming once. *)
Lemma strip_strip (s : string) : strip (strip s) = strip s.
Proof.
  unfold strip.
  assert (H : lstrip (rstrip (lstrip s)) = rstrip (lstrip s)).
  { destruct (lstrip_head s) as [->|(c & t & -> & Hc)]; [reflexivity|].
    destruct (rstrip_head c t Hc) as [r ->]. cbn [lstrip]. now rewrite Hc. }
  now rewrite H, rstrip_rstrip.
Qed.

Lemma not_lower_upper_char (c : ascii) : not_lower (upper_char c) = true.
Proof. destruct c as [[] [] [] [] [] [] [] []]; reflexivity. Qed.

Lemma all_chars_upper (s : string) : all_chars not_lower (upper s) = true.
Proof.
  unfold upper. induction s as [|c s IH]; [reflexivity|].
  simpl. now rewrite not_lower_upper_char, IH.
Qed.

Lemma all_chars_drop (p : ascii -> bool) (n : nat) (s : string) :
  all_chars p s = true -> all_chars p (drop n s) = true.
Proof.
  revert s. induction n as [|n IH]; intros [|c s] H; simpl; auto.
  apply IH. simpl in H. now apply andb_prop in H as [_ H].
Qed.

Lemma all_chars_take (p : ascii -> bool) (n : nat) (s : string) :
  all_chars p s = true -> all_chars p (take n s) = true.
Proof.
  revert s. induction n as [|n IH]; intros [|c s] H; simpl; auto.
  simpl in H. apply andb_prop in H as [Hc H]. now rewrite Hc, IH.
Qed.

Lemma all_chars_remove_prefixes (p : ascii -> bool) (prefixes : list string) (s : string) :
  all_chars p s = true -> all_chars p (remove_prefixes prefixes s) = true.
Proof.
  unfold remove_prefixes. revert s.
  induction prefixes as [|q qs IH]; intros s H; [exact H|].
  cbn [fold_left]. apply IH. destruct (startswith s q); [|exact H].
  now apply all_chars_drop.
Qed.

(** X6. On an ASCII description, the merchant name
    [extract_merchant_name] returns is ASCII, has no whitespace at either
    end, and is either the placeholder "Unknown" or a text without
    lower-case letters; it is the placeholder exactly when nothing is left
    of the description after the prefixes are removed and the text is cut
    and trimmed.  So "Unknown" is never the name of a merchant read from a
    description. *)
Theorem extract_merchant_name_shape (description : string) :
  is_ascii description = true ->
  is_ascii (extract_merchant_name description) = true
  /\ strip (extract_merchant_name description) = extract_merchant_name description
  /\ (extract_merchant_name description = "Unknown"
      \/ all_chars not_lower (extract_merchant_name description) = true)
  /\ (extract_merchant_name description = "Unknown"
      <-> strip (take 50 (remove_prefixes prefixes_to_remove
                                          (strip (upper description)))) = "").
Proof.
  intros Hascii. unfold extract_merchant_name. cbv zeta.
  set (text := strip (take 50 (remove_prefixes prefixes_to_remove
                                               (strip (upper description))))).
  assert (Hupper : all_chars not_lower text = true).
  { unfold text, strip.
    apply all_chars_rstrip, all_chars_lstrip, all_chars_take,
          all_chars_remove_prefixes, all_chars_rstrip, all_chars_lstrip,
          all_chars_upper. }
  assert (Htext : is_ascii text = true).
  { unfold text, strip, is_ascii.
    apply all_chars_rstrip, all_chars_lstrip, all_chars_take,
          all_chars_remove_prefixes, all_chars_rstrip, all_chars_lstrip.
    now apply is_ascii_upper. }
  assert (Htrim : strip text = text) by apply strip_strip.
  destruct text as [|c t] eqn:E; cbn [is_empty].
  - split; [reflexivity|]. split; [reflexivity|]. split; [now left|].
    split; reflexivity.
  - split; [exact Htext|]. split; [exact Htrim|]. split; [now right|]. split.
    + intros Heq. rewrite Heq in Hupper. discriminate.
    + discriminate.
Qed.

Lemma extract_merchant_name_shape_witness :
  all_chars not_lower (extract_merchant_name "Payment to Corner Cafe ") = true.
Proof.
  destruct (extract_merchant_name_shape "Payment to Corner Cafe ")
    as (_ & _ & [Hunknown|Hupper] & _).
  - reflexivity.
  - vm_compute in Hunknown. discriminate.
  - exact Hupper.
Defined.

(** X7. On an ASCII description, [extract_merchant_name] does not depend
    on the letter case. *)
Theorem extract_merchant_name_case_insensitive (description : string) :
  is_ascii description = true ->
  is_ascii (upper description) = true
  /\ is_ascii (lower description) = true
  /\ extract_merchant_name (upper description) = extract_merchant_name description
  /\ extract_merchant_name (lower description) = extract_merchant_name description.
Proof.
  intros Hascii. split; [now apply is_ascii_upper|]. split; [now apply is_ascii_lower|].
  unfold extract_merchant_name. now rewrite upper_upper, upper_lower.
Qed.

Lemma extract_merchant_name_case_insensitive_witness :
  extract_merchant_name (lower "Payment to Corner Cafe")
  = extract_merchant_name "Payment to Corner Cafe".
Proof.
  destruct (extract_merchant_name_case_insensitive "Payment to Corner Cafe")
    as (_ & _ & _ & Hlower); [reflexivity|exact Hlower].
Defined.

(** X8. The index [detect_header_row] returns is below 20.  When it is not
    0 it is the index of a row that holds the three keywords, no earlier
    row holding them.  Rows after the first 20 never change it. *)
Theorem detect_header_row_sound (parsed : list (list string)) :
  (detect_header_row (Some parsed) < 20)%nat
  /\ ((0 < detect_header_row (Some parsed))%nat ->
      exists row,
        parsed !! detect_header_row (Some parsed) = Some row
        /\ is_header_row row = true
        /\ forall j r, (j < detect_header_row (Some parsed))%nat ->
                       parsed !! j = Some r -> is_header_row r = false)
  /\ (forall more, (20 <= length parsed)%nat ->
        detect_header_row (Some (parsed ++ more)) = detect_header_row (Some parsed)).
Proof.
  split; [|split].
  - unfold detect_header_row. rewrite scan_rows_find.
    destruct (list_find _ _) as [[i r]|] eqn:Hfind; [|lia].
    apply list_find_Some in Hfind as (Hlook & _).
    apply lookup_take_Some in Hlook as [_ Hi]. simpl. exact Hi.
  - unfold detect_header_row. rewrite scan_rows_find.
    destruct (list_find _ _) as [[i r]|] eqn:Hfind; [|lia].
    intros _. apply list_find_Some in Hfind as (Hlook & Hhead & Hbefore).
    apply lookup_take_Some in Hlook as [Hlook Hi]. simpl.
    exists r. split; [exact Hlook|]. split; [exact Hhead|].
    intros j r' Hj Hr'.
    destruct (is_header_row r') eqn:E; [|reflexivity].
    exfalso. apply (Hbefore j r'); [|exact Hj|exact E].
    apply lookup_take_Some. split; [exact Hr'|lia].
  - intros more Hlen. unfold detect_header_row.
    now rewrite take_app_le by exact Hlen.
Qed.

Lemma detect_header_row_sound_witness :
  exists row, Examples.bank_preamble !! 6%nat = Some row /\ is_header_row row = true.
Proof.
  destruct (detect_header_row_sound Examples.bank_preamble) as (_ & Hpos & _).
  destruct Hpos as (row & Hrow & Hhead & _).
  - vm_compute. lia.
  - exists row. split; [exact Hrow|exact Hhead].
Defined.

End MerchantShape.

(* ===================================================================== *)
(** ** Further properties of column normalisation *)
(* ===================================================================== *)

Section NormalizeFacts.
Import PyStr Utils.
#[local] Set Warnings "-clear-no-such-hyp".

Lemma mapping_step_target (m : gmap string string) (col : string) :
  mapping_step m col
  = match target col with
    | Some name => if negb (has_key m name) then <[col := name]> m else m
    | None => m
    end.
Proof.
  unfold mapping_step, target. cbv zeta.
  destruct (elem _ date_variations || contains "date" _); [reflexivity|].
  destruct (elem _ description_variations || contains "description" _
            || contains "merchant" _); [reflexivity|].
  destruct (elem _ amount_variations || contains "amount" _); reflexivity.
Qed.

Lemma target_canonical (col name : string) :
  target col = Some name -> In name Cleaning.required_cols.
Proof.
  unfold target. cbv zeta.
  destruct (elem _ date_variations || contains "date" _);
    [intros [= <-]; simpl; tauto|].
  destruct (elem _ description_variations || contains "description" _
            || contains "merchant" _); [intros [= <-]; simpl; tauto|].
  destruct (elem _ amount_variations || contains "amount" _);
    [intros [= <-]; simpl; tauto|discriminate].
Qed.

Lemma build_mapping_canonical_values (cols : list string) (m : gmap string string) :
  maps_to_canonical m -> maps_to_canonical (fold_left mapping_step cols m).
Proof.
  revert m. induction cols as [|col cols IH]; intros m Hm; [exact Hm|].
  cbn [fold_left]. apply IH. rewrite mapping_step_target.
  destruct (target col) as [name|] eqn:Ht; [|exact Hm].
  destruct (negb (has_key m name)); [|exact Hm].
  intros k v Hlook. apply lookup_insert_Some in Hlook as [[_ <-]|[_ Hlook]].
  - now apply (target_canonical col).
  - now apply (Hm k).
Qed.

Lemma normalize_column_names_empty {V} (df : DataFrame V) :
  df_empty (normalize_column_names df) = df_empty df.
Proof.
  unfold normalize_column_names. cbv zeta.
  destruct (bool_decide (build_mapping (column_names df) = ∅)); [reflexivity|].
  unfold df_empty, rename. cbn [index columns]. now rewrite length_map.
Qed.

Lemma normalize_column_names_rectangular {V} (df : DataFrame V) :
  index (normalize_column_names df) = index df
  /\ (rectangular df -> rectangular (normalize_column_names df)).
Proof.
  unfold normalize_column_names. cbv zeta.
  destruct (bool_decide (build_mapping (column_names df) = ∅)); [auto|].
  unfold rename, rectangular. cbn [index columns]. split; [reflexivity|].
  rewrite !List.Forall_forall. intros H c Hc.
  apply in_map_iff in Hc as (c0 & <- & Hc0). cbn [snd]. now apply H.
Qed.

(** X9. [normalize_column_names] never touches the index or the values of
    a table and keeps every column in its place; the name of a column is
    either left as it is or replaced by one of [date], [description],
    [amount]. *)
Theorem normalize_column_names_frame {V} (df : DataFrame V) :
  index (normalize_column_names df) = index df
  /\ map snd (columns (normalize_column_names df)) = map snd (columns df)
  /\ Forall2 (fun old new => new = old \/ In new ["date"; "description"; "amount"])
             (column_names df) (column_names (normalize_column_names df)).
Proof.
  unfold normalize_column_names. cbv zeta.
  destruct (bool_decide (build_mapping (column_names df) = ∅)).
  - split; [reflexivity|]. split; [reflexivity|].
    induction (column_names df); constructor; auto.
  - assert (Hm : maps_to_canonical (build_mapping (column_names df))).
    { apply build_mapping_canonical_values. intros k v Hlook.
      now rewrite lookup_empty in Hlook. }
    set (m := build_mapping (column_names df)) in *.
    unfold rename, column_names. cbn [index columns].
    split; [reflexivity|]. split.
    + rewrite map_map. reflexivity.
    + rewrite map_map. cbn [fst].
      induction (columns df) as [|c cols IH]; cbn [map]; constructor; [|exact IH].
      destruct (m !! fst c) as [v|] eqn:E; cbn [default]; [|now left].
      right. now apply (Hm (fst c)).
Qed.

Lemma mapping_step_fresh (done : gset string) (m : gmap string string) (col : string) :
  (forall name, In name Cleaning.required_cols -> name ∉ done) ->
  mapping_of done m -> mapping_of (done ∪ {[col]}) (mapping_step m col).
Proof.
  intros Hlit Hm k. rewrite mapping_step_target.
  destruct (target col) as [name|] eqn:Ht.
  - assert (Hkey : has_key m name = false).
    { unfold has_key. apply bool_decide_eq_false. rewrite Hm.
      rewrite decide_False; [intros [? ?]; discriminate|].
      apply Hlit. now apply (target_canonical col). }
    rewrite Hkey. cbn [negb]. destruct (decide (k = col)) as [->|Hne].
    + rewrite lookup_insert_eq. rewrite decide_True by set_solver. now rewrite Ht.
    + rewrite lookup_insert_ne by congruence. rewrite Hm.
      destruct (decide (k ∈ done)).
      * now rewrite decide_True by set_solver.
      * now rewrite decide_False by set_solver.
  - rewrite Hm. destruct (decide (k = col)) as [->|Hne].
    + rewrite (decide_True (P := col ∈ done ∪ {[col]})) by set_solver.
      rewrite Ht. now destruct (decide (col ∈ done)).
    + destruct (decide (k ∈ done)).
      * now rewrite decide_True by set_solver.
      * now rewrite decide_False by set_solver.
Qed.

Lemma build_mapping_fresh (cols : list string) (done : gset string)
      (m : gmap string string) :
  (forall name, In name Cleaning.required_cols -> name ∉ done) ->
  (forall name, In name Cleaning.required_cols -> ~ In name cols) ->
  mapping_of done m ->
  mapping_of (done ∪ list_to_set cols) (fold_left mapping_step cols m).
Proof.
  revert done m. induction cols as [|col cols IH]; intros done m Hdone Hcols Hm.
  - cbn [fold_left list_to_set]. intros k. rewrite Hm.
    destruct (decide (k ∈ done)).
    + now rewrite decide_True by set_solver.
    + now rewrite decide_False by set_solver.
  - cbn [fold_left list_to_set].
    replace (done ∪ ({[col]} ∪ list_to_set cols))
      with ((done ∪ {[col]}) ∪ list_to_set cols) by set_solver.
    apply IH.
    + intros name Hname [Hin|Hin]%elem_of_union.
      * now apply (Hdone name Hname).
      * apply elem_of_singleton in Hin. apply (Hcols name Hname). left. congruence.
    + intros name Hname Hin. apply (Hcols name Hname). now right.
    + now apply mapping_step_fresh.
Qed.

Lemma normalized_names {V} (df : DataFrame V) :
  (forall name, In name ["date"; "description"; "amount"] ->
                ~ In name (column_names df)) ->
  column_names (normalize_column_names df)
  = map (fun col => default col (target col)) (column_names df).
Proof.
  intros Hlit.
  assert (Hm : mapping_of (∅ ∪ list_to_set (column_names df))
                          (build_mapping (column_names df))).
  { unfold build_mapping. apply build_mapping_fresh.
    - intros name _. set_solver.
    - exact Hlit.
    - intros k. rewrite lookup_empty. now rewrite decide_False by set_solver. }
  assert (Hlook : forall col, In col (column_names df) ->
             build_mapping (column_names df) !! col = target col).
  { intros col Hcol. rewrite Hm. rewrite decide_True; [reflexivity|].
    apply elem_of_union_r, elem_of_list_to_set, list_elem_of_In, Hcol. }
  unfold normalize_column_names. cbv zeta.
  destruct (bool_decide (build_mapping (column_names df) = ∅)) eqn:E.
  - apply bool_decide_eq_true in E. symmetry.
    rewrite <- (map_id (column_names df)) at 2. apply map_ext_in.
    intros col Hcol. rewrite <- (Hlook col Hcol), E, lookup_empty. reflexivity.
  - unfold rename, column_names in *. cbn [columns]. rewrite !map_map. cbn [fst].
    apply map_ext_in. intros c Hc. rewrite Hlook; [reflexivity|].
    now apply in_map.
Qed.

(** X10. On a table none of whose columns is named exactly [date],
    [description] or [amount], the guard that should keep only the first
    match never fires: every column that resolves to a canonical name is
    renamed to it, so two date-like columns both come out named [date]. *)
Theorem normalize_column_names_renames_all {V} (df : DataFrame V) :
  (forall name, In name ["date"; "description"; "amount"] ->
                ~ In name (column_names df)) ->
  column_names (normalize_column_names df)
  = map (fun col => default col (target col)) (column_names df).
Proof. apply normalized_names. Qed.

Lemma normalize_column_names_renames_all_witness :
  column_names (normalize_column_names Examples.export_table)
  = ["date"; "date"; "description"; "amount"; "Balance"].
Proof.
  rewrite (normalize_column_names_renames_all Examples.export_table).
  - reflexivity.
  - intros name Hname Hin. simpl in Hname, Hin.
    intuition (subst; discriminate).
Defined.

End NormalizeFacts.

(* ===================================================================== *)
(** ** Validation and the columns cleaning reads *)
(* ===================================================================== *)

Section ValidationFacts.
Import PyStr Utils Cleaning.

Context {Cell : Type}.
Variable astype_str : Cell -> string.
Variable to_numeric : string -> option Q.
Variable to_datetime : list Cell -> Cell -> option Timestamp.

Local Abbreviation clean_csv_data := (clean_csv_data astype_str to_numeric to_datetime).
Local Abbreviation clean_rows := (clean_rows astype_str to_numeric to_datetime).

Lemma first_col_elem {V} (df : DataFrame V) (name : string) :
  elem name (column_names df) = negb (isna (first_col df name)).
Proof.
  unfold elem, first_col, column_names.
  induction (columns df) as [|c cols IH]; [reflexivity|].
  cbn [map existsb find]. rewrite (String.eqb_sym name (fst c)).
  destruct (String.eqb (fst c) name); [reflexivity|exact IH].
Qed.

Lemma lower_strip_names (df : DataFrame Cell) :
  column_names (lower_strip_columns df)
  = map (fun col => strip (lower col)) (column_names df).
Proof. unfold column_names, lower_strip_columns. cbn [columns]. now rewrite !map_map. Qed.

(** [column_reduce] read off the three columns it selects. *)
Lemma column_reduce_selects (df : DataFrame Cell) :
  column_reduce df
  = match first_col (lower_strip_columns df) "date",
          first_col (lower_strip_columns df) "description",
          first_col (lower_strip_columns df) "amount" with
    | Some dates, Some descriptions, Some amounts =>
        inr (mkFrame (index df)
                     [("date", dates); ("description", descriptions);
                      ("amount", amounts)])
    | _, _, _ =>
        inl (List.filter (fun name => isna (first_col (lower_strip_columns df) name))
                         required_cols)
    end.
Proof.
  unfold column_reduce, missing_cols. cbv zeta.
  set (l := lower_strip_columns df).
  assert (Hmiss : List.filter (fun col => negb (elem col (column_names l))) required_cols
                  = List.filter (fun name => isna (first_col l name)) required_cols).
  { apply filter_ext. intros name. rewrite first_col_elem. apply negb_involutive. }
  rewrite Hmiss.
  pose proof (get_col_deduplicated l) as Hcol.
  set (df' := if existsb id (duplicated [] (column_names l))
              then loc_not (duplicated [] (column_names l)) l else l) in *.
  assert (Hidx : index df' = index df).
  { unfold df'. destruct (existsb id _); reflexivity. }
  unfold select_required, required_cols. cbn [mapM List.filter].
  rewrite !Hcol, Hidx.
  destruct (first_col l "date"), (first_col l "description"), (first_col l "amount");
    reflexivity.
Qed.

Lemma validate_accepts_iff {V} (df : DataFrame V) :
  (validate_csv_structure (Some df) = (true, None)
   <-> df_empty df = false
       /\ forall name, In name ["date"; "description"; "amount"] ->
            exists col, In col (column_names df) /\ strip (lower col) = name)
  /\ (fst (validate_csv_structure (Some df)) = true
      -> snd (validate_csv_structure (Some df)) = None)
  /\ (df_empty df = true -> fst (validate_csv_structure (Some df)) = false)
  /\ fst (@validate_csv_structure V None) = false.
Proof.
  assert (Hpresent : forall name,
            elem name (map (fun col => strip (lower col)) (column_names df)) = true
            <-> exists col, In col (column_names df) /\ strip (lower col) = name).
  { intros name. rewrite elem_In, in_map_iff.
    split; intros (col & H1 & H2); exists col; auto. }
  unfold validate_csv_structure. cbv zeta.
  destruct (df_empty df).
  { split; [split; [discriminate|intros [? _]; discriminate]|].
    split; [discriminate|]. split; reflexivity. }
  set (names := map (fun col => strip (lower col)) (column_names df)) in *.
  set (missing := List.filter (fun col => negb (elem col names))
                              ["date"; "description"; "amount"]).
  assert (Hmissing : missing = []
                     <-> forall name, In name ["date"; "description"; "amount"] ->
                                      elem name names = true).
  { unfold missing. split.
    - intros Hnil name Hname.
      destruct (elem name names) eqn:E; [reflexivity|].
      assert (Hin : In name (List.filter (fun col => negb (elem col names))
                                         ["date"; "description"; "amount"])).
      { apply filter_In. split; [exact Hname|]. now rewrite E. }
      rewrite Hnil in Hin. destruct Hin.
    - intros Hall. cbn [List.filter].
      rewrite (Hall "date"), (Hall "description"), (Hall "amount") by (simpl; tauto).
      reflexivity. }
  destruct missing as [|m ms].
  - split; [|split; [reflexivity|split; [discriminate|reflexivity]]].
    split; [|reflexivity]. intros _. split; [reflexivity|].
    intros name Hname. apply Hpresent. now apply Hmissing.
  - split; [|split; [discriminate|split; [discriminate|reflexivity]]].
    split; [discriminate|]. intros [_ Hall].
    assert (Hnil : m :: ms = []).
    { apply Hmissing. intros name Hname. apply Hpresent. now apply Hall. }
    discriminate.
Qed.

(** X11. [validate_csv_structure] accepts a table exactly when it has at
    least one row and one column and each of [date], [description],
    [amount] is the name of some column once names are lower-cased and
    trimmed; no table ([None]) and an empty table are refused. *)
Theorem validate_csv_structure_accepts {V} (df : DataFrame V) :
  (validate_csv_structure (Some df) = (true, None)
   <-> df_empty df = false
       /\ forall name, In name ["date"; "description"; "amount"] ->
            exists col, In col (column_names df) /\ strip (lower col) = name)
  /\ (fst (validate_csv_structure (Some df)) = true
      -> snd (validate_csv_structure (Some df)) = None)
  /\ (df_empty df = true -> fst (validate_csv_structure (Some df)) = false)
  /\ fst (@validate_csv_structure V None) = false.
Proof. apply validate_accepts_iff. Qed.

Lemma validate_csv_structure_accepts_witness :
  validate_csv_structure (Some Examples.statement_table) = (true, None).
Proof.
  apply (proj1 (validate_csv_structure_accepts Examples.statement_table)).
  split; [reflexivity|].
  intros name Hname. simpl in Hname.
  destruct Hname as [<-|[<-|[<-|[]]]].
  - exists " Date ". split; [simpl; tauto|reflexivity].
  - exists "Description". split; [simpl; tauto|reflexivity].
  - exists "Amount". split; [simpl; tauto|reflexivity].
Defined.

(** The outcome of [clean_csv_data] on a table reduced to [reduced]. *)
Lemma clean_rows_outcome (rows : list (RawRow Cell)) :
  (length rows = 1%nat -> clean_rows rows = inl AttributeError)
  /\ (length rows <> 1%nat -> exists cleaned removed, clean_rows rows = inr (cleaned, removed)).
Proof.
  unfold Cleaning.clean_rows. rewrite clean_unsorted_rows.
  destruct (Nat.eqb_spec (length rows) 1); split; intros H; try contradiction; eauto.
Qed.

Lemma clean_csv_data_raises_aux (df : DataFrame Cell) :
  let missing :=
    List.filter (fun name => negb (elem name (map (fun col => strip (lower col))
                                                  (column_names df))))
                ["date"; "description"; "amount"] in
  (missing <> [] -> clean_csv_data df = inl (ValueError missing))
  /\ (missing = [] ->
      exists reduced,
        column_reduce df = inr reduced
        /\ (length (rows_of reduced) = 1%nat -> clean_csv_data df = inl AttributeError)
        /\ (length (rows_of reduced) <> 1%nat ->
            exists cleaned removed, clean_csv_data df = inr (cleaned, removed)))
  /\ (rectangular df -> validate_csv_structure (Some df) = (true, None) ->
      (length (index df) = 1%nat -> clean_csv_data df = inl AttributeError)
      /\ (length (index df) <> 1%nat ->
          exists cleaned removed, clean_csv_data df = inr (cleaned, removed))).
Proof.
  intros missing.
  assert (Hmiss : missing
                  = List.filter (fun name => isna (first_col (lower_strip_columns df) name))
                                required_cols).
  { unfold missing, required_cols. apply filter_ext. intros name.
    rewrite <- lower_strip_names, first_col_elem. apply negb_involutive. }
  assert (Hraise : missing <> [] -> clean_csv_data df = inl (ValueError missing)).
  { rewrite Hmiss. unfold Cleaning.clean_csv_data. rewrite column_reduce_selects.
    unfold required_cols. cbn [List.filter].
    destruct (first_col (lower_strip_columns df) "date"),
             (first_col (lower_strip_columns df) "description"),
             (first_col (lower_strip_columns df) "amount"); cbn [isna];
      intros Hne; congruence. }
  assert (Hok : missing = [] ->
                exists reduced,
                  column_reduce df = inr reduced
                  /\ clean_csv_data df = clean_rows (rows_of reduced)).
  { rewrite Hmiss. unfold Cleaning.clean_csv_data. rewrite column_reduce_selects.
    unfold required_cols. cbn [List.filter].
    destruct (first_col (lower_strip_columns df) "date"),
             (first_col (lower_strip_columns df) "description"),
             (first_col (lower_strip_columns df) "amount"); cbn [isna];
      intros Hnil; try discriminate.
    eexists. split; reflexivity. }
  split; [exact Hraise|]. split.
  - intros Hnil. destruct (Hok Hnil) as (reduced & Hred & ->).
    exists reduced. split; [exact Hred|]. apply clean_rows_outcome.
  - intros Hrect Hvalid.
    assert (Hnil : missing = []).
    { unfold validate_csv_structure in Hvalid. cbv zeta in Hvalid.
      destruct (df_empty df); [discriminate|].
      fold missing in Hvalid. destruct missing; [reflexivity|discriminate]. }
    destruct (Hok Hnil) as (reduced & Hred & ->).
    rewrite <- (rows_of_rectangular df reduced Hrect Hred).
    apply clean_rows_outcome.
Qed.

Lemma validated_is_cleaned (df : DataFrame Cell) :
  rectangular df -> validate_csv_structure (Some df) = (true, None) ->
  (length (index df) = 1%nat -> clean_csv_data df = inl AttributeError)
  /\ (length (index df) <> 1%nat ->
      exists cleaned removed, clean_csv_data df = inr (cleaned, removed)).
Proof. apply clean_csv_data_raises_aux. Qed.

(** X12. [clean_csv_data] raises its [ValueError] exactly when a required
    column is missing, and the error then lists the missing names, in the
    order [date], [description], [amount].  When none is missing, it raises
    an [AttributeError] if the reduced table has exactly one row, and
    returns otherwise.  So a table [validate_csv_structure] accepts is
    cleaned unless it has a single row, on which [clean_csv_data] raises. *)
Theorem clean_csv_data_raises (df : DataFrame Cell) :
  let missing :=
    List.filter (fun name => negb (elem name (map (fun col => strip (lower col))
                                                  (column_names df))))
                ["date"; "description"; "amount"] in
  (missing <> [] -> clean_csv_data df = inl (ValueError missing))
  /\ (missing = [] ->
      exists reduced,
        column_reduce df = inr reduced
        /\ (length (rows_of reduced) = 1%nat -> clean_csv_data df = inl AttributeError)
        /\ (length (rows_of reduced) <> 1%nat ->
            exists cleaned removed, clean_csv_data df = inr (cleaned, removed)))
  /\ (rectangular df -> validate_csv_structure (Some df) = (true, None) ->
      (length (index df) = 1%nat -> clean_csv_data df = inl AttributeError)
      /\ (length (index df) <> 1%nat ->
          exists cleaned removed, clean_csv_data df = inr (cleaned, removed))).
Proof. apply clean_csv_data_raises_aux. Qed.

(** X13. [clean_csv_data] reads only the index and, for each required
    name, the first column bearing it once names are lower-cased and
    trimmed: two tables that agree on these give the same result, whatever
    their other columns. *)
Theorem clean_csv_data_first_columns (df1 df2 : DataFrame Cell) :
  index df1 = index df2 ->
  (forall name, In name ["date"; "description"; "amount"] ->
     first_col (lower_strip_columns df1) name
     = first_col (lower_strip_columns df2) name) ->
  clean_csv_data df1 = clean_csv_data df2.
Proof.
  intros Hidx Hcols. unfold Cleaning.clean_csv_data.
  rewrite !column_reduce_selects, Hidx.
  unfold required_cols. cbn [List.filter].
  rewrite !(Hcols "date"), !(Hcols "description"), !(Hcols "amount")
    by (simpl; tauto).
  reflexivity.
Qed.

End ValidationFacts.

Lemma clean_csv_data_raises_witness :
  Cleaning.clean_csv_data id Parsers.decimal_to_numeric Parsers.iso_to_datetime
                          Examples.export_table
  = inl (Cleaning.ValueError ["date"; "description"; "amount"])
  /\ Utils.validate_csv_structure (Some Examples.single_row_table) = (true, None)
  /\ Cleaning.clean_csv_data id Parsers.decimal_to_numeric Parsers.iso_to_datetime
                             Examples.single_row_table
     = inl Cleaning.AttributeError.
Proof.
  split; [|split; [reflexivity|]].
  - destruct (clean_csv_data_raises id Parsers.decimal_to_numeric Parsers.iso_to_datetime
                Examples.export_table) as (Hraise & _).
    apply Hraise. vm_compute. discriminate.
  - destruct (clean_csv_data_raises id Parsers.decimal_to_numeric Parsers.iso_to_datetime
                Examples.single_row_table) as (_ & _ & Hvalid).
    destruct Hvalid as [Hone _]; [repeat constructor|reflexivity|].
    apply Hone. reflexivity.
Defined.

Lemma clean_csv_data_first_columns_witness :
  Cleaning.clean_csv_data id Parsers.decimal_to_numeric Parsers.iso_to_datetime
                          Examples.statement_table_variant
  = inr (Examples.statement_cleaned, Examples.statement_removed).
Proof.
  rewrite (clean_csv_data_first_columns id Parsers.decimal_to_numeric
             Parsers.iso_to_datetime
             Examples.statement_table_variant Examples.statement_table).
  - exact statement_table_cleans.
  - reflexivity.
  - intros name Hname. simpl in Hname.
    destruct Hname as [<-|[<-|[<-|[]]]]; reflexivity.
Defined.

(* ===================================================================== *)
(** ** Further properties of cleaning *)
(* ===================================================================== *)

Section CleaningMore.
Import PyStr Cleaning.

Context {Cell : Type}.
Variable astype_str : Cell -> string.
Variable to_numeric : string -> option Q.
Variable to_datetime : list Cell -> Cell -> option Timestamp.

Local Abbreviation clean_description := (clean_description astype_str).
Local Abbreviation clean_csv_data := (clean_csv_data astype_str to_numeric to_datetime).
Local Abbreviation amount_of := (amount_of astype_str to_numeric).
Local Abbreviation amount_removed := (amount_removed astype_str to_numeric).
Local Abbreviation amount_record := (amount_record astype_str).
Local Abbreviation date_column := (date_column astype_str to_numeric).
Local Abbreviation date_record := (date_record astype_str to_numeric to_datetime).
Local Abbreviation fate := (fate astype_str to_numeric to_datetime).

(** X14. A cleaned description is never empty, never the text [nan] or
    [None], and has no whitespace at either end; it is either the trimmed
    text of the cell or the placeholder "Unknown". *)
Theorem clean_description_shape (cell : Cell) :
  ~ In (clean_description cell) ["nan"; "None"; ""]
  /\ strip (clean_description cell) = clean_description cell
  /\ (clean_description cell = "Unknown"
      \/ clean_description cell = strip (astype_str cell)).
Proof.
  unfold Cleaning.clean_description. cbv zeta.
  destruct (elem (strip (astype_str cell)) ["nan"; "None"; ""]) eqn:E.
  - split; [simpl; intuition discriminate|]. split; [reflexivity|now left].
  - split; [|split; [apply strip_strip|now right]].
    intros Hin. apply elem_In in Hin. congruence.
Qed.

Lemma omap_none {A B} (f : A -> option B) (l : list A) :
  (forall x, In x l -> f x = None) -> omap f l = [].
Proof.
  induction l as [|x l IH]; intros H; [reflexivity|].
  rewrite omap_cons, (H x) by now left. apply IH. intros y Hy. apply H. now right.
Qed.

(** X15. [clean_csv_data] removes no row exactly when the amount and the
    date of every row of the reduced table parse, and the cleaned table
    then has as many rows as the reduced one.  A table without rows gives
    two empty outputs. *)
Theorem clean_csv_data_nothing_removed (df : DataFrame Cell)
        (cleaned : list CleanRow) (removed : list (RemovedRow Cell)) :
  clean_csv_data df = inr (cleaned, removed) ->
  exists reduced,
    column_reduce df = inr reduced
    /\ (removed = []
        <-> forall r, In r (rows_of reduced) ->
              amount_of r <> None
              /\ to_datetime (date_column (rows_of reduced)) (raw_date r) <> None)
    /\ (removed = [] -> length cleaned = length (rows_of reduced))
    /\ (rows_of reduced = [] -> cleaned = [] /\ removed = []).
Proof.
  intros Hclean.
  destruct (clean_csv_data_accepted astype_str to_numeric to_datetime
              df cleaned removed Hclean) as (reduced & Hred & Hcleaned & Hremoved & _).
  set (rows := rows_of reduced) in *.
  exists reduced. split; [exact Hred|].
  assert (Hiff : removed = []
                 <-> forall r, In r rows ->
                       amount_of r <> None
                       /\ to_datetime (date_column rows) (raw_date r) <> None).
  { split.
    - intros Hnil r Hr.
      pose proof (fate_recorded astype_str to_numeric to_datetime rows r Hr) as Hfate.
      rewrite <- Hremoved, Hnil in Hfate. unfold Cleaning.fate in Hfate.
      fold (amount_of r) in Hfate. fold (date_column rows) in Hfate.
      destruct (amount_of r); [|destruct Hfate].
      destruct (to_datetime (date_column rows) (raw_date r)); [|destruct Hfate].
      split; discriminate.
    - intros Hall. rewrite Hremoved.
      rewrite filter_none, omap_none; [reflexivity| |].
      + intros r Hr. destruct (Hall r Hr) as [Ha Hd].
        unfold Cleaning.date_record. fold (amount_of r). fold (date_column rows).
        destruct (amount_of r); [|reflexivity].
        destruct (to_datetime (date_column rows) (raw_date r)); [reflexivity|congruence].
      + intros r Hr. destruct (Hall r Hr) as [Ha _].
        unfold Cleaning.amount_removed. fold (amount_of r).
        destruct (amount_of r); [reflexivity|congruence]. }
  split; [exact Hiff|]. split.
  - intros Hnil.
    pose proof (fate_partition astype_str to_numeric to_datetime rows rows) as Hperm.
    rewrite <- Hremoved, Hnil in Hperm. apply Permutation_length in Hperm.
    rewrite length_app, !length_map in Hperm. cbn [length] in Hperm.
    rewrite Hcleaned, sorted_length. fold rows. lia.
  - intros Hrows. unfold rows in *. rewrite Hcleaned, Hremoved, Hrows.
    split; reflexivity.
Qed.

End CleaningMore.

Lemma clean_csv_data_nothing_removed_witness :
  exists cleaned,
    Cleaning.clean_csv_data id Parsers.decimal_to_numeric Parsers.iso_to_datetime
                            Examples.refund_table = inr (cleaned, [])
    /\ length cleaned = 2%nat.
Proof.
  exists [ mkCleanRow 0 (mkTimestamp 2024 1 15 0) "REFUND" (-5.00)%Q;
           mkCleanRow 1 (mkTimestamp 2024 1 16 0) "COFFEE" (-4.50)%Q ].
  assert (Hclean : Cleaning.clean_csv_data id Parsers.decimal_to_numeric
                     Parsers.iso_to_datetime Examples.refund_table
                   = inr ([ mkCleanRow 0 (mkTimestamp 2024 1 15 0) "REFUND" (-5.00)%Q;
                            mkCleanRow 1 (mkTimestamp 2024 1 16 0) "COFFEE" (-4.50)%Q ],
                          []))
    by (vm_compute; reflexivity).
  split; [exact Hclean|].
  destruct (clean_csv_data_nothing_removed id Parsers.decimal_to_numeric
              Parsers.iso_to_datetime Examples.refund_table _ _ Hclean)
    as (reduced & Hred & _ & Hlen & _).
  vm_compute in Hred. injection Hred as <-. exact (Hlen eq_refl).
Defined.

(* ===================================================================== *)
(** ** Further properties of the derived columns *)
(* ===================================================================== *)

Section DerivedMore.
Import PyStr Derived.

Lemma get_col_set_col_ne (df : DataFrame Value) (n m : string) (v : list Value) :
  m <> n -> get_col (set_col df n v) m = get_col df m.
Proof.
  intros Hne. unfold set_col, get_col.
  destruct (elem n (column_names df)); cbn [columns].
  - replace (List.filter (fun c => String.eqb (fst c) m)
               (map (fun c => if String.eqb (fst c) n then (n, v) else c) (columns df)))
      with (List.filter (fun c => String.eqb (fst c) m) (columns df)); [reflexivity|].
    induction (columns df) as [|c cols IH]; [reflexivity|].
    cbn [map List.filter]. destruct (String.eqb_spec (fst c) n) as [Hc|Hc]; cbn [fst].
    + replace (String.eqb n m) with false by (symmetry; apply String.eqb_neq; congruence).
      replace (String.eqb (fst c) m) with false
        by (symmetry; apply String.eqb_neq; congruence).
      exact IH.
    + destruct (String.eqb (fst c) m); [now rewrite IH|exact IH].
  - rewrite List.filter_app. cbn [List.filter fst].
    replace (String.eqb n m) with false by (symmetry; apply String.eqb_neq; congruence).
    now rewrite app_nil_r.
Qed.







(** [add_derived_columns] with its reads moved in front of its writes. *)
Lemma add_derived_columns_reads (df : DataFrame Value) :
  add_derived_columns df
  = amounts ← get_col df "amount";
    types ← apply categorize_transaction_type amounts;
    absolutes ← apply get_absolute_amount amounts;
    dates ← get_col df "date";
    months ← dt to_period_M dates;
    years ← dt year_of dates;
    month_years ← dt strftime_Y_m dates;
    Some (set_col (set_col (set_col (set_col (set_col df
            "transaction_type" types) "abs_amount" absolutes)
            "month" months) "year" years) "month_year" month_years).
Proof.
  unfold add_derived_columns. cbv zeta.
  destruct (get_col df "amount") as [amounts|] eqn:Ha; [|reflexivity].
  cbn [mbind option_bind].
  destruct (apply categorize_transaction_type amounts) as [types|]; [|reflexivity].
  cbn [mbind option_bind].
  rewrite get_col_set_col_ne, Ha by discriminate. cbn [mbind option_bind].
  destruct (apply get_absolute_amount amounts) as [absolutes|]; [|reflexivity].
  cbn [mbind option_bind].
  rewrite !get_col_set_col_ne by discriminate.
  destruct (get_col df "date") as [dates|] eqn:Hd; [|reflexivity].
  cbn [mbind option_bind].
  destruct (dt to_period_M dates) as [months|]; [|reflexivity].
  cbn [mbind option_bind].
  rewrite !get_col_set_col_ne, Hd by discriminate. cbn [mbind option_bind].
  destruct (dt year_of dates) as [years|]; [|reflexivity].
  cbn [mbind option_bind].
  rewrite !get_col_set_col_ne, Hd by discriminate. cbn [mbind option_bind].
  destruct (dt strftime_Y_m dates) as [month_years|]; reflexivity.
Qed.







Lemma set_col_same (df : DataFrame Value) (n : string) (v : list Value) :
  In n (column_names df) ->
  (forall c, In c (columns df) -> fst c = n -> snd c = v) ->
  set_col df n v = df.
Proof.
  intros Hin Hsame. unfold set_col. rewrite (proj2 (elem_In n (column_names df)) Hin).
  destruct df as [idx cols]. cbn [index columns] in *. f_equal.
  rewrite <- (map_id cols) at 2. apply map_ext_in. intros c Hc.
  destruct (String.eqb_spec (fst c) n) as [Heq|]; [|reflexivity].
  rewrite <- (Hsame c Hc Heq), <- Heq. now destruct c.
Qed.

(** X17. On a cleaned table, running [add_derived_columns] on its own
    result changes nothing: the derived columns are overwritten with the
    values they hold. *)
Theorem add_derived_columns_twice (df out : DataFrame Value)
        (dates : list Timestamp) (amounts : list Q) :
  get_col df "amount" = Some (map VNum amounts) ->
  get_col df "date" = Some (map VDate dates) ->
  (forall name, In name derived_names -> ~ In name (column_names df)) ->
  add_derived_columns df = Some out ->
  add_derived_columns out = Some out.
Proof.
  intros Hamt Hdate Hfresh Hout.
  rewrite (add_derived_columns_appends df dates amounts Hamt Hdate Hfresh) in Hout.
  injection Hout as <-. destruct df as [idx cols].
  unfold column_names in Hfresh. cbn [index columns] in *.
  rewrite add_derived_columns_reads.
  rewrite (fun H => get_col_app idx idx cols _ "amount" _ H Hamt)
    by (simpl; intuition discriminate).
  cbn [mbind option_bind].
  rewrite (apply_numeric categorize_transaction_type transaction_type_of) by reflexivity.
  cbn [mbind option_bind].
  rewrite (apply_numeric get_absolute_amount (fun q => VNum (Qabs q))) by reflexivity.
  cbn [mbind option_bind].
  rewrite (fun H => get_col_app idx idx cols _ "date" _ H Hdate)
    by (simpl; intuition discriminate).
  cbn [mbind option_bind].
  rewrite !dt_dates. cbn [mbind option_bind].
  assert (Hsame : forall n v,
            In (n, v) (derived_columns dates amounts) ->
            set_col (mkFrame idx (cols ++ derived_columns dates amounts)) n v
            = mkFrame idx (cols ++ derived_columns dates amounts)).
  { intros n v Hnv. apply set_col_same.
    - unfold column_names. cbn [columns]. rewrite map_app. apply in_or_app. right.
      apply in_map_iff. now exists (n, v).
    - intros c Hc Hname. cbn [columns] in Hc. apply in_app_or in Hc as [Hc|Hc].
      + exfalso. apply (Hfresh n).
        * unfold derived_columns in Hnv. simpl in Hnv. unfold derived_names. simpl.
          intuition congruence.
        * rewrite <- Hname. now apply in_map.
      + unfold derived_columns in Hc, Hnv. simpl in Hc, Hnv.
        destruct Hc as [<-|[<-|[<-|[<-|[<-|[]]]]]];
          destruct Hnv as [Hnv|[Hnv|[Hnv|[Hnv|[Hnv|[]]]]]];
          injection Hnv as <- <-; cbn [fst snd] in *; congruence. }
  rewrite !Hsame; [reflexivity| | | | |]; unfold derived_columns; simpl; tauto.
Qed.

Lemma add_derived_columns_twice_witness :
  exists out,
    add_derived_columns (to_frame Examples.two_cleaned_rows) = Some out
    /\ add_derived_columns out = Some out.
Proof.
  destruct (to_frame_cleaned Examples.two_cleaned_rows) as (Ha & Hd & Hf).
  destruct (add_derived_columns (to_frame Examples.two_cleaned_rows)) as [out|] eqn:E.
  - exists out. split; [reflexivity|].
    exact (add_derived_columns_twice _ out _ _ Ha Hd Hf E).
  - vm_compute in E. discriminate.
Defined.

(** X18. [categorize_transaction_type] and [get_absolute_amount] agree on a
    number: the type is "Income" exactly when the amount is above zero and
    "Expense" otherwise; the absolute amount is never negative, equals the
    amount on an "Income" row and its opposite on an "Expense" row. *)
Theorem transaction_type_and_absolute (q : Q) :
  (categorize_transaction_type (VNum q) = Some (VStr "Income") <-> (0 < q)%Q)
  /\ (categorize_transaction_type (VNum q) = Some (VStr "Expense") <-> (q <= 0)%Q)
  /\ (exists a, get_absolute_amount (VNum q) = Some (VNum a)
                /\ (0 <= a)%Q
                /\ ((0 < q)%Q -> (a == q)%Q)
                /\ ((q <= 0)%Q -> (a == - q)%Q)).
Proof.
  split; [|split].
  - simpl. rewrite <- Qltb_lt. fold (gt0 q).
    destruct (gt0 q); split; intros H; try reflexivity; discriminate.
  - simpl. rewrite <- gt0_false_iff.
    destruct (gt0 q); split; intros H; try reflexivity; discriminate.
  - exists (Qabs q). split; [reflexivity|]. split; [apply Qabs_nonneg|].
    split; intros H.
    + apply Qabs_pos. now apply Qlt_le_weak.
    + now apply Qabs_neg.
Qed.

(** X19. Classifying the descriptions and amounts of a cleaned table gives
    one category per row, each listed by [get_all_categories]; a row whose
    transaction type is "Income" is given the category "Income". *)
Theorem categories_fit_rows (rows : list CleanRow) :
  let categories :=
    Classifier.classify_batch (map c_description rows) (map c_amount rows) in
  length categories = length rows
  /\ Forall (fun c => In c Classifier.get_all_categories) categories
  /\ (forall i r, rows !! i = Some r ->
        categories !! i
          = Some (Classifier.classify (c_description r) (c_amount r))
        /\ (transaction_type_of (c_amount r) = VStr "Income" ->
            categories !! i = Some "Income")).
Proof.
  cbv zeta. unfold Classifier.classify_batch. split; [|split].
  - now rewrite length_map, length_combine, !length_map, Nat.min_id.
  - apply List.Forall_forall. intros c Hc.
    apply in_map_iff in Hc as ([d a] & <- & _).
    apply classify_listed.
  - induction rows as [|r0 rows IH]; intros i r Hr; [discriminate|].
    destruct i as [|i].
    + injection Hr as <-. cbn. split; [reflexivity|].
      unfold transaction_type_of, Classifier.classify, Classifier.classify_with.
      destruct (gt0 (c_amount r0)); [reflexivity|discriminate].
    + apply (IH i r Hr).
Qed.

(** *** Reading a padded decimal back *)

Lemma digits_value_uint (d : Decimal.uint) (acc : nat) :
  Parsers.digits_value (NilEmpty.string_of_uint d) acc = Some (Nat.of_uint_acc d acc).
Proof.
  revert acc. induction d as [|d IH|d IH|d IH|d IH|d IH|d IH|d IH|d IH|d IH|d IH];
    intros acc; [reflexivity| | | | | | | | | |];
    cbn [NilEmpty.string_of_uint Parsers.digits_value];
    change (Parsers.digit_value _) with (Some 0%nat)
    || change (Parsers.digit_value _) with (Some 1%nat)
    || change (Parsers.digit_value _) with (Some 2%nat)
    || change (Parsers.digit_value _) with (Some 3%nat)
    || change (Parsers.digit_value _) with (Some 4%nat)
    || change (Parsers.digit_value _) with (Some 5%nat)
    || change (Parsers.digit_value _) with (Some 6%nat)
    || change (Parsers.digit_value _) with (Some 7%nat)
    || change (Parsers.digit_value _) with (Some 8%nat)
    || change (Parsers.digit_value _) with (Some 9%nat);
    cbv iota; rewrite IH; cbn [Nat.of_uint_acc]; rewrite Nat.tail_mul_spec;
    do 2 f_equal; lia.
Qed.

Lemma digits_value_decimal (n : nat) : Parsers.digits_value (decimal n) 0 = Some n.
Proof.
  unfold decimal. rewrite digits_value_uint.
  change (Nat.of_uint_acc (Nat.to_uint n) 0) with (Nat.of_uint (Nat.to_uint n)).
  now rewrite DecimalNat.Unsigned.of_to.
Qed.

Lemma digits_value_zeros (k : nat) (s : string) :
  Parsers.digits_value (zeros k ++ s)%string 0 = Parsers.digits_value s 0.
Proof.
  induction k as [|k IH]; [reflexivity|].
  cbn [zeros]. rewrite append_cons. cbn [Parsers.digits_value].
  change (Parsers.digit_value "0") with (Some 0%nat). cbv iota. exact IH.
Qed.

(** A padded number reads back as the number. *)
Lemma digits_value_zero_pad (width n : nat) :
  Parsers.digits_value (zero_pad width n) 0 = Some n.
Proof. unfold zero_pad. cbv zeta. now rewrite digits_value_zeros, digits_value_decimal. Qed.

Lemma all_chars_app (p : ascii -> bool) (s t : string) :
  all_chars p (s ++ t)%string = all_chars p s && all_chars p t.
Proof.
  induction s as [|c s IH]; [reflexivity|].
  rewrite append_cons. cbn [all_chars]. now rewrite IH, andb_assoc.
Qed.

Lemma digits_uint (d : Decimal.uint) :
  all_chars is_digit (NilEmpty.string_of_uint d) = true.
Proof. induction d; cbn [NilEmpty.string_of_uint all_chars]; auto. Qed.

Lemma digits_zero_pad (width n : nat) : all_chars is_digit (zero_pad width n) = true.
Proof.
  unfold zero_pad, decimal. cbv zeta. rewrite all_chars_app, digits_uint, andb_true_r.
  induction (width - _)%nat; cbn [zeros all_chars]; auto.
Qed.

Lemma split_at_dash (a1 a2 b1 b2 : string) :
  all_chars is_digit a1 = true -> all_chars is_digit a2 = true ->
  (a1 ++ "-" ++ b1)%string = (a2 ++ "-" ++ b2)%string ->
  a1 = a2 /\ b1 = b2.
Proof.
  revert a2. induction a1 as [|c a1 IH]; intros [|c2 a2] H1 H2 Heq.
  - rewrite !append_nil_l, !append_cons, !append_nil_l in Heq.
    injection Heq as <-. auto.
  - rewrite append_nil_l, !append_cons, append_nil_l in Heq.
    injection Heq as <- _. cbn in H2. discriminate.
  - rewrite append_nil_l, !append_cons, append_nil_l in Heq.
    injection Heq as -> _. cbn in H1. discriminate.
  - rewrite !append_cons in Heq. injection Heq as <- Heq.
    cbn [all_chars] in H1, H2. apply andb_prop in H1 as [_ H1].
    apply andb_prop in H2 as [_ H2].
    destruct (IH a2 H1 H2 Heq) as [-> ->]. auto.
Qed.

(** X20. Two timestamps get the same [month_year] text exactly when they
    get the same [month] period: the year and the month can be read back
    from the text, so grouping by either column gives the same groups. *)
Theorem month_year_groups_like_month (t1 t2 : Timestamp) :
  strftime_Y_m t1 = strftime_Y_m t2 <-> to_period_M t1 = to_period_M t2.
Proof.
  unfold strftime_Y_m, to_period_M. split.
  - intros [= Heq].
    apply split_at_dash in Heq as [Hy Hm]; try apply digits_zero_pad.
    apply (f_equal (fun s => Parsers.digits_value s 0)) in Hy, Hm.
    rewrite !digits_value_zero_pad in Hy, Hm.
    injection Hy as ->. injection Hm as ->. reflexivity.
  - intros [= -> ->]. reflexivity.
Qed.

End DerivedMore.

(* ===================================================================== *)
(** ** From a bank export to a cleaned table *)
(* ===================================================================== *)

Section ExportFacts.
Import PyStr Utils Cleaning.

Context {Cell : Type}.
Variable astype_str : Cell -> string.
Variable to_numeric : string -> option Q.
Variable to_datetime : list Cell -> Cell -> option Timestamp.

Local Abbreviation clean_csv_data := (clean_csv_data astype_str to_numeric to_datetime).

Lemma canonical_fixed (name : string) :
  In name ["date"; "description"; "amount"] -> strip (lower name) = name.
Proof. intros [<-|[<-|[<-|[]]]]; reflexivity. Qed.

Lemma target_of_canonical_text (col name : string) :
  In name ["date"; "description"; "amount"] ->
  strip (lower col) = name -> target col = Some name.
Proof.
  intros Hname Hcol. unfold target. cbv zeta. rewrite Hcol.
  destruct Hname as [<-|[<-|[<-|[]]]]; reflexivity.
Qed.

Lemma resolved_name_present (names : list string) (name : string) :
  In name ["date"; "description"; "amount"] ->
  ((exists col, In col (map (fun col => default col (target col)) names)
                /\ strip (lower col) = name)
   <-> exists col, In col names /\ target col = Some name).
Proof.
  intros Hname. split.
  - intros (col' & Hin & Hcol'). apply in_map_iff in Hin as (col & <- & Hin).
    exists col. split; [exact Hin|].
    destruct (target col) as [name'|] eqn:Ht; cbn [default id] in Hcol'.
    + pose proof (target_canonical col name' Ht) as Hcanon.
      rewrite (canonical_fixed name' Hcanon) in Hcol'. now subst.
    + rewrite (target_of_canonical_text col name Hname Hcol') in Ht. discriminate.
  - intros (col & Hin & Ht). exists name. split.
    + apply in_map_iff. exists col. split; [now rewrite Ht|exact Hin].
    + now apply canonical_fixed.
Qed.

(** X21. On a table with at least one row and one column, none of whose
    columns is named exactly [date], [description] or [amount]:
    [validate_csv_structure] accepts the table [normalize_column_names]
    returns exactly when each of the three canonical names is what some
    column resolves to.  [clean_csv_data] then cleans that table when it
    has more than one row, and raises [AttributeError] when it has one. *)
Theorem normalized_export_accepted (df : DataFrame Cell) :
  df_empty df = false ->
  (forall name, In name ["date"; "description"; "amount"] ->
                ~ In name (column_names df)) ->
  (validate_csv_structure (Some (normalize_column_names df)) = (true, None)
   <-> forall name, In name ["date"; "description"; "amount"] ->
         exists col, In col (column_names df) /\ target col = Some name)
  /\ (rectangular df ->
      validate_csv_structure (Some (normalize_column_names df)) = (true, None) ->
      (length (index df) <> 1%nat ->
       exists cleaned removed,
         clean_csv_data (normalize_column_names df) = inr (cleaned, removed))
      /\ (length (index df) = 1%nat ->
          clean_csv_data (normalize_column_names df) = inl AttributeError)).
Proof.
  intros Hnonempty Hlit. split.
  - rewrite (proj1 (validate_accepts_iff (normalize_column_names df))).
    rewrite normalize_column_names_empty, (normalized_names df Hlit).
    split.
    + intros [_ Hall] name Hname. apply (resolved_name_present _ name Hname).
      now apply Hall.
    + intros Hall. split; [exact Hnonempty|]. intros name Hname.
      apply (resolved_name_present _ name Hname). now apply Hall.
  - intros Hrect Hvalid.
    destruct (normalize_column_names_rectangular df) as [Hidx Hkeep].
    destruct (validated_is_cleaned astype_str to_numeric to_datetime
                (normalize_column_names df) (Hkeep Hrect) Hvalid) as [Hone Hmore].
    rewrite Hidx in Hone, Hmore. split; assumption.
Qed.

End ExportFacts.

Lemma normalized_export_accepted_witness :
  exists cleaned removed,
    Cleaning.clean_csv_data id Parsers.decimal_to_numeric Parsers.iso_to_datetime
      (Utils.normalize_column_names Examples.export_table) = inr (cleaned, removed).
Proof.
  destruct (normalized_export_accepted id Parsers.decimal_to_numeric
              Parsers.iso_to_datetime Examples.export_table) as [Hiff Hclean].
  - reflexivity.
  - intros name Hname Hin. simpl in Hname, Hin. intuition (subst; discriminate).
  - destruct Hclean as [Hmore _].
    + repeat constructor.
    + apply Hiff. intros name Hname. simpl in Hname.
      destruct Hname as [<-|[<-|[<-|[]]]].
      * exists "Posted Date". split; [simpl; tauto|reflexivity].
      * exists "Payee". split; [simpl; tauto|reflexivity].
      * exists "Amt". split; [simpl; tauto|reflexivity].
    + apply Hmore. discriminate.
Defined.

(* ===================================================================== *)
(** ** The removed-row records *)
(* ===================================================================== *)

Section RemovedFacts.
Import PyStr Cleaning.

Context {Cell : Type}.
Variable astype_str : Cell -> string.
Variable to_numeric : string -> option Q.
Variable to_datetime : list Cell -> Cell -> option Timestamp.

Local Abbreviation clean_csv_data := (clean_csv_data astype_str to_numeric to_datetime).
Local Abbreviation clean_description := (clean_description astype_str).
Local Abbreviation amount_clean := (amount_clean astype_str).

(** X22. Every record of [removed_rows] stems from a row of the reduced
    table and carries its index label and its cleaned description.  Its
    reason is one of the two reason texts and tells which field holds the
    marker [Invalid]: for an invalid amount the date is the unparsed cell
    of the row; for an invalid date the amount is the number the row's
    amount parsed to.  The records for invalid amounts all come before
    those for invalid dates. *)
Theorem removed_rows_well_formed (df : DataFrame Cell)
        (cleaned : list CleanRow) (removed : list (RemovedRow Cell)) :
  clean_csv_data df = inr (cleaned, removed) ->
  exists reduced by_amount by_date,
    column_reduce df = inr reduced
    /\ removed = by_amount ++ by_date
    /\ Forall (fun rec =>
                 exists r, In r (rows_of reduced)
                   /\ r_index rec = raw_index r
                   /\ r_description rec = clean_description (raw_description r)
                   /\ r_reason rec = "Invalid amount (could not convert to number)"
                   /\ r_amount rec = Invalid
                   /\ r_date rec = Kept (raw_date r)
                   /\ to_numeric (amount_clean (raw_amount r)) = None) by_amount
    /\ Forall (fun rec =>
                 exists r a, In r (rows_of reduced)
                   /\ r_index rec = raw_index r
                   /\ r_description rec = clean_description (raw_description r)
                   /\ r_reason rec = "Invalid date (could not parse)"
                   /\ r_date rec = Invalid
                   /\ r_amount rec = Kept a
                   /\ to_numeric (amount_clean (raw_amount r)) = Some a) by_date.
Proof.
  intros Hclean.
  destruct (clean_csv_data_accepted astype_str to_numeric to_datetime
              df cleaned removed Hclean) as (reduced & Hred & _ & Hremoved & _).
  set (rows := rows_of reduced) in *.
  exists reduced, (map (amount_record astype_str)
                       (List.filter (amount_removed astype_str to_numeric) rows)),
         (omap (date_record astype_str to_numeric to_datetime rows) rows).
  split; [exact Hred|]. split; [exact Hremoved|]. split.
  - apply List.Forall_forall. intros rec Hrec.
    apply in_map_iff in Hrec as (r & <- & Hr). apply filter_In in Hr as [Hr Hna].
    exists r. unfold amount_removed, amount_of in Hna.
    destruct (to_numeric (amount_clean (raw_amount r))) eqn:E; [discriminate|].
    repeat split; auto.
  - apply List.Forall_forall. intros rec Hrec.
    apply list_elem_of_In, list_elem_of_omap in Hrec as (r & Hr & Hrec).
    apply list_elem_of_In in Hr. unfold date_record, amount_of in Hrec.
    destruct (to_numeric (amount_clean (raw_amount r))) as [a|] eqn:E; [|discriminate].
    destruct (to_datetime _ _); [discriminate|]. injection Hrec as <-.
    exists r, a. repeat split; auto.
Qed.

End RemovedFacts.

Lemma removed_rows_well_formed_witness :
  exists by_amount by_date,
    Examples.statement_removed = by_amount ++ by_date
    /\ length by_amount = 1%nat /\ length by_date = 1%nat.
Proof.
  destruct (removed_rows_well_formed id Parsers.decimal_to_numeric
              Parsers.iso_to_datetime Examples.statement_table
              Examples.statement_cleaned Examples.statement_removed
              statement_table_cleans)
    as (reduced & by_amount & by_date & _ & Hsplit & Ha & Hd).
  exists by_amount, by_date. split; [exact Hsplit|].
  destruct by_amount as [|r1 [|r2 by_amount]].
  - exfalso. cbn [app] in Hsplit. subst by_date.
    apply Forall_inv in Hd as (r & a & _ & _ & _ & Hreason & _). discriminate.
  - cbn [app] in Hsplit. injection Hsplit as _ <-. split; reflexivity.
  - exfalso. cbn [app] in Hsplit. injection Hsplit as _ <- _.
    apply Forall_inv_tail, Forall_inv in Ha as (r & _ & _ & _ & Hreason & _).
    discriminate.
Defined.
